(** * Alpha models and universe selection of Algorithm.Python/Alphas

    A shallow embedding of the Python callbacks that the trading host
    invokes:

    - [Greenblatt]: GreenblattMagicFormulaAlgorithm.py
    - [LowVolatility]: LowVolatilityStockSelectionAlpha.py
    - [MeanReversion]: MeanReversionLunchBreakAlpha.py
    - [TripleLeveragedETF]: TripleLeveragedETFPairVolatilityDecayAlpha.py

    Conventions of the embedding.

    - A Python [dict] is an insertion-ordered association list with
      pairwise distinct keys ([PyDict]); iteration follows insertion order
      and assigning to an existing key keeps the key's position.
    - [sorted(l, key=..., reverse=...)] is a stable sort: the keys are
      computed once for every element, then the elements are ordered, ties
      staying in their input order also when [reverse=True] ([PySort]).
    - Numbers handed over by the host (prices, volumes, ratios) are finite
      floats or decimals, each of which is a rational: they are values of
      [Q]. The arithmetic on them rounds, so it is not [Q]'s: it is taken
      from the class [FloatArith]. Comparisons are exact. The one
      number that can be NaN, a standard deviation computed by pandas, is
      a [float]; what [sorted] makes of keys that include NaN is taken
      from the class [PythonRuntime].
    - An exception is a value of [exn]; code that can raise returns a
      [result].
    - Calls into the host that only have an effect on the host (logging,
      registering or removing a consolidator) are left out; what the host
      computes and the callbacks read is an argument. *)

From Stdlib Require Import String.
From Stdlib Require Import List ZArith QArith Qround Bool Lia.
From Stdlib Require Import Permutation Sorted.
Import ListNotations.

Set Implicit Arguments.

(** ** Exceptions *)

Inductive exn : Type :=
| KeyError (key : string)
| ZeroDivisionError.

Inductive result (A : Type) : Type :=
| Ok (a : A)
| Raise (e : exn).

Arguments Ok {A} a.
Arguments Raise {A} e.

Definition bind {A B : Type} (r : result A) (k : A -> result B) : result B :=
  match r with
  | Ok a => k a
  | Raise e => Raise e
  end.

Notation "x <- r ;; k" := (bind r (fun x => k))
  (at level 61, r at next level, right associativity).

(** [[f(x) for x in l]] where [f] can raise: the first exception wins. *)
Fixpoint mapM {A B : Type} (f : A -> result B) (l : list A) : result (list B) :=
  match l with
  | [] => Ok []
  | x :: l' => y <- f x ;; ys <- mapM f l' ;; Ok (y :: ys)
  end.

(** ** Numbers *)

Definition Qltb (a b : Q) : bool := negb (Qle_bool b a).
Definition Qneqb (a b : Q) : bool := negb (Qeq_bool a b).

(** The rounding arithmetic of Python floats on finite values. *)
Class FloatArith : Type := {
  fl_mul : Q -> Q -> Q;
  fl_div : Q -> Q -> Q;
  fl_sub : Q -> Q -> Q
}.

(** [a / b] raises when [b] is zero. *)
Definition truediv `{FloatArith} (a b : Q) : result Q :=
  if Qeq_bool b 0 then Raise ZeroDivisionError else Ok (fl_div a b).

(** [l[:n]] and [l[0:n]] for an integer [n]: a negative [n] counts from
    the end. *)
Definition slice_to {A : Type} (n : Z) (l : list A) : list A :=
  if (n <? 0)%Z
  then firstn (Z.to_nat (Z.of_nat (length l) + n)) l
  else firstn (Z.to_nat n) l.

(** ** Python dictionaries keyed by strings *)

Module PyDict.
Section Dict.
Variable V : Type.

Definition dict : Type := list (string * V).

Definition empty : dict := [].

Fixpoint get (k : string) (d : dict) : option V :=
  match d with
  | [] => None
  | (k', v) :: d' => if String.eqb k k' then Some v else get k d'
  end.

Definition contains (k : string) (d : dict) : bool :=
  match get k d with Some _ => true | None => false end.

(** [d[k]] *)
Definition getitem (k : string) (d : dict) : result V :=
  match get k d with Some v => Ok v | None => Raise (KeyError k) end.

(** [d[k] = v] *)
Fixpoint setitem (k : string) (v : V) (d : dict) : dict :=
  match d with
  | [] => [(k, v)]
  | (k', v') :: d' =>
      if String.eqb k k' then (k', v) :: d' else (k', v') :: setitem k v d'
  end.

Fixpoint remove (k : string) (d : dict) : dict :=
  match d with
  | [] => []
  | (k', v') :: d' =>
      if String.eqb k k' then d' else (k', v') :: remove k d'
  end.

(** [d.pop(k, None)] *)
Definition pop (k : string) (d : dict) : option V * dict :=
  (get k d, remove k d).

Definition keys (d : dict) : list string := map fst d.
Definition values (d : dict) : list V := map snd d.
Definition items (d : dict) : list (string * V) := d.

(** Assigning a run of items, one after the other. *)
Definition assign_all (l : list (string * V)) (d : dict) : dict :=
  fold_left (fun d kv => setitem (fst kv) (snd kv) d) l d.

(** [dict(pairs)] and [{k: v for ...}] *)
Definition of_items (l : list (string * V)) : dict := assign_all l empty.

Definition wf (d : dict) : Prop := NoDup (keys d).
End Dict.

Arguments empty {V}.
End PyDict.

(** ** [sorted] *)

Module PySort.
Section Insertion.
Variable A : Type.
Variable le : A -> A -> bool.

Fixpoint insert (x : A) (l : list A) : list A :=
  match l with
  | [] => [x]
  | y :: l' => if le x y then x :: l else y :: insert x l'
  end.

Definition stable_sort (l : list A) : list A := fold_right insert [] l.
End Insertion.

(** The order of the decorated elements. *)
Definition key_le (A : Type) (reverse : bool) (a b : Q * A) : bool :=
  if reverse then Qle_bool (fst b) (fst a) else Qle_bool (fst a) (fst b).

Definition sort_keyed (A : Type) (reverse : bool) (l : list (Q * A))
  : list (Q * A) :=
  stable_sort (key_le reverse) l.

(** [sorted(l, key=key, reverse=reverse)] *)
Definition sorted (A : Type) (key : A -> Q) (reverse : bool) (l : list A)
  : list A :=
  map snd (sort_keyed reverse (map (fun x => (key x, x)) l)).

(** [sorted] with a key function that can raise. *)
Definition sorted_partial (A : Type) (key : A -> result Q) (reverse : bool)
  (l : list A) : result (list A) :=
  decorated <- mapM (fun x => k <- key x ;; Ok (k, x)) l ;;
  Ok (map snd (sort_keyed reverse decorated)).

(** What "sorted by [key]" means, in either direction. *)
Definition ordered (A : Type) (key : A -> Q) (reverse : bool) (a b : A) : Prop :=
  if reverse then (key b <= key a)%Q else (key a <= key b)%Q.
End PySort.

(** ** Floats that can be NaN *)

(** What a statistic of pandas returns: a number, or NaN. *)
Inductive float : Type :=
| Finite (q : Q)
| NaN.

Definition is_nan (x : float) : bool :=
  match x with
  | NaN => true
  | Finite _ => false
  end.

(** The number that a float is, 0 standing for NaN. *)
Definition finite_value (x : float) : Q :=
  match x with
  | Finite q => q
  | NaN => 0
  end.


(** What [sorted] returns on keys that include NaN. Every comparison with
    NaN is false, so such keys are not ordered, and the result is what the
    sorting algorithm happens to make of them: a rearrangement of the
    decorated list, of which nothing else is known here. *)
Class PythonRuntime : Type := {
  sorted_unordered :
    forall A : Type, bool -> list (float * A) -> list (float * A);
  sorted_unordered_permutes :
    forall (A : Type) (reverse : bool) (l : list (float * A)),
      Permutation (sorted_unordered reverse l) l
}.

Module PyFloatSort.
(** [sorted(l, key=key, reverse=reverse)] with float keys: the stable sort
    of [PySort] when no key is NaN. *)
Definition sorted `{PythonRuntime} (A : Type) (key : A -> float)
  (reverse : bool) (l : list A) : list A :=
  if existsb (fun x => is_nan (key x)) l
  then map snd (sorted_unordered reverse (map (fun x => (key x, x)) l))
  else PySort.sorted (fun x => finite_value (key x)) reverse l.
End PyFloatSort.

(** ** Host records *)

Definition Symbol : Type := string.

(** A [timedelta], in microseconds. *)
Definition timedelta : Type := Z.

Definition microseconds_per_day : Z := 86400000000.

(** [timedelta(days=d)] *)
Definition timedelta_days (d : Z) : timedelta := (d * microseconds_per_day)%Z.

(** The attributes of a [datetime] that the callbacks read, and its
    position on the time line in microseconds. *)
Record datetime : Type := {
  month : Z;
  hour : Z;
  timestamp : Z
}.

(** [(a - b).days]: the difference in whole days, rounded down. *)
Definition days_between (a b : datetime) : Z :=
  ((timestamp a - timestamp b) / microseconds_per_day)%Z.

Inductive Resolution : Type := Tick | Second | Minute | Hour | Daily.

Inductive InsightDirection : Type := Down | Flat | Up.

Inductive InsightType : Type := PriceInsight | VolatilityInsight.

Module Insight.
Record t : Type := {
  Symbol : Symbol;
  Type_ : InsightType;
  Period : timedelta;
  Direction : InsightDirection;
  Magnitude : option Q;
  Confidence : option Q
}.

(** [Insight.Price(symbol, period, direction, magnitude, confidence)] *)
Definition Price (symbol : string) (period : timedelta)
  (direction : InsightDirection) (magnitude confidence : option Q) : t :=
  {| Symbol := symbol; Type_ := PriceInsight; Period := period;
     Direction := direction; Magnitude := magnitude;
     Confidence := confidence |}.
End Insight.

(** The market data of a tick. No callback below reads it. *)
Module Slice.
Record TradeBar : Type := {
  Open : Q; High : Q; Low : Q; Close : Q; Volume : Z
}.
Record t : Type := { Bars : PyDict.dict TradeBar }.
End Slice.

(** A price history: a data frame indexed by (ticker, time), as the list of
    its tickers in index order, each with its rows in time order. *)
Module DataFrame.
Record Row : Type := { Index : datetime; close : Q }.

Definition t : Type := list (string * list Row).

(** [df.empty]: there is no row. *)
Definition empty (df : t) : bool :=
  forallb (fun g => match snd g with [] => true | _ :: _ => false end) df.

(** [df.index.levels[0]] *)
Definition levels0 (df : t) : list string := map fst df.

(** [df.loc[ticker]] *)
Definition loc (ticker : string) (df : t) : list Row :=
  match find (fun g => String.eqb ticker (fst g)) df with
  | Some g => snd g
  | None => []
  end.

(** [df.close.unstack(level=0)]: one column of close prices per ticker. *)
Definition close_unstack (df : t) : list (string * list Q) :=
  map (fun g => (fst g, map close (snd g))) df.
End DataFrame.

(** What the host's indicator and symbol services offer to the callbacks. *)
Class Host : Type := {
  RateOfChange : Type;
  (** [RateOfChange('{}.ROC({})'.format(symbol, lookback), lookback)] *)
  RateOfChange_new : Symbol -> Z -> RateOfChange;
  (** [roc.Update(time, value)] *)
  RateOfChange_Update : RateOfChange -> datetime -> Q -> RateOfChange;
  Samples : RateOfChange -> Z;
  IsReady : RateOfChange -> bool;
  Current_Value : RateOfChange -> Q;
  Consolidator : Type;
  ResolveConsolidator : Symbol -> Resolution -> Consolidator;
  SymbolCache_GetSymbol : string -> Symbol;
  (** [column.pct_change().std()] of a column of close prices *)
  pct_change_std : list Q -> float
}.

(** * GreenblattMagicFormulaAlgorithm.py *)

Module Greenblatt.
Section WithHost.
Context {host : Host} {arith : FloatArith}.

Record Security : Type := { Security_Symbol : Symbol }.

Record SecurityChanges : Type := {
  AddedSecurities : list Security;
  RemovedSecurities : list Security
}.

Record QCAlgorithm : Type := {
  Time : datetime;
  History : list Symbol -> Z -> Resolution -> DataFrame.t
}.

(** *** SymbolData *)

Record SymbolData : Type := {
  Symbol : Symbol;
  ROC : RateOfChange;
  Consolidator_ : option Consolidator;
  previous : Z
}.

(** [SymbolData.__init__] *)
Definition SymbolData_init (symbol : string) (lookback : Z) : SymbolData :=
  {| Symbol := symbol;
     ROC := RateOfChange_new symbol lookback;
     Consolidator_ := None;
     previous := 0 |}.

Definition RegisterIndicators (self : SymbolData) (resolution : Resolution)
  : SymbolData :=
  {| Symbol := Symbol self;
     ROC := ROC self;
     Consolidator_ := Some (ResolveConsolidator (Symbol self) resolution);
     previous := previous self |}.

Definition WarmUpIndicators (self : SymbolData) (history : list DataFrame.Row)
  : SymbolData :=
  fold_left
    (fun sd tuple =>
       {| Symbol := Symbol sd;
          ROC := RateOfChange_Update (ROC sd) (DataFrame.Index tuple)
                   (DataFrame.close tuple);
          Consolidator_ := Consolidator_ sd;
          previous := previous sd |})
    history self.

Definition Return (self : SymbolData) : Q := Current_Value (ROC self).

(** The property [CanEmit]: its value and the object after the read. *)
Definition CanEmit (self : SymbolData) : bool * SymbolData :=
  if (previous self =? Samples (ROC self))%Z then (false, self)
  else (IsReady (ROC self),
        {| Symbol := Symbol self;
           ROC := ROC self;
           Consolidator_ := Consolidator_ self;
           previous := Samples (ROC self) |}).

(** *** MagicFormulaAlphaModel *)

Record MagicFormulaAlphaModel : Type := {
  lookback : Z;
  resolution : Resolution;
  predictionInterval : timedelta;
  symbolDataBySymbol : PyDict.dict SymbolData
}.

Definition set_symbolDataBySymbol (self : MagicFormulaAlphaModel)
  (d : PyDict.dict SymbolData) : MagicFormulaAlphaModel :=
  {| lookback := lookback self;
     resolution := resolution self;
     predictionInterval := predictionInterval self;
     symbolDataBySymbol := d |}.

(** The loop of [Update] over the items of the dictionary: the insights
    collected so far, and the items with their objects as the loop
    leaves them. *)
Fixpoint Update_loop (interval : timedelta)
  (items : list (string * SymbolData)) (insights : list Insight.t)
  : list Insight.t * list (string * SymbolData) :=
  match items with
  | [] => (insights, [])
  | (symbol, symbolData) :: rest =>
      let (can, symbolData') := CanEmit symbolData in
      let insights' :=
        if can
        then insights ++
             [Insight.Price symbol interval Up (Some (Return symbolData')) None]
        else insights in
      let (out, rest') := Update_loop interval rest insights' in
      (out, (symbol, symbolData') :: rest')
  end.

Definition Update (self : MagicFormulaAlphaModel) (algorithm : QCAlgorithm)
  (data : Slice.t) : list Insight.t * MagicFormulaAlphaModel :=
  let (insights, d) :=
    Update_loop (predictionInterval self)
      (PyDict.items (symbolDataBySymbol self)) [] in
  (insights, set_symbolDataBySymbol self d).

(** The first loop of [OnSecuritiesChanged]. *)
Definition remove_securities (removed : list Security)
  (d : PyDict.dict SymbolData) : PyDict.dict SymbolData :=
  fold_left (fun d r => snd (PyDict.pop (Security_Symbol r) d)) removed d.

(** The second loop. The new object is stored before it is registered and
    warmed up; the dictionary holds that same object, so it sees both. *)
Definition add_tickers (self : MagicFormulaAlphaModel) (history : DataFrame.t)
  (d : PyDict.dict SymbolData) : PyDict.dict SymbolData :=
  fold_left
    (fun d ticker =>
       let symbol := SymbolCache_GetSymbol ticker in
       if PyDict.contains symbol d then d
       else
         let symbolData := SymbolData_init symbol (lookback self) in
         PyDict.setitem symbol
           (WarmUpIndicators
              (RegisterIndicators symbolData (resolution self))
              (DataFrame.loc ticker history))
           d)
    (DataFrame.levels0 history) d.

Definition OnSecuritiesChanged (self : MagicFormulaAlphaModel)
  (algorithm : QCAlgorithm) (changes : SecurityChanges)
  : MagicFormulaAlphaModel :=
  let d := remove_securities (RemovedSecurities changes)
             (symbolDataBySymbol self) in
  let symbols := map Security_Symbol (AddedSecurities changes) in
  let history :=
    History algorithm symbols (lookback self) (resolution self) in
  if DataFrame.empty history then set_symbolDataBySymbol self d
  else set_symbolDataBySymbol self (add_tickers self history d).

(** [MagicFormulaAlphaModel.__init__], with the keyword arguments it looks
    for and the time span of a resolution, which the host computes. *)
Definition MagicFormulaAlphaModel_init (kw_lookback : option Z)
  (kw_resolution : option Resolution) (ToTimeSpan : Resolution -> timedelta)
  : MagicFormulaAlphaModel :=
  let lookback := match kw_lookback with Some l => l | None => 1%Z end in
  let resolution := match kw_resolution with Some r => r | None => Daily end in
  {| lookback := lookback;
     resolution := resolution;
     predictionInterval := (ToTimeSpan resolution * lookback)%Z;
     symbolDataBySymbol := PyDict.empty |}.

(** The bookkeeping invariant: every key maps to the record of that very
    symbol. *)
Definition keyed_by_symbol (d : PyDict.dict SymbolData) : Prop :=
  forall k v, In (k, v) d -> Symbol v = k.

(** *** MagicFormulaUniverseSelectionModel *)

Record CoarseFundamental : Type := {
  Coarse_Symbol : string;
  EndTime : datetime;
  HasFundamentalData : bool;
  Volume : Z;
  Price : Q;
  DollarVolume : Q
}.

Record CompanyReference_t : Type := {
  CountryId : string;
  PrimaryExchangeID : string;
  IndustryTemplateCode : string
}.

Record SecurityReference_t : Type := { IPODate : datetime }.

Record EarningReports_t : Type := {
  BasicAverageShares_ThreeMonths : Q;
  BasicEPS_TwelveMonths : Q
}.

Record ValuationRatios_t : Type := { PERatio : Q; EVToEBITDA : Q }.

Record OperationRatios_t : Type := { ROIC_OneYear : Q }.

Record FineFundamental : Type := {
  Fine_Symbol : string;
  CompanyReference : CompanyReference_t;
  SecurityReference : SecurityReference_t;
  EarningReports : EarningReports_t;
  ValuationRatios : ValuationRatios_t;
  OperationRatios : OperationRatios_t
}.

(** The three sizes that [__init__] sets and no method changes. *)
Definition NumberOfSymbolsCoarse : Z := 500.
Definition NumberOfSymbolsFine : Z := 20.
Definition NumberOfSymbolsInPortfolio : Z := 10.

Record MagicFormulaUniverseSelectionModel : Type := {
  lastMonth : Z;
  dollarVolumeBySymbol : PyDict.dict Q;
  symbols : list string
}.

(** [__init__] *)
Definition MagicFormulaUniverseSelectionModel_init
  : MagicFormulaUniverseSelectionModel :=
  {| lastMonth := (-1)%Z; dollarVolumeBySymbol := PyDict.empty; symbols := [] |}.

Definition coarse_filter (x : CoarseFundamental) : bool :=
  HasFundamentalData x && (0 <? Volume x)%Z && Qltb 0 (Price x).

Definition SelectCoarse (self : MagicFormulaUniverseSelectionModel)
  (algorithm : QCAlgorithm) (coarse : list CoarseFundamental)
  : list string * MagicFormulaUniverseSelectionModel :=
  match coarse with
  | [] => (symbols self, self)
  | first :: _ =>
      let month := month (EndTime first) in
      if (month =? lastMonth self)%Z then (symbols self, self)
      else
        let filtered := filter coarse_filter coarse in
        let top :=
          slice_to NumberOfSymbolsCoarse
            (PySort.sorted DollarVolume true filtered) in
        let dollarVolumeBySymbol' :=
          PyDict.of_items
            (map (fun i => (Coarse_Symbol i, DollarVolume i)) top) in
        let symbols' := PyDict.keys dollarVolumeBySymbol' in
        (symbols',
         {| lastMonth := month;
            dollarVolumeBySymbol := dollarVolumeBySymbol';
            symbols := symbols' |})
  end.

Definition market_cap (x : FineFundamental) : Q :=
  fl_mul
    (fl_mul (BasicAverageShares_ThreeMonths (EarningReports x))
            (BasicEPS_TwelveMonths (EarningReports x)))
    (PERatio (ValuationRatios x)).

Definition fine_filter (now : datetime) (x : FineFundamental) : bool :=
  String.eqb (CountryId (CompanyReference x)) "USA"
  && (String.eqb (PrimaryExchangeID (CompanyReference x)) "NYS"
      || String.eqb (PrimaryExchangeID (CompanyReference x)) "NAS")
  && (180 <? days_between now (IPODate (SecurityReference x)))%Z
  && Qltb (500000000 # 1) (market_cap x).

Definition sector_keys : list string := ["N"; "M"; "U"; "T"; "B"; "I"]%string.

(** [ceil(len(value) * percent)] *)
Definition sector_quota (percent : Q) (len : nat) : Z :=
  Qceiling (fl_mul (inject_Z (Z.of_nat len)) percent).

(** The body of the loop over the sector keys. *)
Definition sector_step (self : MagicFormulaUniverseSelectionModel)
  (filteredFine : list FineFundamental) (percent : Q)
  (myDict : PyDict.dict (list FineFundamental)) (key : string)
  : result (PyDict.dict (list FineFundamental)) :=
  let value :=
    filter (fun x => String.eqb (IndustryTemplateCode (CompanyReference x)) key)
      filteredFine in
  value' <- PySort.sorted_partial
              (fun x => PyDict.getitem (Fine_Symbol x) (dollarVolumeBySymbol self))
              true value ;;
  Ok (PyDict.setitem key
        (slice_to (sector_quota percent (length value')) value') myDict).

Fixpoint sector_loop (self : MagicFormulaUniverseSelectionModel)
  (filteredFine : list FineFundamental) (percent : Q)
  (keys : list string) (myDict : PyDict.dict (list FineFundamental))
  : result (PyDict.dict (list FineFundamental)) :=
  match keys with
  | [] => Ok myDict
  | key :: keys' =>
      myDict' <- sector_step self filteredFine percent myDict key ;;
      sector_loop self filteredFine percent keys' myDict'
  end.

Definition SelectFine (self : MagicFormulaUniverseSelectionModel)
  (algorithm : QCAlgorithm) (fine : list FineFundamental)
  : result (list string * MagicFormulaUniverseSelectionModel) :=
  let filteredFine := filter (fine_filter (Time algorithm)) fine in
  let count := length filteredFine in
  if (count =? 0)%nat then Ok ([], self)
  else
    let percent :=
      fl_div (inject_Z NumberOfSymbolsFine) (inject_Z (Z.of_nat count)) in
    myDict <- sector_loop self filteredFine percent sector_keys PyDict.empty ;;
    let topFine :=
      slice_to NumberOfSymbolsCoarse (concat (PyDict.values myDict)) in
    let sortedByEVToEBITDA :=
      PySort.sorted (fun x => EVToEBITDA (ValuationRatios x)) true topFine in
    let sortedByROIC :=
      PySort.sorted (fun x => ROIC_OneYear (OperationRatios x)) false
        (slice_to NumberOfSymbolsFine sortedByEVToEBITDA) in
    let top := slice_to NumberOfSymbolsInPortfolio sortedByROIC in
    let symbols' := map Fine_Symbol top in
    Ok (symbols',
        {| lastMonth := lastMonth self;
           dollarVolumeBySymbol := dollarVolumeBySymbol self;
           symbols := symbols' |}).

(** *** Vocabulary of the statements about [SelectFine] *)

(** The dollar volume that [SelectCoarse] stored for a security, 0 when it
    stored none. *)
Definition stored_dollar_volume (self : MagicFormulaUniverseSelectionModel)
  (x : FineFundamental) : Q :=
  match PyDict.get (Fine_Symbol x) (dollarVolumeBySymbol self) with
  | Some v => v
  | None => 0
  end.

Definition in_sector (key : string) (x : FineFundamental) : bool :=
  String.eqb (IndustryTemplateCode (CompanyReference x)) key.

(** Every security of the sector [key] has a stored dollar volume. *)
Definition stored_in_sector (self : MagicFormulaUniverseSelectionModel)
  (filteredFine : list FineFundamental) (key : string) : Prop :=
  forall x, In x filteredFine ->
            IndustryTemplateCode (CompanyReference x) = key ->
            PyDict.contains (Fine_Symbol x) (dollarVolumeBySymbol self) = true.

(** [value] is the top part of the sector [key]: the securities of
    [filteredFine] in that sector, ranked by stored dollar volume in
    descending order and cut at the sector's quota. *)
Definition sector_top (self : MagicFormulaUniverseSelectionModel)
  (filteredFine : list FineFundamental) (key : string)
  (value : list FineFundamental) : Prop :=
  exists ranked : list FineFundamental,
    Permutation ranked (filter (in_sector key) filteredFine)
    /\ StronglySorted (PySort.ordered (stored_dollar_volume self) true) ranked
    /\ value =
       slice_to
         (sector_quota
            (fl_div (inject_Z NumberOfSymbolsFine)
               (inject_Z (Z.of_nat (length filteredFine))))
            (length ranked))
         ranked.
End WithHost.
End Greenblatt.

(** * LowVolatilityStockSelectionAlpha.py *)

Module LowVolatility.
Section WithHost.
Context {host : Host} {runtime : PythonRuntime}.

Record Security : Type := { Symbol : Symbol; HasData : bool }.

Record QCAlgorithm : Type := {
  Time : datetime;
  (** [ActiveSecurities.Values] *)
  ActiveSecurities_Values : list Security;
  History : list string -> Z -> Resolution -> DataFrame.t
}.

Record LowVolatilitySelectionAlphaModel : Type := {
  lookback : Z;
  numberOfStocks : Z;
  resolution : Resolution;
  predictionInterval : timedelta
}.

(** [__init__], with the keyword arguments it looks for and the time span
    of the resolution, which the host computes. *)
Definition LowVolatilitySelectionAlphaModel_init
  (kw_lookback kw_numberOfStocks : option Z) (kw_resolution : option Resolution)
  (ToTimeSpan : Resolution -> timedelta) : LowVolatilitySelectionAlphaModel :=
  let resolution := match kw_resolution with Some r => r | None => Daily end in
  {| lookback := match kw_lookback with Some l => l | None => 252%Z end;
     numberOfStocks := match kw_numberOfStocks with Some n => n | None => 10%Z end;
     resolution := resolution;
     predictionInterval := (ToTimeSpan resolution * 1)%Z |}.

(** The first loop of [Update]. *)
Definition symbols_with_data (securities : list Security) : list string :=
  fold_left (fun symbols security =>
               if HasData security then symbols ++ [Symbol security]
               else symbols)
    securities [].

Definition Update (self : LowVolatilitySelectionAlphaModel)
  (algorithm : QCAlgorithm) (data : Slice.t) : list Insight.t :=
  let symbols := symbols_with_data (ActiveSecurities_Values algorithm) in
  let hist := History algorithm symbols (lookback self) (resolution self) in
  if DataFrame.empty hist then []
  else
    let stdDev :=
      map (fun column => pct_change_std (snd column))
        (DataFrame.close_unstack hist) in
    let symbolsVol := PyDict.of_items (combine symbols stdDev) in
    let number_of_stocks :=
      Z.min (Z.of_nat (length symbolsVol)) (numberOfStocks self) in
    let lowVol :=
      PyDict.of_items
        (slice_to number_of_stocks
           (PyFloatSort.sorted (fun kv : string * float => snd kv) false
              (PyDict.items symbolsVol))) in
    fold_left
      (fun insights kv =>
         insights ++
         [Insight.Price (fst kv) (predictionInterval self) Up (Some 0) None])
      (PyDict.items lowVol) [].
End WithHost.
End LowVolatility.

(** * MeanReversionLunchBreakAlpha.py *)

Module MeanReversion.
Section WithArith.
Context {arith : FloatArith}.

Record Security : Type := {
  Symbol : Symbol;
  HasData : bool;
  Open : Q;
  Close : Q
}.

Record QCAlgorithm : Type := {
  Time : datetime;
  ActiveSecurities_Values : list Security
}.

Record MeanReversionLunchBreakAlphaModel : Type := {
  lookback : Z;
  resolution : Resolution;
  predictionInterval : timedelta
}.

(** The body of the loop that fills [symbolsReturn]. *)
Definition return_step (symbolsReturn : PyDict.dict Q) (security : Security)
  : result (PyDict.dict Q) :=
  if HasData security then
    let open := Open security in
    if Qneqb open 0 then
      quotient <- truediv (Close security) open ;;
      Ok (PyDict.setitem (Symbol security) (fl_sub quotient 1) symbolsReturn)
    else Ok symbolsReturn
  else Ok symbolsReturn.

Fixpoint return_loop (securities : list Security) (symbolsReturn : PyDict.dict Q)
  : result (PyDict.dict Q) :=
  match securities with
  | [] => Ok symbolsReturn
  | security :: rest =>
      symbolsReturn' <- return_step symbolsReturn security ;;
      return_loop rest symbolsReturn'
  end.

(** The loop over the items of [symbolsReturn]: both branches of its body
    return, so only the first item is ever looked at. *)
Definition emit_loop (interval : timedelta) (items : list (string * Q))
  : list Insight.t :=
  match items with
  | [] => []
  | (key, value) :: _ =>
      if Qltb 0 value
      then [Insight.Price key interval Down (Some 0) None]
      else [Insight.Price key interval Up (Some 0) None]
  end.

Definition Update (self : MeanReversionLunchBreakAlphaModel)
  (algorithm : QCAlgorithm) (data : Slice.t) : result (list Insight.t) :=
  if negb (hour (Time algorithm) =? 12)%Z then Ok []
  else
    symbolsReturn <- return_loop (ActiveSecurities_Values algorithm) PyDict.empty ;;
    Ok (emit_loop (predictionInterval self) (PyDict.items symbolsReturn)).

(** *** Vocabulary of the statements about [Update] *)

(** The securities whose return the first loop computes. *)
Definition has_return (security : Security) : bool :=
  HasData security && Qneqb (Open security) 0.

(** [security.Close / open - 1] *)
Definition pre_lunch_return (security : Security) : Q :=
  fl_sub (fl_div (Close security) (Open security)) 1.
End WithArith.
End MeanReversion.

(** * TripleLeveragedETFPairVolatilityDecayAlpha.py *)

Module TripleLeveragedETF.
Record ETFGroup : Type := { ultraLong : Symbol; ultraShort : Symbol }.

Record QCAlgorithm : Type := { Time : datetime }.

(** The model. Its attribute [date] is set once and never read, and is
    left out. *)
Record RebalancingTripleLeveragedETFAlphaModel : Type := {
  ETFgroups : list ETFGroup;
  Name : string
}.

(** [__init__] *)
Definition RebalancingTripleLeveragedETFAlphaModel_init
  (ETFgroups : list ETFGroup) : RebalancingTripleLeveragedETFAlphaModel :=
  {| ETFgroups := ETFgroups;
     Name := "RebalancingTripleLeveragedETFAlphaModel" |}.

Definition Update (self : RebalancingTripleLeveragedETFAlphaModel)
  (algorithm : QCAlgorithm) (data : Slice.t) : list Insight.t :=
  let magnitude : Q := 0 in
  let period := timedelta_days 1 in
  fold_left
    (fun insights group =>
       (insights ++
        [Insight.Price (ultraLong group) period Down (Some magnitude) None]) ++
       [Insight.Price (ultraShort group) period Down (Some magnitude) None])
    (ETFgroups self) [].
End TripleLeveragedETF.

(** * The host calls of SymbolData.RemoveConsolidators *)

Module GreenblattHostCalls.
Import Greenblatt.
Section WithHost.
Context {host : Host}.

(** [SymbolData.RemoveConsolidators]: the calls
    [SubscriptionManager.RemoveConsolidator(symbol, consolidator)] it makes. *)
Definition RemoveConsolidators (self : SymbolData)
  : list (string * Consolidator) :=
  match Consolidator_ self with
  | Some consolidator => [(Symbol self, consolidator)]
  | None => []
  end.

(** The first loop of [OnSecuritiesChanged] with the host calls it makes:
    the calls so far and the dictionary. *)
Definition remove_securities_calls (removed : list Security)
  (d : PyDict.dict SymbolData)
  : list (string * Consolidator) * PyDict.dict SymbolData :=
  fold_left
    (fun state r =>
       let (symbolData, d') := PyDict.pop (Security_Symbol r) (snd state) in
       match symbolData with
       | Some symbolData => (fst state ++ RemoveConsolidators symbolData, d')
       | None => (fst state, d')
       end)
    removed ([], d).
End WithHost.
End GreenblattHostCalls.

(** * testAlpha.py *)

Module ShareClassMeanReversion.

(** The exceptions of this file's list, mapping and arithmetic accesses. *)
Inductive error : Type :=
| IndexError
| TypeError
| MissingKey (key : string).

Inductive outcome (A : Type) : Type :=
| Done (a : A)
| Raised (e : error).

Arguments Done {A} a.
Arguments Raised {A} e.

Definition and_then {A B : Type} (o : outcome A) (k : A -> outcome B)
  : outcome B :=
  match o with
  | Done a => k a
  | Raised e => Raised e
  end.

Notation "x <~ o ;; k" := (and_then o (fun x => k))
  (at level 61, o at next level, right associativity).

(** [l[i]] for an integer [i]: a negative [i] counts from the end. *)
Definition list_getitem {A : Type} (l : list A) (i : Z) : outcome A :=
  let n := Z.of_nat (length l) in
  let j := if (i <? 0)%Z then (i + n)%Z else i in
  if (j <? 0)%Z then Raised IndexError
  else match nth_error l (Z.to_nat j) with
       | Some x => Done x
       | None => Raised IndexError
       end.

(** What the host's moving average offers. *)
Class IndicatorHost : Type := {
  SimpleMovingAverage : Type;
  SimpleMovingAverage_new : Z -> SimpleMovingAverage;
  SimpleMovingAverage_Update :
    SimpleMovingAverage -> datetime -> Q -> SimpleMovingAverage;
  SimpleMovingAverage_IsReady : SimpleMovingAverage -> bool;
  SimpleMovingAverage_Current_Value : SimpleMovingAverage -> Q
}.

Section WithHost.
Context {indicators : IndicatorHost} {arith : FloatArith}.

Record TradeBar : Type := { Close : Q; EndTime : datetime }.

(** The slice of a tick. *)
Record Data : Type := { Bars : PyDict.dict TradeBar }.

(** What a call reads from the algorithm's host side. *)
Record Environment : Type := {
  Portfolio_Invested : bool;
  CalculateOrderQuantity : string -> Q -> Q
}.

(** What a call asks the host to do. *)
Inductive Action : Type :=
| EmitInsights (group : list Insight.t)
| SetHoldings (symbol : string) (percentage : Q)
| Liquidate.

Record ShareClassMeanReversionAlphaModel : Type := {
  symbols : list string;
  sma : SimpleMovingAverage;
  portfolio : list Q;
  period_counter : Z;
  alpha : option Q;
  beta : option Q
}.

(** [Initialize], as far as it sets the object's attributes. *)
Definition Initialize : ShareClassMeanReversionAlphaModel :=
  {| symbols := ["GOOG"; "GOOGL"]%string;
     sma := SimpleMovingAverage_new 20;
     portfolio := [];
     period_counter := 0;
     alpha := None;
     beta := None |}.

(** [data[symbol]] *)
Definition data_getitem (data : Data) (symbol : string) : outcome TradeBar :=
  match PyDict.get symbol (Bars data) with
  | Some bar => Done bar
  | None => Raised (MissingKey symbol)
  end.

(** [quantity * price], where [quantity] may still be [None]. *)
Definition times (quantity : option Q) (price : Q) : outcome Q :=
  match quantity with
  | Some q => Done (fl_mul q price)
  | None => Raised TypeError
  end.

Definition set_period_counter (self : ShareClassMeanReversionAlphaModel)
  (n : Z) : ShareClassMeanReversionAlphaModel :=
  {| symbols := symbols self; sma := sma self; portfolio := portfolio self;
     period_counter := n; alpha := alpha self; beta := beta self |}.

(** [crossed_mean]: its value and the object afterwards. The second
    operand of each [and] is evaluated only when the first is true. *)
Definition crossed_mean (self : ShareClassMeanReversionAlphaModel)
  : outcome (bool * ShareClassMeanReversionAlphaModel) :=
  let mean := SimpleMovingAverage_Current_Value (sma self) in
  let counted := set_period_counter self (period_counter self + 1) in
  current <~ list_getitem (portfolio self) (period_counter self) ;;
  above_then_below <~
    (if Qle_bool mean current then
       before <~ list_getitem (portfolio self) (period_counter self - 1) ;;
       Done (Qltb before mean)
     else Done false) ;;
  if above_then_below : bool then Done (true, counted)
  else
    current' <~ list_getitem (portfolio self) (period_counter self) ;;
    below_then_above <~
      (if Qltb current' mean then
         before <~ list_getitem (portfolio self) (period_counter self - 1) ;;
         Done (Qle_bool mean before)
       else Done false) ;;
    if below_then_above : bool then Done (true, counted)
    else Done (false, counted).

(** [(self.alpha * data[self.symbols[0]].Close)
     - (self.beta * data[self.symbols[1]].Close)] *)
Definition position_value (self : ShareClassMeanReversionAlphaModel)
  (data : Data) : outcome Q :=
  symbol0 <~ list_getitem (symbols self) 0 ;;
  bar0 <~ data_getitem data symbol0 ;;
  long <~ times (alpha self) (Close bar0) ;;
  symbol1 <~ list_getitem (symbols self) 1 ;;
  bar1 <~ data_getitem data symbol1 ;;
  short <~ times (beta self) (Close bar1) ;;
  Done (fl_sub long short).

(** The three statements that both branches of [OnData] start with: the
    position value, the update of the average and the append. *)
Definition record_position (self : ShareClassMeanReversionAlphaModel)
  (data : Data) : outcome (Q * ShareClassMeanReversionAlphaModel) :=
  value <~ position_value self data ;;
  symbol0 <~ list_getitem (symbols self) 0 ;;
  bar0 <~ data_getitem data symbol0 ;;
  Done (value,
        {| symbols := symbols self;
           sma := SimpleMovingAverage_Update (sma self) (EndTime bar0) value;
           portfolio := portfolio self ++ [value];
           period_counter := period_counter self;
           alpha := alpha self;
           beta := beta self |}).

(** The quantities are computed on the first tick that has both bars. *)
Definition size_positions (self : ShareClassMeanReversionAlphaModel)
  (environment : Environment) : outcome ShareClassMeanReversionAlphaModel :=
  match alpha self, beta self with
  | None, None =>
      symbol0 <~ list_getitem (symbols self) 0 ;;
      symbol1 <~ list_getitem (symbols self) 1 ;;
      Done {| symbols := symbols self; sma := sma self;
              portfolio := portfolio self;
              period_counter := period_counter self;
              alpha := Some (CalculateOrderQuantity environment symbol0 (1 # 2));
              beta := Some (CalculateOrderQuantity environment symbol1 (1 # 2)) |}
  | _, _ => Done self
  end.

Definition five_minutes : timedelta := 300000000%Z.

(** The branch of [OnData] taken when the portfolio is not invested. *)
Definition open_position (self : ShareClassMeanReversionAlphaModel)
  (value : Q) : outcome (list Action) :=
  let mean := SimpleMovingAverage_Current_Value (sma self) in
  if Qle_bool mean value then
    symbol1 <~ list_getitem (symbols self) 1 ;;
    symbol0 <~ list_getitem (symbols self) 0 ;;
    Done [EmitInsights [Insight.Price symbol1 five_minutes Up None None;
                        Insight.Price symbol0 five_minutes Down None None];
          SetHoldings symbol1 (1 # 2);
          SetHoldings symbol0 (- (1 # 2))]
  else if Qltb value mean then
    symbol1 <~ list_getitem (symbols self) 1 ;;
    symbol0 <~ list_getitem (symbols self) 0 ;;
    Done [EmitInsights [Insight.Price symbol1 five_minutes Down None None;
                        Insight.Price symbol0 five_minutes Up None None];
          SetHoldings symbol1 (- (1 # 2));
          SetHoldings symbol0 (1 # 2)]
  else Done [].

Definition OnData (self : ShareClassMeanReversionAlphaModel)
  (environment : Environment) (data : Data)
  : outcome (ShareClassMeanReversionAlphaModel * list Action) :=
  if negb (forallb (fun symbol => PyDict.contains symbol (Bars data))
             (symbols self))
  then Done (self, [])
  else
    sized <~ size_positions self environment ;;
    if negb (SimpleMovingAverage_IsReady (sma sized)) then
      recorded <~ record_position sized data ;;
      Done (snd recorded, [])
    else
      recorded <~ record_position sized data ;;
      let (value, self1) := recorded : Q * ShareClassMeanReversionAlphaModel in
      crossed <~
        (if (1 <=? period_counter self1)%Z then crossed_mean self1
         else Done (true, set_period_counter self1 (period_counter self1 + 1))) ;;
      let (torf, self2) := crossed : bool * ShareClassMeanReversionAlphaModel in
      if negb (Portfolio_Invested environment) then
        actions <~ open_position self2 value ;;
        Done (self2, actions)
      else if Portfolio_Invested environment && torf then
        Done (self2, [Liquidate])
      else Done (self2, []).

(** *** Vocabulary of the statements about [OnData] *)

(** What [Initialize] establishes and [OnData] relies on: two symbols, the
    two quantities set together, and a counter within the recorded
    positions. *)
Definition ready_to_run (self : ShareClassMeanReversionAlphaModel) : Prop :=
  (2 <= length (symbols self))%nat
  /\ (alpha self = None <-> beta self = None)
  /\ (0 <= period_counter self <= Z.of_nat (length (portfolio self)))%Z.

(** Every symbol of the model has a bar in the slice. *)
Definition has_all_bars (self : ShareClassMeanReversionAlphaModel)
  (data : Data) : bool :=
  forallb (fun symbol => PyDict.contains symbol (Bars data)) (symbols self).
End WithHost.
End ShareClassMeanReversion.

(** * Sample inputs

    A host with exact arithmetic, a rate-of-change indicator that counts
    its samples and is ready after the second one, and the variance of the
    percent changes of a column standing in for their standard deviation;
    the inputs on which the statements below are instantiated. *)

Module Samples.
Local Open Scope string_scope.
Definition exact_arith : FloatArith :=
  {| fl_mul := Qmult; fl_div := Qdiv; fl_sub := Qminus |}.

(** [column.pct_change()] without its first, undefined entry. *)
Fixpoint pct_changes (column : list Q) : list Q :=
  match column with
  | previous :: ((current :: _) as rest) =>
      (current / previous - 1)%Q :: pct_changes rest
  | _ => []
  end.

(** The sample variance, with [n - 1] in the denominator. *)
Definition variance (xs : list Q) : Q :=
  let n := inject_Z (Z.of_nat (length xs)) in
  let mean := (fold_right Qplus 0 xs / n)%Q in
  (fold_right Qplus 0 (map (fun x => (x - mean) * (x - mean)) xs) / (n - 1))%Q.

(** The variance of the percent changes, which orders columns as its
    square root, the standard deviation, does. Like the standard deviation
    it is NaN for a column of fewer than three prices or with a zero
    price. *)
Definition variance_of_changes (column : list Q) : float :=
  if (length column <? 3)%nat || existsb (fun p => Qeq_bool p 0) column
  then NaN
  else Finite (variance (pct_changes column)).

(** One runtime: keys that include NaN stay where they are. The histories
    below have no column whose deviation is NaN. *)
Definition leaves_unordered : PythonRuntime :=
  {| sorted_unordered := fun _ _ l => l;
     sorted_unordered_permutes := fun _ _ l => Permutation_refl l |}.

Definition counting_host : Host :=
  {| RateOfChange := Z * Q;
     RateOfChange_new := fun _ _ => (0%Z, 0%Q);
     RateOfChange_Update := fun roc _ value => ((fst roc + 1)%Z, value);
     Samples := fst;
     IsReady := fun roc => (1 <? fst roc)%Z;
     Current_Value := snd;
     Consolidator := string;
     ResolveConsolidator := fun symbol _ => symbol;
     SymbolCache_GetSymbol := fun ticker => ticker;
     pct_change_std := variance_of_changes |}.

Definition at_time (m h : Z) (us : Z) : datetime :=
  {| month := m; hour := h; timestamp := us |}.

Definition no_history : list string -> Z -> Resolution -> DataFrame.t :=
  fun _ _ _ => [].

Definition no_data : Slice.t := {| Slice.Bars := PyDict.empty |}.

Definition january : datetime := at_time 1 0 0.

Definition greenblatt_algorithm : Greenblatt.QCAlgorithm :=
  {| Greenblatt.Time := at_time 1 0 (400 * microseconds_per_day);
     Greenblatt.History := no_history |}.

Definition coarse_entry (s : string) (fundamental : bool) (volume : Z)
  (price dollars : Q) : Greenblatt.CoarseFundamental :=
  {| Greenblatt.Coarse_Symbol := s;
     Greenblatt.EndTime := january;
     Greenblatt.HasFundamentalData := fundamental;
     Greenblatt.Volume := volume;
     Greenblatt.Price := price;
     Greenblatt.DollarVolume := dollars |}.

Definition coarse3 : list Greenblatt.CoarseFundamental :=
  [ coarse_entry "AAA" true 10 5 50;
    coarse_entry "BBB" true 30 3 90;
    coarse_entry "CCC" false 40 4 160 ].

Definition fine_entry (s country exchange sector : string) (ipo_day : Z)
  (shares eps pe ev roic : Q) : Greenblatt.FineFundamental :=
  {| Greenblatt.Fine_Symbol := s;
     Greenblatt.CompanyReference :=
       {| Greenblatt.CountryId := country;
          Greenblatt.PrimaryExchangeID := exchange;
          Greenblatt.IndustryTemplateCode := sector |};
     Greenblatt.SecurityReference :=
       {| Greenblatt.IPODate := at_time 1 0 (ipo_day * microseconds_per_day) |};
     Greenblatt.EarningReports :=
       {| Greenblatt.BasicAverageShares_ThreeMonths := shares;
          Greenblatt.BasicEPS_TwelveMonths := eps |};
     Greenblatt.ValuationRatios :=
       {| Greenblatt.PERatio := pe; Greenblatt.EVToEBITDA := ev |};
     Greenblatt.OperationRatios := {| Greenblatt.ROIC_OneYear := roic |} |}.

Definition fine3 : list Greenblatt.FineFundamental :=
  [ fine_entry "AAA" "USA" "NYS" "N" 0 100000000 2 10 8 (1 # 10);
    fine_entry "BBB" "USA" "NAS" "T" 0 200000000 3 10 12 (1 # 20);
    fine_entry "DDD" "CAN" "NYS" "N" 0 100000000 2 10 9 (1 # 5) ].

(** The universe model after [SelectCoarse] has run on [coarse3] in a new
    month. *)
Definition universe_after_coarse : Greenblatt.MagicFormulaUniverseSelectionModel :=
  {| Greenblatt.lastMonth := 1;
     Greenblatt.dollarVolumeBySymbol := [("BBB", 90); ("AAA", 50)]%string;
     Greenblatt.symbols := ["BBB"; "AAA"]%string |}.

(** A security that the host reports as removed and as added in the same
    change, with one bar of history. *)
Definition xxx_changes : Greenblatt.SecurityChanges :=
  {| Greenblatt.AddedSecurities := [ {| Greenblatt.Security_Symbol := "XXX" |} ];
     Greenblatt.RemovedSecurities := [ {| Greenblatt.Security_Symbol := "XXX" |} ] |}.

Definition one_bar_history (symbols : list string) (lookback : Z)
  (resolution : Resolution) : DataFrame.t :=
  map (fun s => (s, [ {| DataFrame.Index := january; DataFrame.close := 7 |} ]))
    symbols.

Definition one_bar_algorithm : Greenblatt.QCAlgorithm :=
  {| Greenblatt.Time := january; Greenblatt.History := one_bar_history |}.

(** A record that has seen five samples and was checked at the fifth. *)
Definition xxx_data : Greenblatt.SymbolData (host := counting_host) :=
  @Greenblatt.Build_SymbolData counting_host "XXX" (5%Z, 3%Q) (Some "XXX") 5.

(** A record with a sixth sample that no check has seen yet. *)
Definition yyy_data : Greenblatt.SymbolData (host := counting_host) :=
  @Greenblatt.Build_SymbolData counting_host "YYY" (6%Z, 4%Q) (Some "YYY") 5.

Definition alpha_model : Greenblatt.MagicFormulaAlphaModel (host := counting_host) :=
  @Greenblatt.Build_MagicFormulaAlphaModel counting_host 1 Daily
    (timedelta_days 1) [("XXX", xxx_data); ("YYY", yyy_data)].

Definition lunch_model : MeanReversion.MeanReversionLunchBreakAlphaModel :=
  {| MeanReversion.lookback := 1;
     MeanReversion.resolution := Hour;
     MeanReversion.predictionInterval := 3600000000%Z |}.

(** At noon: a security without data, one with a zero open, one that rose
    and one that fell. *)
Definition without_data : MeanReversion.Security :=
  MeanReversion.Build_Security "NNN" false 10 11.
Definition zero_open : MeanReversion.Security :=
  MeanReversion.Build_Security "ZZZ" true 0 11.
Definition risen : MeanReversion.Security :=
  MeanReversion.Build_Security "UUU" true 10 11.
Definition fallen : MeanReversion.Security :=
  MeanReversion.Build_Security "DDD" true 10 9.

Definition lunch_algorithm : MeanReversion.QCAlgorithm :=
  {| MeanReversion.Time := at_time 1 12 0;
     MeanReversion.ActiveSecurities_Values :=
       [without_data; zero_open; risen; fallen] |}.

Definition etf_model : TripleLeveragedETF.RebalancingTripleLeveragedETFAlphaModel :=
  TripleLeveragedETF.RebalancingTripleLeveragedETFAlphaModel_init
    [ TripleLeveragedETF.Build_ETFGroup "UGLD" "DGLD";
      TripleLeveragedETF.Build_ETFGroup "LABU" "LABD";
      TripleLeveragedETF.Build_ETFGroup "SOXL" "SOXS" ].

Definition bar (price : Q) : DataFrame.Row :=
  {| DataFrame.Index := january; DataFrame.close := price |}.

Definition lowvol_securities : list LowVolatility.Security :=
  [ LowVolatility.Build_Security "AAA" true;
    LowVolatility.Build_Security "BBB" true;
    LowVolatility.Build_Security "CCC" false ].


(** A history in which only one of the two has rows. *)
Definition one_column_algorithm : LowVolatility.QCAlgorithm :=
  {| LowVolatility.Time := january;
     LowVolatility.ActiveSecurities_Values := lowvol_securities;
     LowVolatility.History :=
       fun _ _ _ => [("AAA", [bar 9; bar 10; bar 12])] |}.

Definition no_history_algorithm : LowVolatility.QCAlgorithm :=
  {| LowVolatility.Time := january;
     LowVolatility.ActiveSecurities_Values := lowvol_securities;
     LowVolatility.History := no_history |}.

(** The model with its default arguments. *)
Definition lowvol_model : LowVolatility.LowVolatilitySelectionAlphaModel :=
  LowVolatility.LowVolatilitySelectionAlphaModel_init None None None
    (fun _ => timedelta_days 1).
End Samples.

(** * Sample inputs for testAlpha.py *)

Module ShareClassSamples.
Local Open Scope string_scope.

(** A moving average over two values that keeps its window. *)
Definition window_average : ShareClassMeanReversion.IndicatorHost :=
  {| ShareClassMeanReversion.SimpleMovingAverage := list Q;
     ShareClassMeanReversion.SimpleMovingAverage_new := fun _ => [];
     ShareClassMeanReversion.SimpleMovingAverage_Update :=
       fun window _ value => firstn 2 (value :: window);
     ShareClassMeanReversion.SimpleMovingAverage_IsReady :=
       fun window => (2 <=? length window)%nat;
     ShareClassMeanReversion.SimpleMovingAverage_Current_Value :=
       fun window => (fold_right Qplus 0 window / 2)%Q |}.

Definition both_bars (goog googl : Q)
  : ShareClassMeanReversion.Data :=
  {| ShareClassMeanReversion.Bars :=
       [("GOOG", {| ShareClassMeanReversion.Close := goog;
                    ShareClassMeanReversion.EndTime := Samples.january |});
        ("GOOGL", {| ShareClassMeanReversion.Close := googl;
                     ShareClassMeanReversion.EndTime := Samples.january |})] |}.

Definition one_bar (goog : Q) : ShareClassMeanReversion.Data :=
  {| ShareClassMeanReversion.Bars :=
       [("GOOG", {| ShareClassMeanReversion.Close := goog;
                    ShareClassMeanReversion.EndTime := Samples.january |})] |}.

Definition flat_portfolio : ShareClassMeanReversion.Environment :=
  {| ShareClassMeanReversion.Portfolio_Invested := false;
     ShareClassMeanReversion.CalculateOrderQuantity := fun _ _ => 10 |}.

(** The model after two ticks of warm-up. *)
Definition warmed_up
  : ShareClassMeanReversion.ShareClassMeanReversionAlphaModel
      (indicators := window_average) :=
  @ShareClassMeanReversion.Build_ShareClassMeanReversionAlphaModel
    window_average ["GOOG"; "GOOGL"] [20; 10] [10; 20] 0 (Some 10) (Some 10).
End ShareClassSamples.

(** * Facts about dictionaries *)

Module PyDictFacts.
Import PyDict.
Section Facts.
Variable V : Type.
Implicit Types (d : dict V) (k : string) (v : V) (l : list (string * V)).

Lemma get_In d k v : get k d = Some v -> In (k, v) d.
Proof.
  induction d as [|[k' v'] d IH]; simpl; [discriminate|].
  destruct (String.eqb_spec k k') as [->|Hne]; intros H.
  - injection H as ->. now left.
  - right. now apply IH.
Qed.

Lemma get_None d k : get k d = None <-> ~ In k (keys d).
Proof.
  induction d as [|[k' v'] d IH]; simpl.
  - tauto.
  - destruct (String.eqb_spec k k') as [->|Hne].
    + split; [discriminate|]. intros H. exfalso. apply H. now left.
    + rewrite IH. split; [intros H [E|I]; [congruence|tauto] | tauto].
Qed.

Lemma contains_true d k : contains k d = true <-> In k (keys d).
Proof.
  unfold contains. destruct (get k d) eqn:E.
  - split; [intros _|reflexivity].
    apply get_In in E. change k with (fst (k, v)). now apply in_map.
  - apply get_None in E. split; [discriminate|tauto].
Qed.

Lemma contains_false d k : contains k d = false <-> ~ In k (keys d).
Proof.
  rewrite <- contains_true. destruct (contains k d); split; congruence.
Qed.

Lemma In_get d k v : wf d -> In (k, v) d -> get k d = Some v.
Proof.
  unfold wf. induction d as [|[k' v'] d IH]; simpl; [tauto|].
  intros Hnd [E|I].
  - injection E as -> ->. now rewrite String.eqb_refl.
  - inversion Hnd as [|? ? Hnotin Hnd']; subst.
    destruct (String.eqb_spec k k') as [->|Hne].
    + exfalso. apply Hnotin. change k' with (fst (k', v)). now apply in_map.
    + now apply IH.
Qed.

Lemma setitem_present d k v :
  In k (keys d) -> keys (setitem k v d) = keys d.
Proof.
  induction d as [|[k' v'] d IH]; simpl; [tauto|].
  intros H. destruct (String.eqb_spec k k') as [->|Hne]; [reflexivity|].
  simpl. f_equal. apply IH. destruct H; congruence.
Qed.

Lemma setitem_absent d k v :
  ~ In k (keys d) -> setitem k v d = d ++ [(k, v)].
Proof.
  induction d as [|[k' v'] d IH]; simpl; [reflexivity|].
  intros H. destruct (String.eqb_spec k k') as [->|Hne]; [tauto|].
  f_equal. apply IH. tauto.
Qed.

Lemma keys_setitem_In d k v k0 :
  In k0 (keys (setitem k v d)) <-> k0 = k \/ In k0 (keys d).
Proof.
  destruct (in_dec string_dec k (keys d)) as [Hin|Hnin].
  - rewrite setitem_present by assumption. split; [tauto|].
    intros [->|H]; assumption.
  - rewrite setitem_absent by assumption. unfold keys.
    rewrite map_app, in_app_iff. simpl. intuition congruence.
Qed.

Lemma wf_setitem d k v : wf d -> wf (setitem k v d).
Proof.
  unfold wf. intros Hd.
  destruct (in_dec string_dec k (keys d)) as [Hin|Hnin].
  - now rewrite setitem_present.
  - rewrite setitem_absent by assumption. unfold keys in *.
    rewrite map_app. simpl.
    apply NoDup_app; [assumption | repeat constructor; simpl; tauto |].
    intros a Ha [<-|[]]. contradiction.
Qed.

Lemma In_setitem d k v k0 v0 :
  In (k0, v0) (setitem k v d) -> (k0 = k /\ v0 = v) \/ In (k0, v0) d.
Proof.
  induction d as [|[k' v'] d IH]; simpl.
  - intros [E|[]]. injection E as <- <-. now left.
  - destruct (String.eqb_spec k k') as [->|Hne]; simpl.
    + intros [E|I]; [injection E as <- <-; now left | tauto].
    + intros [E|I]; [tauto|]. destruct (IH I); tauto.
Qed.

Lemma get_setitem_other d k v k0 :
  k0 <> k -> get k0 (setitem k v d) = get k0 d.
Proof.
  intros Hne. induction d as [|[k' v'] d IH]; simpl.
  - destruct (String.eqb_spec k0 k); [contradiction|reflexivity].
  - destruct (String.eqb_spec k k') as [->|Hne']; simpl.
    + destruct (String.eqb_spec k0 k'); [contradiction|reflexivity].
    + destruct (String.eqb_spec k0 k'); [reflexivity|apply IH].
Qed.

Lemma In_remove d k k0 v0 : In (k0, v0) (remove k d) -> In (k0, v0) d.
Proof.
  induction d as [|[k' v'] d IH]; simpl; [tauto|].
  destruct (String.eqb_spec k k') as [->|Hne]; simpl; [tauto|].
  intros [E|I]; [tauto|]. right. now apply IH.
Qed.

Lemma keys_remove_incl d k k0 : In k0 (keys (remove k d)) -> In k0 (keys d).
Proof.
  induction d as [|[k' v'] d IH]; simpl; [tauto|].
  destruct (String.eqb_spec k k') as [->|Hne]; simpl; [tauto|].
  intros [E|I]; [tauto|]. right. now apply IH.
Qed.

Lemma wf_remove d k : wf d -> wf (remove k d).
Proof.
  unfold wf. induction d as [|[k' v'] d IH]; simpl; [trivial|].
  intros Hnd. inversion Hnd as [|? ? Hnotin Hnd']; subst.
  destruct (String.eqb_spec k k') as [->|Hne]; [assumption|].
  simpl. constructor; [|now apply IH].
  intros H. apply Hnotin. eapply keys_remove_incl. exact H.
Qed.

Lemma remove_not_In d k : wf d -> ~ In k (keys (remove k d)).
Proof.
  unfold wf. induction d as [|[k' v'] d IH]; simpl; [tauto|].
  intros Hnd. inversion Hnd as [|? ? Hnotin Hnd']; subst.
  destruct (String.eqb_spec k k') as [->|Hne]; [assumption|].
  simpl. intros [E|I]; [congruence|]. now apply IH.
Qed.

Lemma get_remove_other d k k0 : k0 <> k -> get k0 (remove k d) = get k0 d.
Proof.
  intros Hne. induction d as [|[k' v'] d IH]; simpl; [reflexivity|].
  destruct (String.eqb_spec k k') as [->|Hne']; simpl.
  - destruct (String.eqb_spec k0 k'); [contradiction|reflexivity].
  - destruct (String.eqb_spec k0 k'); [reflexivity|apply IH].
Qed.

Lemma wf_assign_all l d : wf d -> wf (assign_all l d).
Proof.
  revert d. induction l as [|[k v] l IH]; simpl; intros d Hd; [assumption|].
  unfold assign_all in *. simpl. apply IH. now apply wf_setitem.
Qed.

Lemma keys_assign_all l d k :
  In k (keys (assign_all l d)) <-> In k (keys d) \/ In k (map fst l).
Proof.
  revert d. induction l as [|[k' v'] l IH]; simpl; intros d; [tauto|].
  unfold assign_all in *. simpl. rewrite IH, keys_setitem_In.
  intuition congruence.
Qed.

Lemma assign_all_distinct l d :
  NoDup (keys d ++ map fst l) -> assign_all l d = d ++ l.
Proof.
  revert d. induction l as [|[k v] l IH]; simpl; intros d Hnd.
  - now rewrite app_nil_r.
  - assert (Hk : ~ In k (keys d)).
    { intros Hin. apply NoDup_remove_2 in Hnd. apply Hnd.
      apply in_or_app. now left. }
    unfold assign_all in *. simpl.
    rewrite setitem_absent by assumption. rewrite IH.
    + now rewrite <- app_assoc.
    + unfold keys in *. rewrite map_app. simpl. rewrite <- app_assoc. exact Hnd.
Qed.

Lemma length_setitem d k v : (length (setitem k v d) <= S (length d))%nat.
Proof.
  induction d as [|[k' v'] d IH]; simpl; [lia|].
  destruct (String.eqb k k'); simpl; lia.
Qed.

Lemma length_assign_all l d :
  (length (assign_all l d) <= length d + length l)%nat.
Proof.
  revert d. induction l as [|[k v] l IH]; simpl; intros d; [lia|].
  unfold assign_all in *. simpl. specialize (IH (setitem k v d)).
  pose proof (length_setitem d k v). lia.
Qed.

Lemma wf_of_items l : wf (of_items l).
Proof. apply wf_assign_all. constructor. Qed.

Lemma keys_of_items l k : In k (keys (of_items l)) <-> In k (map fst l).
Proof.
  unfold of_items. rewrite keys_assign_all. simpl. tauto.
Qed.

Lemma of_items_distinct l : NoDup (map fst l) -> of_items l = l.
Proof. intros H. apply (assign_all_distinct l (@empty V)). exact H. Qed.

Lemma length_of_items l : (length (of_items l) <= length l)%nat.
Proof. apply (length_assign_all l (@empty V)). Qed.
End Facts.
End PyDictFacts.

(** * Facts about slices and [sorted] *)

Section SliceFacts.
Variable A : Type.
Implicit Types (l : list A) (n : Z).

Lemma slice_to_nonneg n l :
  (0 <= n)%Z -> slice_to n l = firstn (Z.to_nat n) l.
Proof.
  intros Hn. unfold slice_to.
  destruct (Z.ltb_spec n 0); [lia|reflexivity].
Qed.

Lemma slice_to_prefix n l : exists m, slice_to n l = firstn m l.
Proof. unfold slice_to. destruct (n <? 0)%Z; eexists; reflexivity. Qed.

Lemma slice_to_In n l x : In x (slice_to n l) -> In x l.
Proof.
  destruct (slice_to_prefix n l) as [m ->]. rewrite <- (firstn_skipn m l) at 2.
  intros H. apply in_or_app. now left.
Qed.

Lemma slice_to_length n l :
  (0 <= n)%Z -> (length (slice_to n l) <= Z.to_nat n)%nat.
Proof. intros Hn. rewrite slice_to_nonneg by assumption. apply firstn_le_length. Qed.
End SliceFacts.

Lemma Qltb_lt (a b : Q) : Qltb a b = true <-> (a < b)%Q.
Proof.
  unfold Qltb. rewrite negb_true_iff.
  destruct (Qle_bool b a) eqn:E.
  - apply Qle_bool_iff in E. split; [discriminate|].
    intros H. exfalso. eapply Qlt_not_le; eassumption.
  - split; [intros _|reflexivity].
    apply Qnot_le_lt. intros H. apply Qle_bool_iff in H. congruence.
Qed.

Lemma slice_to_nil (A : Type) (n : Z) : slice_to n (@nil A) = [].
Proof. unfold slice_to. destruct (n <? 0)%Z; apply firstn_nil. Qed.

Lemma filter_none (A : Type) (f : A -> bool) (l : list A) :
  (forall x, In x l -> f x = false) -> filter f l = [].
Proof.
  induction l as [|x l IH]; simpl; intros H; [reflexivity|].
  rewrite (H x) by now left. apply IH. intros y Hy. apply H. now right.
Qed.

Lemma NoDup_map_filter (A B : Type) (f : A -> B) (keep : A -> bool)
  (xs : list A) (Hxs : NoDup (map f xs)) :
  NoDup (map f (filter keep xs)).
Proof.
  induction xs as [|x xs IH]; simpl in *; [constructor|].
  inversion Hxs as [|? ? Hnotin Hnd]; subst.
  destruct (keep x); simpl; [|now apply IH].
  constructor; [|now apply IH].
  rewrite in_map_iff in *. intros (y & Ey & Hy). apply Hnotin.
  exists y. split; [exact Ey|]. apply filter_In in Hy. tauto.
Qed.

Lemma NoDup_firstn (A : Type) (n : nat) (l : list A) :
  NoDup l -> NoDup (firstn n l).
Proof.
  intros H. rewrite <- (firstn_skipn n l) in H.
  eapply NoDup_app_remove_r. exact H.
Qed.

Module PySortFacts.
Import PySort.
Section InsertionFacts.
Variable A : Type.
Variable le : A -> A -> bool.

Let R (a b : A) : Prop := le a b = true.

Hypothesis le_total : forall a b, le a b = true \/ le b a = true.
Hypothesis le_trans : forall a b c, le a b = true -> le b c = true -> le a c = true.

Lemma insert_perm x l : Permutation (insert le x l) (x :: l).
Proof.
  induction l as [|y l IH]; simpl; [reflexivity|].
  destruct (le x y); [reflexivity|].
  rewrite IH. apply perm_swap.
Qed.

Lemma stable_sort_perm l : Permutation (stable_sort le l) l.
Proof.
  induction l as [|x l IH]; simpl; [reflexivity|].
  rewrite insert_perm. now constructor.
Qed.

Lemma insert_sorted x l :
  StronglySorted R l -> StronglySorted R (insert le x l).
Proof.
  induction 1 as [|y l Hs IH Hall]; simpl.
  - repeat constructor.
  - destruct (le x y) eqn:Exy.
    + constructor; [now constructor|].
      constructor; [exact Exy|].
      eapply Forall_impl; [|exact Hall]. intros z Hz. unfold R in *.
      eapply le_trans; eassumption.
    + constructor; [exact IH|].
      assert (Hyx : R y x).
      { destruct (le_total x y) as [H|H]; [congruence|exact H]. }
      eapply Permutation_Forall.
      * symmetry. apply insert_perm.
      * now constructor.
Qed.

Lemma stable_sort_sorted l : StronglySorted R (stable_sort le l).
Proof.
  induction l as [|x l IH]; simpl; [constructor|]. now apply insert_sorted.
Qed.
End InsertionFacts.

Section SortedFacts.
Variable A : Type.
Implicit Types (l : list A) (reverse : bool).

Lemma key_le_total reverse (a b : Q * A) :
  key_le reverse a b = true \/ key_le reverse b a = true.
Proof.
  unfold key_le. destruct reverse; rewrite !Qle_bool_iff;
    destruct (Qlt_le_dec (fst a) (fst b)) as [H|H];
    auto using Qlt_le_weak.
Qed.

Lemma key_le_trans reverse (a b c : Q * A) :
  key_le reverse a b = true -> key_le reverse b c = true ->
  key_le reverse a c = true.
Proof.
  unfold key_le. destruct reverse; rewrite !Qle_bool_iff; intros H1 H2;
    eapply Qle_trans; eassumption.
Qed.

Lemma sort_keyed_perm reverse (l : list (Q * A)) :
  Permutation (sort_keyed reverse l) l.
Proof. apply stable_sort_perm. Qed.

Lemma sort_keyed_sorted reverse (l : list (Q * A)) :
  StronglySorted (fun a b => key_le reverse a b = true) (sort_keyed reverse l).
Proof.
  apply stable_sort_sorted; [apply key_le_total | apply key_le_trans].
Qed.

Variable key : A -> Q.

Let decorate (x : A) : Q * A := (key x, x).

Lemma sorted_perm reverse l : Permutation (sorted key reverse l) l.
Proof.
  unfold sorted. rewrite sort_keyed_perm, map_map. simpl.
  now rewrite map_id.
Qed.

Lemma undecorate_sorted reverse (d : list (Q * A)) :
  Forall (fun p => fst p = key (snd p)) d ->
  StronglySorted (fun a b => key_le reverse a b = true) d ->
  StronglySorted (ordered key reverse) (map snd d).
Proof.
  intros Hdec Hs. induction Hs as [|p d Hs IH Hall]; simpl; [constructor|].
  inversion Hdec as [|? ? Hp Hd]; subst.
  constructor; [now apply IH|].
  apply Forall_map. rewrite Forall_forall in *. intros q Hq.
  specialize (Hall q Hq). specialize (Hd q Hq).
  unfold key_le, ordered in *. rewrite <- Hp, <- Hd.
  destruct reverse; now apply Qle_bool_iff.
Qed.

Lemma sorted_sorted reverse l :
  StronglySorted (ordered key reverse) (sorted key reverse l).
Proof.
  unfold sorted. apply undecorate_sorted; [|apply sort_keyed_sorted].
  eapply Permutation_Forall; [symmetry; apply sort_keyed_perm|].
  apply Forall_map. apply Forall_forall. reflexivity.
Qed.

Lemma sorted_In reverse l x : In x (sorted key reverse l) <-> In x l.
Proof.
  split; apply Permutation_in; [|symmetry]; apply sorted_perm.
Qed.

Lemma sorted_length reverse l : length (sorted key reverse l) = length l.
Proof. apply Permutation_length, sorted_perm. Qed.

(** A key function that raises on no element of the list sorts like the
    total key function it agrees with. *)
Lemma sorted_partial_total (pkey : A -> result Q) reverse l :
  (forall x, In x l -> pkey x = Ok (key x)) ->
  sorted_partial pkey reverse l = Ok (sorted key reverse l).
Proof.
  intros Hk. unfold sorted_partial, sorted.
  assert (E : mapM (fun x => k <- pkey x ;; Ok (k, x)) l
              = Ok (map (fun x => (key x, x)) l)).
  { induction l as [|x l IH]; simpl; [reflexivity|].
    rewrite (Hk x) by now left. simpl.
    rewrite IH; [reflexivity|]. intros y Hy. apply Hk. now right. }
  rewrite E. reflexivity.
Qed.

(** The first element whose key cannot be computed raises. *)
Lemma sorted_partial_raise (pkey : A -> result Q) reverse l x e :
  In x l -> pkey x = Raise e ->
  exists e', sorted_partial pkey reverse l = Raise e'.
Proof.
  intros Hin Hx. unfold sorted_partial.
  assert (E : exists e', mapM (fun x => k <- pkey x ;; Ok (k, x)) l = Raise e').
  { induction l as [|y l IH]; simpl; [contradiction|].
    destruct (pkey y) as [q|e0] eqn:Ey; simpl; [|eauto].
    destruct Hin as [->|Hin]; [congruence|].
    destruct (IH Hin) as [e' ->]. simpl. eauto. }
  destruct E as [e' ->]. simpl. eauto.
Qed.
End SortedFacts.
End PySortFacts.


(** * Facts about GreenblattMagicFormulaAlgorithm.py *)

Module GreenblattFacts.
Import Greenblatt.
Section WithHost.
Context {host : Host} {arith : FloatArith}.

Lemma coarse_filter_spec (x : CoarseFundamental) :
  coarse_filter x = true <->
  HasFundamentalData x = true /\ (0 < Volume x)%Z /\ (0 < Price x)%Q.
Proof.
  unfold coarse_filter. rewrite !andb_true_iff, Z.ltb_lt, Qltb_lt. tauto.
Qed.

(** C3. On a non-empty coarse list whose first element ends in a month
    other than the stored one, [SelectCoarse] returns the symbols of the
    entries with fundamental data, positive volume and positive price,
    ranked by dollar volume in descending order and cut after the first
    500: at most 500 symbols, listed once each, and in ranking order when
    the entries carry distinct symbols. The result is stored in [symbols]
    and the month in [lastMonth]. *)
Theorem SelectCoarse_ranks_by_dollar_volume
  (self : MagicFormulaUniverseSelectionModel) (algorithm : QCAlgorithm)
  (coarse : list CoarseFundamental) (first : CoarseFundamental) :
  hd_error coarse = Some first ->
  month (EndTime first) <> lastMonth self ->
  exists ranked : list CoarseFundamental,
    Permutation ranked (filter coarse_filter coarse)
    /\ (forall x, In x ranked <->
                  In x coarse /\ HasFundamentalData x = true
                  /\ (0 < Volume x)%Z /\ (0 < Price x)%Q)
    /\ StronglySorted (PySort.ordered DollarVolume true) ranked
    /\ let top := firstn 500 ranked in
       let result := fst (SelectCoarse self algorithm coarse) in
       (length result <= 500)%nat
       /\ NoDup result
       /\ (forall s, In s result <-> exists x, In x top /\ Coarse_Symbol x = s)
       /\ (NoDup (map Coarse_Symbol coarse) -> result = map Coarse_Symbol top)
       /\ symbols (snd (SelectCoarse self algorithm coarse)) = result
       /\ lastMonth (snd (SelectCoarse self algorithm coarse))
          = month (EndTime first).
Proof.
  intros Hhd Hmonth.
  destruct coarse as [|c rest]; [discriminate|]. injection Hhd as ->.
  exists (PySort.sorted DollarVolume true (filter coarse_filter (first :: rest))).
  set (coarse := first :: rest).
  set (ranked := PySort.sorted DollarVolume true (filter coarse_filter coarse)).
  assert (Hperm : Permutation ranked (filter coarse_filter coarse))
    by apply PySortFacts.sorted_perm.
  split; [exact Hperm|]. split.
  { intros x. unfold ranked. rewrite PySortFacts.sorted_In, filter_In.
    now rewrite coarse_filter_spec. }
  split; [apply PySortFacts.sorted_sorted|].
  assert (E : SelectCoarse self algorithm coarse
              = let d := PyDict.of_items
                           (map (fun i => (Coarse_Symbol i, DollarVolume i))
                              (firstn 500 ranked)) in
                (PyDict.keys d,
                 {| lastMonth := month (EndTime first);
                    dollarVolumeBySymbol := d;
                    symbols := PyDict.keys d |})).
  { unfold SelectCoarse, coarse.
    destruct (Z.eqb_spec (month (EndTime first)) (lastMonth self)) as [E|_];
      [contradiction|].
    rewrite slice_to_nonneg by (unfold NumberOfSymbolsCoarse; lia).
    reflexivity. }
  rewrite E. cbv zeta. cbn [fst snd symbols lastMonth].
  set (top := firstn 500 ranked).
  set (pairs := map (fun i => (Coarse_Symbol i, DollarVolume i)) top).
  assert (Hfst : map fst pairs = map Coarse_Symbol top).
  { unfold pairs. rewrite map_map. reflexivity. }
  repeat split.
  - unfold PyDict.keys. rewrite length_map.
    pose proof (PyDictFacts.length_of_items pairs) as Hlen.
    assert (Hpairs : length pairs = length top) by apply length_map.
    assert (Htop : (length top <= 500)%nat) by apply firstn_le_length.
    lia.
  - apply PyDictFacts.wf_of_items.
  - rewrite PyDictFacts.keys_of_items, Hfst, in_map_iff.
    intros (x & Ex & Hx). eauto.
  - rewrite PyDictFacts.keys_of_items, Hfst, in_map_iff.
    intros (x & Hx & Ex). eauto.
  - intros Hnd. rewrite PyDictFacts.of_items_distinct.
    + exact Hfst.
    + rewrite Hfst. unfold top. rewrite <- firstn_map. apply NoDup_firstn.
      eapply Permutation_NoDup.
      * symmetry. apply Permutation_map. exact Hperm.
      * now apply NoDup_map_filter.
Qed.

(** C7. On an empty coarse list, and on one whose first element ends in
    the stored month, [SelectCoarse] returns the cached [symbols] and
    leaves the model as it is. *)
Theorem SelectCoarse_cached
  (self : MagicFormulaUniverseSelectionModel) (algorithm : QCAlgorithm)
  (coarse : list CoarseFundamental) :
  coarse = [] \/
  (exists first, hd_error coarse = Some first
                 /\ month (EndTime first) = lastMonth self) ->
  SelectCoarse self algorithm coarse = (symbols self, self).
Proof.
  intros [->|(first & Hhd & Hmonth)]; [reflexivity|].
  destruct coarse as [|c rest]; [discriminate|]. injection Hhd as ->.
  unfold SelectCoarse. rewrite Hmonth, Z.eqb_refl. reflexivity.
Qed.

Lemma fine_filter_spec (now : datetime) (x : FineFundamental) :
  fine_filter now x = true <->
  CountryId (CompanyReference x) = "USA"%string
  /\ (PrimaryExchangeID (CompanyReference x) = "NYS"%string
      \/ PrimaryExchangeID (CompanyReference x) = "NAS"%string)
  /\ (180 < days_between now (IPODate (SecurityReference x)))%Z
  /\ (500000000 # 1 < market_cap x)%Q.
Proof.
  unfold fine_filter.
  rewrite !andb_true_iff, orb_true_iff, !String.eqb_eq, Z.ltb_lt, Qltb_lt.
  tauto.
Qed.

Lemma getitem_stored (self : MagicFormulaUniverseSelectionModel)
  (x : FineFundamental) :
  PyDict.contains (Fine_Symbol x) (dollarVolumeBySymbol self) = true ->
  PyDict.getitem (Fine_Symbol x) (dollarVolumeBySymbol self)
  = Ok (stored_dollar_volume self x).
Proof.
  unfold PyDict.contains, PyDict.getitem, stored_dollar_volume.
  destruct (PyDict.get _ _); [reflexivity|discriminate].
Qed.

Section SectorLoop.
Variable self : MagicFormulaUniverseSelectionModel.
Variable filteredFine : list FineFundamental.
Variable percent : Q.

(** What the loop stores under a sector key. *)
Let sector_value (key : string) : list FineFundamental :=
  slice_to
    (sector_quota percent
       (length (PySort.sorted (stored_dollar_volume self) true
                  (filter (in_sector key) filteredFine))))
    (PySort.sorted (stored_dollar_volume self) true
       (filter (in_sector key) filteredFine)).

Lemma sector_step_ok (myDict : PyDict.dict (list FineFundamental)) (key : string) :
  stored_in_sector self filteredFine key ->
  sector_step self filteredFine percent myDict key
  = Ok (PyDict.setitem key (sector_value key) myDict).
Proof.
  intros Hkey. unfold sector_step.
  rewrite (@PySortFacts.sorted_partial_total _ (stored_dollar_volume self)).
  - reflexivity.
  - intros x Hx. apply filter_In in Hx as [Hin Hcode].
    apply getitem_stored, Hkey; [exact Hin|]. now apply String.eqb_eq.
Qed.

Lemma sector_loop_ok (keys : list string)
  (myDict : PyDict.dict (list FineFundamental)) :
  (forall key, In key keys -> stored_in_sector self filteredFine key) ->
  sector_loop self filteredFine percent keys myDict
  = Ok (PyDict.assign_all (map (fun key => (key, sector_value key)) keys) myDict).
Proof.
  revert myDict. induction keys as [|key keys IH]; intros myDict Hkeys.
  - reflexivity.
  - simpl sector_loop. rewrite sector_step_ok by (apply Hkeys; now left).
    simpl bind. rewrite IH by (intros k Hk; apply Hkeys; now right).
    reflexivity.
Qed.

Lemma sector_loop_parts :
  (forall key, In key sector_keys -> stored_in_sector self filteredFine key) ->
  exists myDict,
    sector_loop self filteredFine percent sector_keys PyDict.empty = Ok myDict
    /\ PyDict.values myDict = map sector_value sector_keys.
Proof.
  intros Hkeys. eexists. split; [now apply sector_loop_ok|].
  change (PyDict.assign_all ?l PyDict.empty) with (PyDict.of_items l).
  rewrite PyDictFacts.of_items_distinct.
  - unfold PyDict.values. rewrite map_map. reflexivity.
  - rewrite map_map. simpl.
    repeat (constructor; [simpl; intuition discriminate|]). constructor.
Qed.

Lemma sector_value_In (keys : list string) (x : FineFundamental) :
  In x (concat (map sector_value keys)) -> In x filteredFine.
Proof.
  rewrite in_concat. intros (part & Hpart & Hx).
  apply in_map_iff in Hpart as (key & <- & _).
  unfold sector_value in Hx. apply slice_to_In in Hx.
  apply PySortFacts.sorted_In in Hx. apply filter_In in Hx. tauto.
Qed.

Lemma sector_value_top (keys : list string) :
  percent = fl_div (inject_Z NumberOfSymbolsFine)
              (inject_Z (Z.of_nat (length filteredFine))) ->
  Forall2 (sector_top self filteredFine) keys (map sector_value keys).
Proof.
  intros ->. induction keys as [|key keys IH]; simpl; constructor; [|exact IH].
  exists (PySort.sorted (stored_dollar_volume self) true
            (filter (in_sector key) filteredFine)).
  split; [apply PySortFacts.sorted_perm|].
  split; [apply PySortFacts.sorted_sorted|reflexivity].
Qed.
End SectorLoop.

(** C1, as the code has it. Where every security that passes the filter and
    lies in one of the six sectors has a stored dollar volume,
    [SelectFine] returns at most 10 symbols: of the securities
    headquartered in the USA, traded on NYSE or NASDAQ, more than 180 days
    past their IPO and with a market capitalisation above 5e8, it takes
    per sector the top part by stored dollar volume, chains the sectors and
    keeps 500, ranks these by EVToEBITDA in descending order and keeps 20,
    ranks those by one-year ROIC in ascending order and returns the
    symbols of the first 10. *)
Theorem SelectFine_magic_formula
  (self : MagicFormulaUniverseSelectionModel) (algorithm : QCAlgorithm)
  (fine : list FineFundamental) :
  (forall x, In x fine -> fine_filter (Time algorithm) x = true ->
             In (IndustryTemplateCode (CompanyReference x)) sector_keys ->
             PyDict.contains (Fine_Symbol x) (dollarVolumeBySymbol self) = true) ->
  exists (selected : list string) (self' : MagicFormulaUniverseSelectionModel)
         (parts : list (list FineFundamental))
         (byEV byROIC : list FineFundamental),
    SelectFine self algorithm fine = Ok (selected, self')
    /\ (length selected <= 10)%nat
    /\ Forall2 (sector_top self (filter (fine_filter (Time algorithm)) fine))
         sector_keys parts
    /\ (forall x, In x (concat parts) ->
                  In x fine
                  /\ CountryId (CompanyReference x) = "USA"%string
                  /\ (PrimaryExchangeID (CompanyReference x) = "NYS"%string
                      \/ PrimaryExchangeID (CompanyReference x) = "NAS"%string)
                  /\ (180 < days_between (Time algorithm)
                               (IPODate (SecurityReference x)))%Z
                  /\ (500000000 # 1 < market_cap x)%Q)
    /\ Permutation byEV (firstn 500 (concat parts))
    /\ StronglySorted
         (PySort.ordered (fun x => EVToEBITDA (ValuationRatios x)) true) byEV
    /\ Permutation byROIC (firstn 20 byEV)
    /\ StronglySorted
         (PySort.ordered (fun x => ROIC_OneYear (OperationRatios x)) false)
         byROIC
    /\ selected = map Fine_Symbol (firstn 10 byROIC)
    /\ lastMonth self' = lastMonth self
    /\ dollarVolumeBySymbol self' = dollarVolumeBySymbol self.
Proof.
  intros Hstored.
  set (filteredFine := filter (fine_filter (Time algorithm)) fine).
  set (percent := fl_div (inject_Z NumberOfSymbolsFine)
                    (inject_Z (Z.of_nat (length filteredFine)))).
  assert (Hkeys : forall key, In key sector_keys ->
                              stored_in_sector self filteredFine key).
  { intros key Hkey x Hx Hcode. apply filter_In in Hx as [Hin Hf].
    apply Hstored; [exact Hin | exact Hf | now rewrite Hcode]. }
  destruct (sector_loop_parts percent Hkeys)
    as (myDict & Hloop & Hvalues).
  set (parts := PyDict.values myDict) in *.
  set (byEV := PySort.sorted (fun x => EVToEBITDA (ValuationRatios x)) true
                 (firstn 500 (concat parts))).
  set (byROIC := PySort.sorted (fun x => ROIC_OneYear (OperationRatios x)) false
                   (firstn 20 byEV)).
  assert (Hrest :
    Forall2 (sector_top self filteredFine) sector_keys parts
    /\ (forall x, In x (concat parts) ->
                  In x fine
                  /\ CountryId (CompanyReference x) = "USA"%string
                  /\ (PrimaryExchangeID (CompanyReference x) = "NYS"%string
                      \/ PrimaryExchangeID (CompanyReference x) = "NAS"%string)
                  /\ (180 < days_between (Time algorithm)
                               (IPODate (SecurityReference x)))%Z
                  /\ (500000000 # 1 < market_cap x)%Q)
    /\ Permutation byEV (firstn 500 (concat parts))
    /\ StronglySorted
         (PySort.ordered (fun x => EVToEBITDA (ValuationRatios x)) true) byEV
    /\ Permutation byROIC (firstn 20 byEV)
    /\ StronglySorted
         (PySort.ordered (fun x => ROIC_OneYear (OperationRatios x)) false)
         byROIC).
  { split.
    { rewrite Hvalues. now apply sector_value_top. }
    split.
    { intros x Hx. rewrite Hvalues in Hx. apply sector_value_In in Hx.
      apply filter_In in Hx as [Hin Hf]. apply fine_filter_spec in Hf. tauto. }
    repeat split;
      first [apply PySortFacts.sorted_perm | apply PySortFacts.sorted_sorted]. }
  destruct (length filteredFine =? 0)%nat eqn:Ecount.
  - (* nothing passes the filter *)
    apply Nat.eqb_eq, length_zero_iff_nil in Ecount.
    assert (Hnil : concat parts = []).
    { destruct (concat parts) as [|x rest] eqn:E; [reflexivity|].
      exfalso. assert (Hx : In x (concat parts)) by (rewrite E; now left).
      rewrite Hvalues in Hx. apply sector_value_In in Hx.
      rewrite Ecount in Hx. exact Hx. }
    exists [], self, parts, byEV, byROIC.
    split.
    { unfold SelectFine. fold filteredFine. rewrite Ecount. reflexivity. }
    split; [simpl; lia|].
    destruct Hrest as (H1 & H2 & H3 & H4 & H5 & H6).
    repeat (split; [assumption|]).
    split; [|split; reflexivity].
    unfold byROIC, byEV. rewrite Hnil. reflexivity.
  - exists (map Fine_Symbol (firstn 10 byROIC)),
      {| lastMonth := lastMonth self;
         dollarVolumeBySymbol := dollarVolumeBySymbol self;
         symbols := map Fine_Symbol (firstn 10 byROIC) |},
      parts, byEV, byROIC.
    split.
    { unfold SelectFine. fold filteredFine. rewrite Ecount.
      fold percent. rewrite Hloop. reflexivity. }
    split.
    { rewrite length_map. apply firstn_le_length. }
    destruct Hrest as (H1 & H2 & H3 & H4 & H5 & H6).
    repeat (split; [assumption|]).
    repeat split.
Qed.
End WithHost.

Import Samples.

(** C1, as stated, fails: on a model that has stored no dollar volume, a
    one-security sector already raises [KeyError]. *)
Lemma SelectFine_raises_without_stored_volume :
  fine3 <> []
  /\ SelectFine (arith := exact_arith) MagicFormulaUniverseSelectionModel_init
       greenblatt_algorithm fine3
     = Raise (KeyError "AAA").
Proof. split; [discriminate | vm_compute; reflexivity]. Qed.

Lemma SelectFine_magic_formula_witness :
  exists selected self',
    SelectFine (arith := exact_arith) universe_after_coarse
      greenblatt_algorithm fine3 = Ok (selected, self')
    /\ (length selected <= 10)%nat.
Proof.
  destruct (@SelectFine_magic_formula exact_arith universe_after_coarse
              greenblatt_algorithm fine3)
    as (selected & self' & parts & byEV & byROIC & Hrun & Hlen & _).
  - intros x Hin Hf _.
    destruct Hin as [<-|[<-|[<-|[]]]];
      [reflexivity | reflexivity | vm_compute in Hf; discriminate Hf].
  - exists selected, self'. split; assumption.
Defined.

Lemma SelectCoarse_ranks_by_dollar_volume_witness :
  exists ranked,
    Permutation ranked (filter coarse_filter coarse3)
    /\ fst (SelectCoarse MagicFormulaUniverseSelectionModel_init
              greenblatt_algorithm coarse3)
       = map Coarse_Symbol (firstn 500 ranked).
Proof.
  destruct (@SelectCoarse_ranks_by_dollar_volume
              MagicFormulaUniverseSelectionModel_init greenblatt_algorithm
              coarse3 (coarse_entry "AAA" true 10 5 50))
    as (ranked & Hperm & _ & _ & _ & _ & _ & Hdistinct & _).
  - reflexivity.
  - simpl. discriminate.
  - exists ranked. split; [exact Hperm|]. apply Hdistinct.
    simpl. repeat (constructor; [simpl; intuition discriminate|]). constructor.
Defined.

Lemma SelectCoarse_cached_witness :
  SelectCoarse universe_after_coarse greenblatt_algorithm coarse3
  = (["BBB"; "AAA"]%string, universe_after_coarse).
Proof.
  apply (@SelectCoarse_cached universe_after_coarse greenblatt_algorithm coarse3).
  right. exists (coarse_entry "AAA" true 10 5 50). split; reflexivity.
Defined.
End GreenblattFacts.

(** * Facts about MagicFormulaAlphaModel and SymbolData *)

Module AlphaModelFacts.
Import Greenblatt.
Section WithHost.
Context {host : Host}.
Implicit Types (sd : SymbolData) (d : PyDict.dict SymbolData).

Lemma CanEmit_value sd :
  fst (CanEmit sd)
  = negb (previous sd =? Samples (ROC sd))%Z && IsReady (ROC sd).
Proof.
  unfold CanEmit. destruct (previous sd =? Samples (ROC sd))%Z; reflexivity.
Qed.

Lemma CanEmit_object sd :
  Symbol (snd (CanEmit sd)) = Symbol sd
  /\ ROC (snd (CanEmit sd)) = ROC sd
  /\ Consolidator_ (snd (CanEmit sd)) = Consolidator_ sd
  /\ previous (snd (CanEmit sd)) = Samples (ROC sd).
Proof.
  unfold CanEmit.
  destruct (Z.eqb_spec (previous sd) (Samples (ROC sd))); simpl; auto.
Qed.

Lemma CanEmit_again sd : fst (CanEmit (snd (CanEmit sd))) = false.
Proof.
  rewrite CanEmit_value.
  destruct (CanEmit_object sd) as (_ & -> & _ & ->).
  now rewrite Z.eqb_refl.
Qed.

(** The insight of one item, if its record can emit. *)
Let emitted (interval : timedelta) (item : string * SymbolData)
  : list Insight.t :=
  if fst (CanEmit (snd item))
  then [Insight.Price (fst item) interval Up
          (Some (Return (snd (CanEmit (snd item))))) None]
  else [].

Lemma Update_loop_spec interval (items : list (string * SymbolData)) insights :
  Update_loop interval items insights
  = (insights ++ flat_map (emitted interval) items,
     map (fun item => (fst item, snd (CanEmit (snd item)))) items).
Proof.
  revert insights. induction items as [|[symbol sd] items IH]; intros insights.
  - simpl. now rewrite app_nil_r.
  - simpl. unfold emitted at 1. simpl fst. simpl snd.
    destruct (CanEmit sd) as [can sd'] eqn:E. rewrite IH. simpl.
    destruct can; [rewrite <- app_assoc|]; reflexivity.
Qed.

Lemma Update_spec (self : MagicFormulaAlphaModel) algorithm data :
  Update self algorithm data
  = (flat_map (emitted (predictionInterval self)) (symbolDataBySymbol self),
     set_symbolDataBySymbol self
       (map (fun item => (fst item, snd (CanEmit (snd item))))
          (symbolDataBySymbol self))).
Proof.
  unfold Update, PyDict.items. rewrite Update_loop_spec. reflexivity.
Qed.

Lemma Update_keys (self : MagicFormulaAlphaModel) algorithm data :
  PyDict.keys (symbolDataBySymbol (snd (Update self algorithm data)))
  = PyDict.keys (symbolDataBySymbol self).
Proof.
  rewrite Update_spec. simpl. unfold PyDict.keys. rewrite map_map.
  reflexivity.
Qed.

Lemma Update_emits (self : MagicFormulaAlphaModel) algorithm data i :
  In i (fst (Update self algorithm data)) ->
  exists sd, In (Insight.Symbol i, sd) (symbolDataBySymbol self)
             /\ previous sd <> Samples (ROC sd)
             /\ IsReady (ROC sd) = true.
Proof.
  rewrite Update_spec. simpl. rewrite in_flat_map.
  intros ([k sd] & Hin & Hi). unfold emitted in Hi. simpl in Hi.
  destruct (fst (CanEmit sd)) eqn:E; [|contradiction].
  destruct Hi as [<-|[]]. simpl. exists sd. split; [exact Hin|].
  rewrite CanEmit_value in E. apply andb_true_iff in E as [E1 E2].
  split; [|exact E2]. apply negb_true_iff, Z.eqb_neq in E1. exact E1.
Qed.

Lemma Update_checked (self : MagicFormulaAlphaModel) algorithm data k sd :
  In (k, sd) (symbolDataBySymbol (snd (Update self algorithm data))) ->
  previous sd = Samples (ROC sd).
Proof.
  rewrite Update_spec. simpl. rewrite in_map_iff.
  intros ([k0 sd0] & E & _). simpl in E. injection E as _ <-.
  destruct (CanEmit_object sd0) as (_ & -> & _ & ->). reflexivity.
Qed.

Lemma Update_one_per_symbol (self : MagicFormulaAlphaModel) algorithm data :
  PyDict.wf (symbolDataBySymbol self) ->
  NoDup (map Insight.Symbol (fst (Update self algorithm data))).
Proof.
  rewrite Update_spec. simpl. unfold PyDict.wf, PyDict.keys.
  induction (symbolDataBySymbol self) as [|[k sd] d IH]; simpl; [constructor|].
  intros Hnd. inversion Hnd as [|? ? Hnotin Hnd']; subst.
  rewrite map_app. unfold emitted at 1. simpl.
  destruct (fst (CanEmit sd)); simpl; [|now apply IH].
  constructor; [|now apply IH].
  rewrite in_map_iff. intros (i & Ei & Hi). apply Hnotin.
  apply in_flat_map in Hi as ([k0 sd0] & Hin & Hi). unfold emitted in Hi.
  simpl in Hi. destruct (fst (CanEmit sd0)); [|contradiction].
  destruct Hi as [<-|[]]. simpl in Ei. subst k0.
  change k with (fst (k, sd0)). now apply in_map.
Qed.

(** C10. [CanEmit] is true only when the sample count differs from the
    stored one and the indicator is ready, and every read leaves the stored
    count equal to the sample count. So an insight of [Update] needs a
    record whose count is new, after [Update] no record's count is new, a
    symbol gets at most one insight per [Update], and an [Update] that
    follows another with no sample in between emits nothing. *)
Theorem CanEmit_once_per_sample :
  (forall sd, fst (CanEmit sd) = true ->
              previous sd <> Samples (ROC sd) /\ IsReady (ROC sd) = true)
  /\ (forall sd, previous (snd (CanEmit sd)) = Samples (ROC sd)
                 /\ ROC (snd (CanEmit sd)) = ROC sd)
  /\ (forall (self : MagicFormulaAlphaModel) algorithm data i,
        In i (fst (Update self algorithm data)) ->
        exists sd, In (Insight.Symbol i, sd) (symbolDataBySymbol self)
                   /\ previous sd <> Samples (ROC sd)
                   /\ IsReady (ROC sd) = true)
  /\ (forall (self : MagicFormulaAlphaModel) algorithm data k sd,
        In (k, sd) (symbolDataBySymbol (snd (Update self algorithm data))) ->
        previous sd = Samples (ROC sd))
  /\ (forall (self : MagicFormulaAlphaModel) algorithm data,
        PyDict.wf (symbolDataBySymbol self) ->
        NoDup (map Insight.Symbol (fst (Update self algorithm data))))
  /\ (forall (self : MagicFormulaAlphaModel) algorithm data algorithm' data',
        fst (Update (snd (Update self algorithm data)) algorithm' data') = []).
Proof.
  split.
  { intros sd E. rewrite CanEmit_value in E.
    apply andb_true_iff in E as [E1 E2].
    split; [|exact E2]. apply negb_true_iff, Z.eqb_neq in E1. exact E1. }
  split.
  { intros sd. destruct (CanEmit_object sd) as (_ & H1 & _ & H2). auto. }
  split; [exact Update_emits|].
  split; [exact Update_checked|].
  split; [exact Update_one_per_symbol|].
  intros self algorithm data algorithm' data'.
  destruct (fst (Update (snd (Update self algorithm data)) algorithm' data'))
    as [|i rest] eqn:E; [reflexivity|]. exfalso.
  assert (Hi : In i (fst (Update (snd (Update self algorithm data))
                            algorithm' data'))) by (rewrite E; now left).
  apply Update_emits in Hi as (sd & Hin & Hnew & _).
  apply Update_checked in Hin. contradiction.
Qed.

(** *** The two loops of [OnSecuritiesChanged] *)

Lemma remove_securities_In rs d k v :
  In (k, v) (remove_securities rs d) -> In (k, v) d.
Proof.
  revert d. induction rs as [|r rs IH]; simpl; intros d H; [exact H|].
  apply IH in H. eapply PyDictFacts.In_remove. exact H.
Qed.

Lemma remove_securities_wf rs d :
  PyDict.wf d -> PyDict.wf (remove_securities rs d).
Proof.
  revert d. induction rs as [|r rs IH]; simpl; intros d H; [exact H|].
  apply IH. now apply PyDictFacts.wf_remove.
Qed.

Lemma remove_securities_keys rs d k :
  In k (PyDict.keys (remove_securities rs d)) -> In k (PyDict.keys d).
Proof.
  revert d. induction rs as [|r rs IH]; simpl; intros d H; [exact H|].
  apply IH in H. eapply PyDictFacts.keys_remove_incl. exact H.
Qed.

Lemma remove_securities_gone rs d r :
  PyDict.wf d -> In r rs ->
  ~ In (Security_Symbol r) (PyDict.keys (remove_securities rs d)).
Proof.
  revert d. induction rs as [|r0 rs IH]; simpl; intros d Hwf Hin; [contradiction|].
  destruct Hin as [->|Hin].
  - intros H. apply remove_securities_keys in H.
    revert H. now apply PyDictFacts.remove_not_In.
  - apply IH; [now apply PyDictFacts.wf_remove | exact Hin].
Qed.

Lemma remove_securities_get rs d k :
  ~ In k (map Security_Symbol rs) ->
  PyDict.get k (remove_securities rs d) = PyDict.get k d.
Proof.
  revert d. induction rs as [|r rs IH]; simpl; intros d H; [reflexivity|].
  rewrite IH by tauto. apply PyDictFacts.get_remove_other.
  intros E. apply H. now left.
Qed.

Lemma WarmUpIndicators_Symbol sd rows :
  Symbol (WarmUpIndicators sd rows) = Symbol sd.
Proof.
  unfold WarmUpIndicators. revert sd.
  induction rows as [|row rows IH]; simpl; intros sd; [reflexivity|].
  now rewrite IH.
Qed.

Lemma add_tickers_keyed (self : MagicFormulaAlphaModel) history d :
  keyed_by_symbol d -> keyed_by_symbol (add_tickers self history d).
Proof.
  unfold add_tickers. generalize (DataFrame.levels0 history) as tickers.
  intros tickers. revert d.
  induction tickers as [|ticker tickers IH]; simpl; intros d Hd; [exact Hd|].
  apply IH. destruct (PyDict.contains (SymbolCache_GetSymbol ticker) d);
    [exact Hd|].
  intros k v Hin. apply PyDictFacts.In_setitem in Hin as [[-> ->]|Hin].
  - now rewrite WarmUpIndicators_Symbol.
  - now apply Hd.
Qed.

Lemma add_tickers_wf (self : MagicFormulaAlphaModel) history d :
  PyDict.wf d -> PyDict.wf (add_tickers self history d).
Proof.
  unfold add_tickers. generalize (DataFrame.levels0 history) as tickers.
  intros tickers. revert d.
  induction tickers as [|ticker tickers IH]; simpl; intros d Hd; [exact Hd|].
  apply IH. destruct (PyDict.contains (SymbolCache_GetSymbol ticker) d);
    [exact Hd | now apply PyDictFacts.wf_setitem].
Qed.

Lemma add_tickers_get (self : MagicFormulaAlphaModel) history d k v :
  PyDict.get k d = Some v -> PyDict.get k (add_tickers self history d) = Some v.
Proof.
  unfold add_tickers. generalize (DataFrame.levels0 history) as tickers.
  intros tickers. revert d.
  induction tickers as [|ticker tickers IH]; simpl; intros d Hd; [exact Hd|].
  apply IH.
  destruct (PyDict.contains (SymbolCache_GetSymbol ticker) d) eqn:E;
    [exact Hd|].
  rewrite PyDictFacts.get_setitem_other; [exact Hd|].
  intros ->. unfold PyDict.contains in E. rewrite Hd in E. discriminate.
Qed.

Lemma add_tickers_keys (self : MagicFormulaAlphaModel) history d k :
  In k (PyDict.keys (add_tickers self history d)) ->
  In k (PyDict.keys d)
  \/ In k (map SymbolCache_GetSymbol (DataFrame.levels0 history)).
Proof.
  unfold add_tickers. generalize (DataFrame.levels0 history) as tickers.
  intros tickers. revert d.
  induction tickers as [|ticker tickers IH]; simpl; intros d H; [now left|].
  apply IH in H as [H|H]; [|tauto].
  destruct (PyDict.contains (SymbolCache_GetSymbol ticker) d); [now left|].
  apply PyDictFacts.keys_setitem_In in H as [->|H]; tauto.
Qed.

Lemma Update_keyed (self : MagicFormulaAlphaModel) algorithm data :
  keyed_by_symbol (symbolDataBySymbol self) ->
  keyed_by_symbol (symbolDataBySymbol (snd (Update self algorithm data))).
Proof.
  intros Hd k v. rewrite Update_spec. simpl. rewrite in_map_iff.
  intros ([k0 sd0] & E & Hin). simpl in E. injection E as <- <-.
  destruct (CanEmit_object sd0) as (-> & _). now apply Hd.
Qed.

(** C8, as the code has it. The dictionary of a new model is keyed by
    symbol, and [Update] and [OnSecuritiesChanged] keep it so, with its
    keys distinct. After [OnSecuritiesChanged] the symbol of a removed
    security is no key when the history is empty or has no ticker of that
    symbol, and a symbol that was a key and is not removed keeps its
    record. *)
Theorem symbolDataBySymbol_keyed
  (self : MagicFormulaAlphaModel) (algorithm : QCAlgorithm)
  (data : Slice.t) (changes : SecurityChanges) :
  PyDict.wf (symbolDataBySymbol self) ->
  keyed_by_symbol (symbolDataBySymbol self) ->
  let after := symbolDataBySymbol (OnSecuritiesChanged self algorithm changes) in
  let history :=
    History algorithm (map Security_Symbol (AddedSecurities changes))
      (lookback self) (resolution self) in
  (forall kw_lookback kw_resolution ToTimeSpan,
     symbolDataBySymbol
       (MagicFormulaAlphaModel_init kw_lookback kw_resolution ToTimeSpan) = [])
  /\ keyed_by_symbol after
  /\ PyDict.wf after
  /\ keyed_by_symbol (symbolDataBySymbol (snd (Update self algorithm data)))
  /\ PyDict.wf (symbolDataBySymbol (snd (Update self algorithm data)))
  /\ (forall r, In r (RemovedSecurities changes) ->
                DataFrame.empty history = true
                \/ (forall ticker, In ticker (DataFrame.levels0 history) ->
                                   SymbolCache_GetSymbol ticker <> Security_Symbol r) ->
                ~ In (Security_Symbol r) (PyDict.keys after))
  /\ (forall k sd, PyDict.get k (symbolDataBySymbol self) = Some sd ->
                   ~ In k (map Security_Symbol (RemovedSecurities changes)) ->
                   PyDict.get k after = Some sd).
Proof.
  intros Hwf Hkeyed after history.
  set (removed := RemovedSecurities changes).
  set (d := remove_securities removed (symbolDataBySymbol self)).
  assert (Hd_wf : PyDict.wf d) by now apply remove_securities_wf.
  assert (Hd_keyed : keyed_by_symbol d).
  { intros k v Hin. apply remove_securities_In in Hin. now apply Hkeyed. }
  assert (Eafter : after = if DataFrame.empty history then d
                           else add_tickers self history d).
  { unfold after, OnSecuritiesChanged. fold history. fold removed. fold d.
    destruct (DataFrame.empty history); reflexivity. }
  split; [reflexivity|].
  split.
  { rewrite Eafter. destruct (DataFrame.empty history);
      [exact Hd_keyed | now apply add_tickers_keyed]. }
  split.
  { rewrite Eafter. destruct (DataFrame.empty history);
      [exact Hd_wf | now apply add_tickers_wf]. }
  split; [now apply Update_keyed|].
  split.
  { unfold PyDict.wf. now rewrite Update_keys. }
  split.
  - intros r Hr Hhist Hin. rewrite Eafter in Hin.
    assert (Hgone : ~ In (Security_Symbol r) (PyDict.keys d))
      by now apply remove_securities_gone.
    destruct (DataFrame.empty history) eqn:Eempty; [contradiction|].
    destruct Hhist as [Hhist|Hhist]; [discriminate|].
    apply add_tickers_keys in Hin as [Hin|Hin]; [contradiction|].
    apply in_map_iff in Hin as (ticker & E & Hticker).
    exact (Hhist ticker Hticker E).
  - intros k sd Hget Hk. rewrite Eafter.
    assert (Hd : PyDict.get k d = Some sd).
    { unfold d. now rewrite remove_securities_get. }
    destruct (DataFrame.empty history); [exact Hd | now apply add_tickers_get].
Qed.
End WithHost.

Import Samples.

(** C8, as stated, fails: a security that a change lists as removed and as
    added, and for which the host has history, is a key afterwards, with a
    new record in place of the one it had. *)
Lemma removed_and_added_is_reinitialized :
  In "XXX"%string (map Security_Symbol (RemovedSecurities xxx_changes))
  /\ PyDict.get "XXX"%string (symbolDataBySymbol alpha_model) = Some xxx_data
  /\ PyDict.get "XXX"%string
       (symbolDataBySymbol
          (OnSecuritiesChanged alpha_model one_bar_algorithm xxx_changes))
     = Some (@Build_SymbolData counting_host "XXX"%string (1%Z, 7%Q)
               (Some "XXX"%string) 0%Z)
  /\ In "XXX"%string
       (PyDict.keys
          (symbolDataBySymbol
             (OnSecuritiesChanged alpha_model one_bar_algorithm xxx_changes))).
Proof. vm_compute. repeat split; auto. Qed.

Lemma symbolDataBySymbol_keyed_witness :
  keyed_by_symbol
    (symbolDataBySymbol
       (OnSecuritiesChanged alpha_model greenblatt_algorithm xxx_changes))
  /\ ~ In "XXX"%string
       (PyDict.keys
          (symbolDataBySymbol
             (OnSecuritiesChanged alpha_model greenblatt_algorithm xxx_changes))).
Proof.
  destruct (@symbolDataBySymbol_keyed counting_host alpha_model
              greenblatt_algorithm no_data xxx_changes)
    as (_ & Hkeyed & _ & _ & _ & Hgone & _).
  - unfold PyDict.wf. simpl.
    repeat (constructor; [simpl; intuition discriminate|]). constructor.
  - intros k v [E|[E|[]]]; injection E as <- <-; reflexivity.
  - split; [exact Hkeyed|].
    apply (Hgone (Build_Security "XXX"%string)); [now left | now left].
Defined.

Lemma CanEmit_once_per_sample_witness :
  fst (Update (snd (Update alpha_model one_bar_algorithm no_data))
         one_bar_algorithm no_data) = [].
Proof.
  destruct (@CanEmit_once_per_sample counting_host)
    as (_ & _ & _ & _ & _ & Hquiet).
  apply Hquiet.
Defined.
End AlphaModelFacts.

(** * Facts about MeanReversionLunchBreakAlpha.py *)

Module MeanReversionFacts.
Import MeanReversion.
Section WithArith.
Context {arith : FloatArith}.

Lemma has_return_spec (s : Security) :
  has_return s = true <-> HasData s = true /\ ~ (Open s == 0)%Q.
Proof.
  unfold has_return, Qneqb. rewrite andb_true_iff, negb_true_iff.
  destruct (Qeq_bool (Open s) 0) eqn:E.
  - apply Qeq_bool_iff in E. intuition discriminate.
  - assert (~ (Open s == 0)%Q).
    { intros H. apply Qeq_bool_iff in H. congruence. }
    tauto.
Qed.

Lemma return_step_ok (d : PyDict.dict Q) (s : Security) :
  return_step d s
  = Ok (if has_return s
        then PyDict.setitem (Symbol s) (pre_lunch_return s) d
        else d).
Proof.
  unfold return_step, has_return, pre_lunch_return, truediv, Qneqb.
  destruct (HasData s); simpl; [|reflexivity].
  destruct (Qeq_bool (Open s) 0); reflexivity.
Qed.

Lemma return_loop_ok (securities : list Security) (d : PyDict.dict Q) :
  return_loop securities d
  = Ok (PyDict.assign_all
          (map (fun s => (Symbol s, pre_lunch_return s))
             (filter has_return securities))
          d).
Proof.
  revert d. induction securities as [|s rest IH]; intros d; [reflexivity|].
  simpl return_loop. rewrite return_step_ok. simpl bind. rewrite IH.
  simpl filter. destruct (has_return s); reflexivity.
Qed.

Lemma emit_loop_length interval (items : list (string * Q)) :
  (length (emit_loop interval items) <= 1)%nat.
Proof.
  destruct items as [|[k v] rest]; simpl; [lia|].
  destruct (Qltb 0 v); simpl; lia.
Qed.

Lemma emit_loop_first interval (items : list (string * Q)) i :
  In i (emit_loop interval items) ->
  exists v rest, items = (Insight.Symbol i, v) :: rest.
Proof.
  destruct items as [|[k v] rest]; simpl; [contradiction|].
  destruct (Qltb 0 v); intros [<-|[]]; simpl; eauto.
Qed.

(** The first item of a dictionary stays the first, with its value, under
    assignments to other keys. *)
Lemma assign_all_head (V : Type) (l : list (string * V)) k v
  (d : PyDict.dict V) :
  ~ In k (map fst l) ->
  exists rest, PyDict.assign_all l ((k, v) :: d) = (k, v) :: rest.
Proof.
  revert d. induction l as [|[k' v'] l IH]; intros d Hk.
  - exists d. reflexivity.
  - unfold PyDict.assign_all in *. simpl in *.
    destruct (String.eqb_spec k' k) as [->|Hne]; [tauto|].
    apply IH. tauto.
Qed.

(** C9. The first loop of [Update] never raises: it divides only by a
    nonzero open price. The keys of the return dictionary are the symbols
    of the securities with data and a nonzero open price, a security with
    a zero open price leaves the dictionary as it is, and every insight is
    for the symbol of a security with data and a nonzero open price. *)
Theorem Update_never_divides_by_zero
  (self : MeanReversionLunchBreakAlphaModel) (algorithm : QCAlgorithm)
  (data : Slice.t) :
  (exists symbolsReturn,
     return_loop (ActiveSecurities_Values algorithm) PyDict.empty
     = Ok symbolsReturn
     /\ forall k, In k (PyDict.keys symbolsReturn) <->
                  exists s, In s (ActiveSecurities_Values algorithm)
                            /\ Symbol s = k /\ HasData s = true
                            /\ ~ (Open s == 0)%Q)
  /\ (forall d s, (Open s == 0)%Q -> return_step d s = Ok d)
  /\ (exists insights,
        Update self algorithm data = Ok insights
        /\ forall i, In i insights ->
                     exists s, In s (ActiveSecurities_Values algorithm)
                               /\ Symbol s = Insight.Symbol i
                               /\ HasData s = true /\ ~ (Open s == 0)%Q).
Proof.
  set (securities := ActiveSecurities_Values algorithm).
  set (pairs := map (fun s => (Symbol s, pre_lunch_return s))
                  (filter has_return securities)).
  assert (Hkeys : forall k, In k (PyDict.keys (PyDict.of_items pairs)) <->
                            exists s, In s securities /\ Symbol s = k
                                      /\ HasData s = true /\ ~ (Open s == 0)%Q).
  { intros k. rewrite PyDictFacts.keys_of_items. unfold pairs.
    rewrite map_map. simpl. rewrite in_map_iff. split.
    - intros (s & E & Hs). apply filter_In in Hs as [Hin Hr].
      apply has_return_spec in Hr. exists s. tauto.
    - intros (s & Hin & E & Hr). exists s. split; [exact E|].
      apply filter_In. split; [exact Hin|]. now apply has_return_spec. }
  split; [|split].
  - exists (PyDict.of_items pairs). split; [apply return_loop_ok | exact Hkeys].
  - intros d s Hz. rewrite return_step_ok.
    destruct (has_return s) eqn:E; [|reflexivity].
    apply has_return_spec in E. tauto.
  - unfold Update. fold securities. rewrite return_loop_ok. simpl bind.
    fold pairs. destruct (negb (hour (Time algorithm) =? 12)%Z).
    + exists []. split; [reflexivity|]. intros i [].
    + eexists. split; [reflexivity|]. intros i Hi.
      apply emit_loop_first in Hi as (v & rest & E).
      apply Hkeys. unfold PyDict.items in E. unfold PyDict.of_items.
      rewrite E. now left.
Qed.

(** C6. [Update] returns at most one insight: none when the hour is not
    12 or no security has a computed return, and otherwise one for the
    first security whose return was computed, Down if that return is
    greater than 0 and Up if not, whatever securities follow it (none of
    which overwrites that return, the host's securities having distinct
    symbols). *)
Theorem Update_single_insight
  (self : MeanReversionLunchBreakAlphaModel) (algorithm : QCAlgorithm)
  (data : Slice.t) :
  exists insights,
    Update self algorithm data = Ok insights
    /\ (length insights <= 1)%nat
    /\ (hour (Time algorithm) <> 12%Z -> insights = [])
    /\ (hour (Time algorithm) = 12%Z ->
        (forall x, In x (ActiveSecurities_Values algorithm) ->
                   has_return x = false) ->
        insights = [])
    /\ (hour (Time algorithm) = 12%Z ->
        forall pre s post,
          ActiveSecurities_Values algorithm = pre ++ s :: post ->
          (forall x, In x pre -> has_return x = false) ->
          has_return s = true ->
          (forall x, In x post -> has_return x = true -> Symbol x <> Symbol s) ->
          exists direction,
            insights = [Insight.Price (Symbol s) (predictionInterval self)
                          direction (Some 0) None]
            /\ ((0 < pre_lunch_return s)%Q -> direction = Down)
            /\ (~ (0 < pre_lunch_return s)%Q -> direction = Up)).
Proof.
  unfold Update. rewrite return_loop_ok. simpl bind.
  destruct (Z.eqb_spec (hour (Time algorithm)) 12) as [Hnoon|Hother]; simpl negb.
  - eexists. split; [reflexivity|].
    split; [apply emit_loop_length|].
    split; [intros H; contradiction|].
    split.
    + intros _ Hnone. rewrite filter_none by exact Hnone. reflexivity.
    + intros _ pre s post Evalues Hpre Hs Hpost.
      rewrite Evalues, filter_app, (filter_none _ _ Hpre). simpl filter.
      rewrite Hs. simpl app. simpl map.
      destruct (@assign_all_head Q
                  (map (fun s => (Symbol s, pre_lunch_return s))
                     (filter has_return post))
                  (Symbol s) (pre_lunch_return s) [])
        as (rest & Erest).
      { rewrite map_map. simpl. rewrite in_map_iff.
        intros (x & Ex & Hx). apply filter_In in Hx as [Hin Hr].
        exact (Hpost x Hin Hr Ex). }
      unfold PyDict.items.
      change (PyDict.assign_all (?p :: ?l) PyDict.empty)
        with (PyDict.assign_all l [p]).
      match goal with
      | |- context [emit_loop ?i ?items] =>
          replace items with ((Symbol s, pre_lunch_return s) :: rest)
            by (symmetry; exact Erest)
      end.
      simpl emit_loop.
      destruct (Qltb 0 (pre_lunch_return s)) eqn:E.
      * exists Down. apply Qltb_lt in E. tauto.
      * exists Up. split; [reflexivity|]. split; [|reflexivity].
        intros H. apply Qltb_lt in H. congruence.
  - exists []. split; [reflexivity|]. split; [simpl; lia|].
    split; [reflexivity|]. split; [reflexivity|].
    intros H. contradiction.
Qed.
End WithArith.

Import Samples.

Lemma Update_single_insight_witness :
  Update (arith := exact_arith) lunch_model lunch_algorithm no_data
  = Ok [Insight.Price "UUU"%string 3600000000%Z Down (Some 0) None].
Proof.
  destruct (@Update_single_insight exact_arith lunch_model lunch_algorithm
              no_data)
    as (insights & Erun & _ & _ & _ & Hfirst).
  destruct (Hfirst eq_refl [without_data; zero_open] risen [fallen])
    as (direction & Einsights & Hdown & _).
  - reflexivity.
  - intros x [<-|[<-|[]]]; reflexivity.
  - reflexivity.
  - intros x [<-|[]] _. discriminate.
  - rewrite Erun, Einsights, Hdown; [reflexivity|]. reflexivity.
Defined.

Lemma Update_never_divides_by_zero_witness :
  exists insights,
    Update (arith := exact_arith) lunch_model lunch_algorithm no_data
    = Ok insights.
Proof.
  destruct (@Update_never_divides_by_zero exact_arith lunch_model
              lunch_algorithm no_data)
    as (_ & _ & insights & Erun & _).
  exists insights. exact Erun.
Defined.
End MeanReversionFacts.

(** * Facts about TripleLeveragedETFPairVolatilityDecayAlpha.py *)

Module TripleLeveragedETFFacts.
Import TripleLeveragedETF.

Lemma Update_loop_pairs (groups : list ETFGroup) (insights : list Insight.t) :
  fold_left
    (fun insights group =>
       (insights ++
        [Insight.Price (ultraLong group) (timedelta_days 1) Down (Some 0) None]) ++
       [Insight.Price (ultraShort group) (timedelta_days 1) Down (Some 0) None])
    groups insights
  = insights ++
    flat_map
      (fun group =>
         [Insight.Price (ultraLong group) (timedelta_days 1) Down (Some 0) None;
          Insight.Price (ultraShort group) (timedelta_days 1) Down (Some 0) None])
      groups.
Proof.
  revert insights. induction groups as [|group groups IH]; intros insights.
  - simpl. now rewrite app_nil_r.
  - simpl fold_left. rewrite IH. simpl flat_map.
    rewrite <- !app_assoc. reflexivity.
Qed.

(** C5. [Update] returns, for every ETF group in order, a Down insight for
    the ultra-long symbol followed by a Down insight for the ultra-short
    symbol, each with a period of one day and magnitude zero, and nothing
    else; the list does not depend on the algorithm or the market data. *)
Theorem Update_down_pairs
  (self : RebalancingTripleLeveragedETFAlphaModel) (algorithm : QCAlgorithm)
  (data : Slice.t) :
  Update self algorithm data
  = flat_map
      (fun group =>
         [Insight.Price (ultraLong group) (timedelta_days 1) Down (Some 0) None;
          Insight.Price (ultraShort group) (timedelta_days 1) Down (Some 0) None])
      (ETFgroups self)
  /\ length (Update self algorithm data) = (2 * length (ETFgroups self))%nat
  /\ (forall i, In i (Update self algorithm data) ->
                Insight.Direction i = Down
                /\ Insight.Period i = 86400000000%Z
                /\ Insight.Magnitude i = Some 0
                /\ exists group, In group (ETFgroups self)
                                 /\ (Insight.Symbol i = ultraLong group
                                     \/ Insight.Symbol i = ultraShort group))
  /\ (forall group, In group (ETFgroups self) ->
                    In (Insight.Price (ultraLong group) (timedelta_days 1) Down
                          (Some 0) None)
                       (Update self algorithm data)
                    /\ In (Insight.Price (ultraShort group) (timedelta_days 1)
                             Down (Some 0) None)
                          (Update self algorithm data))
  /\ (forall algorithm' data',
        Update self algorithm' data' = Update self algorithm data).
Proof.
  assert (E : forall a d,
             Update self a d
             = flat_map
                 (fun group =>
                    [Insight.Price (ultraLong group) (timedelta_days 1) Down
                       (Some 0) None;
                     Insight.Price (ultraShort group) (timedelta_days 1) Down
                       (Some 0) None])
                 (ETFgroups self)).
  { intros a d. unfold Update. now rewrite Update_loop_pairs. }
  rewrite !E. split; [reflexivity|]. split; [|split; [|split]].
  - clear E. induction (ETFgroups self) as [|group groups IH]; simpl;
      [reflexivity|].
    simpl in IH. rewrite IH. lia.
  - intros i Hi. apply in_flat_map in Hi as (group & Hgroup & Hi).
    destruct Hi as [<-|[<-|[]]]; simpl;
      (split; [reflexivity|]; split; [reflexivity|]; split; [reflexivity|]);
      exists group; tauto.
  - intros group Hgroup. split; apply in_flat_map; exists group;
      (split; [exact Hgroup|simpl; tauto]).
  - intros algorithm' data'. now rewrite E.
Qed.

Import Samples.

Lemma Update_down_pairs_witness :
  map Insight.Symbol
    (Update etf_model (Build_QCAlgorithm january) no_data)
  = ["UGLD"; "DGLD"; "LABU"; "LABD"; "SOXL"; "SOXS"]%string.
Proof.
  destruct (Update_down_pairs etf_model (Build_QCAlgorithm january) no_data)
    as (Erun & _).
  rewrite Erun. reflexivity.
Defined.
End TripleLeveragedETFFacts.

(** * Facts about LowVolatilityStockSelectionAlpha.py *)

Module LowVolatilityFacts.
Import LowVolatility.
Section WithHost.
Context {host : Host} {runtime : PythonRuntime}.

Lemma symbols_with_data_spec (securities : list Security) :
  symbols_with_data securities = map Symbol (filter HasData securities).
Proof.
  unfold symbols_with_data.
  enough (H : forall acc,
             fold_left (fun symbols security =>
                          if HasData security then symbols ++ [Symbol security]
                          else symbols)
               securities acc
             = acc ++ map Symbol (filter HasData securities))
    by apply (H []).
  induction securities as [|s rest IH]; intros acc; simpl.
  - now rewrite app_nil_r.
  - rewrite IH. destruct (HasData s); simpl; [|reflexivity].
    now rewrite <- app_assoc.
Qed.

Lemma map_fst_combine (A B : Type) (a : list A) (b : list B) :
  map fst (combine a b) = firstn (length b) a.
Proof.
  revert b. induction a as [|x a IH]; intros [|y b]; simpl; try reflexivity.
  now rewrite IH.
Qed.


Lemma emit_all (V : Type) (interval : timedelta) (items : list (string * V))
  (insights : list Insight.t) :
  fold_left
    (fun insights kv =>
       insights ++ [Insight.Price (fst kv) interval Up (Some 0) None])
    items insights
  = insights ++
    map (fun kv => Insight.Price (fst kv) interval Up (Some 0) None) items.
Proof.
  revert insights. induction items as [|kv items IH]; intros insights; simpl.
  - now rewrite app_nil_r.
  - rewrite IH, <- app_assoc. reflexivity.
Qed.


(** *** [sorted] with float keys *)

Lemma float_sorted_perm (A : Type) (key : A -> float) (reverse : bool)
  (l : list A) :
  Permutation (PyFloatSort.sorted key reverse l) l.
Proof.
  unfold PyFloatSort.sorted. destruct (existsb _ l).
  - rewrite sorted_unordered_permutes, map_map. simpl. now rewrite map_id.
  - apply PySortFacts.sorted_perm.
Qed.




(** *** [Update] on a non-empty history *)

(** Before any assumption on its arguments. *)
Lemma Update_nonempty (self : LowVolatilitySelectionAlphaModel)
  (algorithm : QCAlgorithm) (data : Slice.t) :
  DataFrame.empty
    (History algorithm (symbols_with_data (ActiveSecurities_Values algorithm))
       (lookback self) (resolution self)) = false ->
  let symbols := symbols_with_data (ActiveSecurities_Values algorithm) in
  let hist := History algorithm symbols (lookback self) (resolution self) in
  let stdDev :=
    map (fun g => pct_change_std (map DataFrame.close (snd g))) hist in
  let symbolsVol := PyDict.of_items (combine symbols stdDev) in
  Update self algorithm data
  = map (fun kv => Insight.Price (fst kv) (predictionInterval self) Up
                     (Some 0) None)
      (PyDict.of_items
         (slice_to
            (Z.min (Z.of_nat (length symbolsVol)) (numberOfStocks self))
            (PyFloatSort.sorted (fun kv : string * float => snd kv) false
               symbolsVol))).
Proof.
  intros Hhist symbols hist stdDev symbolsVol.
  unfold Update. fold symbols. fold hist. unfold hist at 1, symbols at 1.
  rewrite Hhist.
  change (map (fun column => pct_change_std (snd column))
            (DataFrame.close_unstack hist))
    with (map (fun column : string * list Q => pct_change_std (snd column))
            (map (fun g => (fst g, map DataFrame.close (snd g))) hist)).
  rewrite map_map. simpl snd. fold stdDev. fold symbolsVol.
  unfold PyDict.items. now rewrite emit_all.
Qed.



(** The part of C4 on [Update]: an empty history ends the call with no
    insight. *)
Lemma Update_empty_history
  (self : LowVolatilitySelectionAlphaModel) (algorithm : QCAlgorithm)
  (data : Slice.t) :
  DataFrame.empty
    (History algorithm (symbols_with_data (ActiveSecurities_Values algorithm))
       (lookback self) (resolution self)) = true ->
  Update self algorithm data = [].
Proof. intros H. unfold Update. now rewrite H. Qed.
End WithHost.

Import Samples.


End LowVolatilityFacts.

(** * The empty-history guards *)

Module EmptyHistoryFacts.
Section WithHost.
Context {host : Host} {runtime : PythonRuntime}.

(** C4. When the history is empty, [LowVolatilitySelectionAlphaModel.Update]
    returns no insight, and [MagicFormulaAlphaModel.OnSecuritiesChanged]
    returns after its removal loop: the dictionary is what that loop left
    of it, so every entry was there before with the same record and none
    is added, the other fields are untouched, and with no removed security
    the model is unchanged. *)
Theorem empty_history_is_skipped
  (lv_self : LowVolatility.LowVolatilitySelectionAlphaModel)
  (lv_algorithm : LowVolatility.QCAlgorithm) (data : Slice.t)
  (mf_self : Greenblatt.MagicFormulaAlphaModel)
  (mf_algorithm : Greenblatt.QCAlgorithm)
  (changes : Greenblatt.SecurityChanges) :
  (DataFrame.empty
     (LowVolatility.History lv_algorithm
        (LowVolatility.symbols_with_data
           (LowVolatility.ActiveSecurities_Values lv_algorithm))
        (LowVolatility.lookback lv_self) (LowVolatility.resolution lv_self))
   = true ->
   LowVolatility.Update lv_self lv_algorithm data = [])
  /\ (DataFrame.empty
        (Greenblatt.History mf_algorithm
           (map Greenblatt.Security_Symbol (Greenblatt.AddedSecurities changes))
           (Greenblatt.lookback mf_self) (Greenblatt.resolution mf_self))
      = true ->
      let after := Greenblatt.OnSecuritiesChanged mf_self mf_algorithm changes in
      Greenblatt.symbolDataBySymbol after
      = Greenblatt.remove_securities (Greenblatt.RemovedSecurities changes)
          (Greenblatt.symbolDataBySymbol mf_self)
      /\ (forall k sd,
            In (k, sd) (Greenblatt.symbolDataBySymbol after) ->
            In (k, sd) (Greenblatt.symbolDataBySymbol mf_self))
      /\ (forall k,
            In k (PyDict.keys (Greenblatt.symbolDataBySymbol after)) ->
            In k (PyDict.keys (Greenblatt.symbolDataBySymbol mf_self)))
      /\ Greenblatt.lookback after = Greenblatt.lookback mf_self
      /\ Greenblatt.resolution after = Greenblatt.resolution mf_self
      /\ Greenblatt.predictionInterval after
         = Greenblatt.predictionInterval mf_self
      /\ (Greenblatt.RemovedSecurities changes = [] -> after = mf_self)).
Proof.
  split; [apply LowVolatilityFacts.Update_empty_history|].
  intros Hempty after.
  assert (E : after
              = Greenblatt.set_symbolDataBySymbol mf_self
                  (Greenblatt.remove_securities
                     (Greenblatt.RemovedSecurities changes)
                     (Greenblatt.symbolDataBySymbol mf_self))).
  { unfold after, Greenblatt.OnSecuritiesChanged. now rewrite Hempty. }
  rewrite E. simpl. split; [reflexivity|].
  split; [intros k sd; apply AlphaModelFacts.remove_securities_In|].
  split; [intros k; apply AlphaModelFacts.remove_securities_keys|].
  repeat (split; [reflexivity|]).
  intros ->. destruct mf_self. reflexivity.
Qed.
End WithHost.

Import Samples.

Lemma empty_history_is_skipped_witness :
  LowVolatility.Update (host := counting_host) (runtime := leaves_unordered)
    lowvol_model no_history_algorithm no_data = []
  /\ PyDict.keys
       (Greenblatt.symbolDataBySymbol
          (Greenblatt.OnSecuritiesChanged alpha_model greenblatt_algorithm
             xxx_changes))
     = ["YYY"%string].
Proof.
  destruct (@empty_history_is_skipped counting_host leaves_unordered
              lowvol_model no_history_algorithm no_data alpha_model
              greenblatt_algorithm xxx_changes)
    as (Hupdate & Hchanged).
  split.
  - apply Hupdate. reflexivity.
  - destruct (Hchanged eq_refl) as (Edict & _). rewrite Edict. reflexivity.
Defined.
End EmptyHistoryFacts.

(** * More facts about MagicFormulaUniverseSelectionModel *)

Module UniverseFacts.
Import Greenblatt.
Section WithArith.
Context {arith : FloatArith}.

(** The ranking that [SelectCoarse] cuts at 500. *)
Let top_coarse (coarse : list CoarseFundamental) : list CoarseFundamental :=
  firstn 500 (PySort.sorted DollarVolume true (filter coarse_filter coarse)).

Lemma SelectCoarse_new_month
  (self : MagicFormulaUniverseSelectionModel) (algorithm : QCAlgorithm)
  (coarse : list CoarseFundamental) (first : CoarseFundamental) :
  hd_error coarse = Some first ->
  month (EndTime first) <> lastMonth self ->
  SelectCoarse self algorithm coarse
  = (PyDict.keys
       (PyDict.of_items
          (map (fun i => (Coarse_Symbol i, DollarVolume i)) (top_coarse coarse))),
     {| lastMonth := month (EndTime first);
        dollarVolumeBySymbol :=
          PyDict.of_items
            (map (fun i => (Coarse_Symbol i, DollarVolume i)) (top_coarse coarse));
        symbols :=
          PyDict.keys
            (PyDict.of_items
               (map (fun i => (Coarse_Symbol i, DollarVolume i))
                  (top_coarse coarse))) |}).
Proof.
  intros Hhd Hmonth.
  destruct coarse as [|c rest]; [discriminate|]. injection Hhd as ->.
  unfold SelectCoarse.
  destruct (Z.eqb_spec (month (EndTime first)) (lastMonth self)) as [E|_];
    [contradiction|].
  rewrite slice_to_nonneg by (unfold NumberOfSymbolsCoarse; lia).
  reflexivity.
Qed.

Lemma top_coarse_In (coarse : list CoarseFundamental) x :
  In x (top_coarse coarse) -> In x coarse /\ coarse_filter x = true.
Proof.
  unfold top_coarse. intros H.
  assert (H' : In x (PySort.sorted DollarVolume true
                       (filter coarse_filter coarse))).
  { rewrite <- (firstn_skipn 500). apply in_or_app. now left. }
  apply PySortFacts.sorted_In in H'. now apply filter_In in H'.
Qed.

Lemma top_coarse_distinct (coarse : list CoarseFundamental) :
  NoDup (map Coarse_Symbol coarse) ->
  NoDup (map Coarse_Symbol (top_coarse coarse)).
Proof.
  intros Hnd. unfold top_coarse. rewrite <- firstn_map. apply NoDup_firstn.
  eapply Permutation_NoDup.
  - symmetry. apply Permutation_map. apply PySortFacts.sorted_perm.
  - now apply NoDup_map_filter.
Qed.

(** X1. After [SelectCoarse] has run in a new month on entries with
    distinct symbols, the keys of [dollarVolumeBySymbol] are the returned
    symbols, and looking up a returned symbol gives the dollar volume of
    the coarse entry that carries it. *)
Theorem SelectCoarse_stores_dollar_volume
  (self : MagicFormulaUniverseSelectionModel) (algorithm : QCAlgorithm)
  (coarse : list CoarseFundamental) (first : CoarseFundamental) :
  hd_error coarse = Some first ->
  month (EndTime first) <> lastMonth self ->
  NoDup (map Coarse_Symbol coarse) ->
  let result := fst (SelectCoarse self algorithm coarse) in
  let stored := dollarVolumeBySymbol (snd (SelectCoarse self algorithm coarse)) in
  PyDict.keys stored = result
  /\ (forall x, In x coarse -> In (Coarse_Symbol x) result ->
                PyDict.getitem (Coarse_Symbol x) stored = Ok (DollarVolume x))
  /\ (forall s, ~ In s result -> PyDict.getitem s stored = Raise (KeyError s)).
Proof.
  intros Hhd Hmonth Hnd result stored. unfold result, stored.
  rewrite (SelectCoarse_new_month self algorithm coarse Hhd Hmonth).
  cbn [fst snd dollarVolumeBySymbol].
  set (pairs := map (fun i => (Coarse_Symbol i, DollarVolume i))
                  (top_coarse coarse)).
  assert (Hfst : map fst pairs = map Coarse_Symbol (top_coarse coarse)).
  { unfold pairs. rewrite map_map. reflexivity. }
  assert (Hpairs : NoDup (map fst pairs)).
  { rewrite Hfst. now apply top_coarse_distinct. }
  rewrite (PyDictFacts.of_items_distinct pairs Hpairs).
  split; [reflexivity|]. split.
  - intros x Hx Hsym. unfold PyDict.keys in Hsym. rewrite Hfst in Hsym.
    apply in_map_iff in Hsym as (y & Esym & Hy).
    assert (y = x).
    { destruct (top_coarse_In coarse y Hy) as [Hyc _].
      clear - Hnd Esym Hyc Hx. induction coarse as [|c rest IH]; [contradiction|].
      simpl in Hnd. inversion Hnd as [|? ? Hnotin Hnd']; subst.
      destruct Hyc as [->|Hyc], Hx as [->|Hx]; auto.
      - exfalso. apply Hnotin. rewrite Esym. now apply in_map.
      - exfalso. apply Hnotin. rewrite <- Esym. now apply in_map. }
    subst y. unfold PyDict.getitem.
    rewrite (@PyDictFacts.In_get Q pairs (Coarse_Symbol x) (DollarVolume x));
      [reflexivity | exact Hpairs |].
    unfold pairs. apply in_map_iff. exists x. split; [reflexivity|exact Hy].
  - intros s Hs. unfold PyDict.getitem.
    destruct (PyDict.get s pairs) eqn:E; [|reflexivity].
    exfalso. apply Hs. apply PyDictFacts.get_In in E.
    unfold PyDict.keys. change s with (fst (s, q)). now apply in_map.
Qed.

(** X2. Within a month the selection is frozen: after [SelectCoarse] has
    run in a new month, a call on any coarse list whose first element ends
    in that same month returns the same list and leaves the model as the
    first call left it. *)
Theorem SelectCoarse_frozen_within_month
  (self : MagicFormulaUniverseSelectionModel) (algorithm algorithm' : QCAlgorithm)
  (coarse coarse' : list CoarseFundamental) (first first' : CoarseFundamental) :
  hd_error coarse = Some first ->
  month (EndTime first) <> lastMonth self ->
  hd_error coarse' = Some first' ->
  month (EndTime first') = month (EndTime first) ->
  SelectCoarse (snd (SelectCoarse self algorithm coarse)) algorithm' coarse'
  = SelectCoarse self algorithm coarse.
Proof.
  intros Hhd Hmonth Hhd' Hsame.
  rewrite (SelectCoarse_new_month self algorithm coarse Hhd Hmonth).
  destruct coarse' as [|c rest]; [discriminate|]. injection Hhd' as ->.
  unfold SelectCoarse at 1. cbn [snd lastMonth symbols].
  rewrite Hsame, Z.eqb_refl. reflexivity.
Qed.

(** *** [SelectFine] *)

Lemma NoDup_map_eq (A B : Type) (f : A -> B) (l : list A) (x y : A) :
  NoDup (map f l) -> In x l -> In y l -> f x = f y -> x = y.
Proof.
  induction l as [|a l IH]; simpl; [contradiction|].
  intros Hnd Hx Hy E. inversion Hnd as [|? ? Hnotin Hnd']; subst.
  destruct Hx as [->|Hx], Hy as [->|Hy]; auto.
  - exfalso. apply Hnotin. rewrite E. now apply in_map.
  - exfalso. apply Hnotin. rewrite <- E. now apply in_map.
Qed.

Lemma mapM_raise_inv (A B : Type) (f : A -> result B) (l : list A) e :
  mapM f l = Raise e -> exists x, In x l /\ f x = Raise e.
Proof.
  induction l as [|a l IH]; simpl; [discriminate|].
  destruct (f a) as [b|e0] eqn:Ea; simpl.
  - destruct (mapM f l) as [bs|e1]; simpl; [discriminate|].
    intros E. injection E as ->. destruct (IH eq_refl) as (x & Hx & Ex).
    exists x. tauto.
  - intros E. injection E as ->. exists a. tauto.
Qed.

Lemma sorted_partial_raise_inv (A : Type) (key : A -> result Q)
  (reverse : bool) (l : list A) e :
  PySort.sorted_partial key reverse l = Raise e ->
  exists x, In x l /\ key x = Raise e.
Proof.
  unfold PySort.sorted_partial.
  destruct (mapM (fun x => k <- key x ;; Ok (k, x)) l) as [d|e0] eqn:E; simpl;
    [discriminate|].
  intros E'. injection E' as ->.
  apply mapM_raise_inv in E as (x & Hx & Ex). exists x. split; [exact Hx|].
  destruct (key x); simpl in Ex; [discriminate|]. now injection Ex as ->.
Qed.

Lemma getitem_raise_inv (V : Type) (k : string) (d : PyDict.dict V) e :
  PyDict.getitem k d = Raise e -> e = KeyError k /\ PyDict.contains k d = false.
Proof.
  unfold PyDict.getitem, PyDict.contains.
  destruct (PyDict.get k d); [discriminate|].
  intros E. injection E as <-. tauto.
Qed.

Section Sectors.
Variable self : MagicFormulaUniverseSelectionModel.
Variable filteredFine : list FineFundamental.
Variable percent : Q.

Lemma sector_step_raise_inv (myDict : PyDict.dict (list FineFundamental))
  (key : string) e :
  sector_step self filteredFine percent myDict key = Raise e ->
  exists x, In x filteredFine
            /\ IndustryTemplateCode (CompanyReference x) = key
            /\ PyDict.contains (Fine_Symbol x) (dollarVolumeBySymbol self) = false
            /\ e = KeyError (Fine_Symbol x).
Proof.
  unfold sector_step.
  destruct (PySort.sorted_partial _ true _) as [value|e0] eqn:E; simpl;
    [discriminate|].
  intros E'. injection E' as ->.
  apply sorted_partial_raise_inv in E as (x & Hx & Ex).
  apply filter_In in Hx as [Hin Hcode]. apply String.eqb_eq in Hcode.
  apply getitem_raise_inv in Ex as [-> Hc]. exists x. tauto.
Qed.

Lemma sector_loop_raise_inv (keys : list string)
  (myDict : PyDict.dict (list FineFundamental)) e :
  sector_loop self filteredFine percent keys myDict = Raise e ->
  exists x, In x filteredFine
            /\ In (IndustryTemplateCode (CompanyReference x)) keys
            /\ PyDict.contains (Fine_Symbol x) (dollarVolumeBySymbol self) = false
            /\ e = KeyError (Fine_Symbol x).
Proof.
  revert myDict. induction keys as [|key keys IH]; intros myDict;
    simpl sector_loop; [discriminate|].
  destruct (sector_step self filteredFine percent myDict key) as [d|e0] eqn:E;
    simpl bind.
  - intros H. destruct (IH _ H) as (x & Hx & Hk & Hrest).
    exists x. split; [exact Hx|]. split; [now right|exact Hrest].
  - intros E'. injection E' as ->.
    apply sector_step_raise_inv in E as (x & Hx & Hcode & Hrest).
    exists x. split; [exact Hx|]. split; [now left|exact Hrest].
Qed.

Lemma sector_step_raise (myDict : PyDict.dict (list FineFundamental)) x :
  In x filteredFine ->
  PyDict.contains (Fine_Symbol x) (dollarVolumeBySymbol self) = false ->
  exists e,
    sector_step self filteredFine percent myDict
      (IndustryTemplateCode (CompanyReference x)) = Raise e.
Proof.
  intros Hx Hc. unfold sector_step.
  destruct (@PySortFacts.sorted_partial_raise FineFundamental
              (fun x => PyDict.getitem (Fine_Symbol x) (dollarVolumeBySymbol self))
              true
              (filter (fun y => String.eqb (IndustryTemplateCode (CompanyReference y))
                                  (IndustryTemplateCode (CompanyReference x)))
                 filteredFine)
              x (KeyError (Fine_Symbol x)))
    as (e & ->).
  - apply filter_In. split; [exact Hx | apply String.eqb_refl].
  - unfold PyDict.getitem, PyDict.contains in *.
    destruct (PyDict.get _ _); [discriminate|reflexivity].
  - exists e. reflexivity.
Qed.

Lemma sector_loop_raise (keys : list string)
  (myDict : PyDict.dict (list FineFundamental)) x :
  In x filteredFine ->
  In (IndustryTemplateCode (CompanyReference x)) keys ->
  PyDict.contains (Fine_Symbol x) (dollarVolumeBySymbol self) = false ->
  exists e, sector_loop self filteredFine percent keys myDict = Raise e.
Proof.
  intros Hx Hk Hc. revert myDict.
  induction keys as [|key keys IH]; intros myDict; [contradiction|].
  simpl sector_loop.
  destruct (sector_step self filteredFine percent myDict key) as [d|e0] eqn:E;
    simpl bind; [|eauto].
  destruct Hk as [->|Hk]; [|now apply IH].
  destruct (sector_step_raise myDict x Hx Hc) as (e & E'). congruence.
Qed.
End Sectors.

(** X3. [SelectFine] raises exactly when a security that passes the filter
    and lies in one of the six sectors has no stored dollar volume, and
    what it raises is the [KeyError] of the symbol of such a security. *)
Theorem SelectFine_raises_iff
  (self : MagicFormulaUniverseSelectionModel) (algorithm : QCAlgorithm)
  (fine : list FineFundamental) :
  ((exists e, SelectFine self algorithm fine = Raise e) <->
   (exists x, In x fine /\ fine_filter (Time algorithm) x = true
              /\ In (IndustryTemplateCode (CompanyReference x)) sector_keys
              /\ PyDict.contains (Fine_Symbol x) (dollarVolumeBySymbol self)
                 = false))
  /\ (forall e, SelectFine self algorithm fine = Raise e ->
                exists x, In x fine /\ fine_filter (Time algorithm) x = true
                          /\ In (IndustryTemplateCode (CompanyReference x))
                               sector_keys
                          /\ PyDict.contains (Fine_Symbol x)
                               (dollarVolumeBySymbol self) = false
                          /\ e = KeyError (Fine_Symbol x)).
Proof.
  assert (Hinv : forall e, SelectFine self algorithm fine = Raise e ->
                exists x, In x fine /\ fine_filter (Time algorithm) x = true
                          /\ In (IndustryTemplateCode (CompanyReference x))
                               sector_keys
                          /\ PyDict.contains (Fine_Symbol x)
                               (dollarVolumeBySymbol self) = false
                          /\ e = KeyError (Fine_Symbol x)).
  { intros e. unfold SelectFine.
    destruct (length (filter (fine_filter (Time algorithm)) fine) =? 0)%nat;
      [discriminate|].
    destruct (sector_loop _ _ _ sector_keys PyDict.empty) as [d|e0] eqn:E;
      simpl bind; [discriminate|].
    intros E'. injection E' as ->.
    apply sector_loop_raise_inv in E as (x & Hx & Hk & Hc & He).
    apply filter_In in Hx. exists x. tauto. }
  split; [|exact Hinv]. split.
  - intros (e & He). destruct (Hinv e He) as (x & H). exists x. tauto.
  - intros (x & Hx & Hf & Hk & Hc). unfold SelectFine.
    assert (Hin : In x (filter (fine_filter (Time algorithm)) fine))
      by (apply filter_In; tauto).
    destruct (filter (fine_filter (Time algorithm)) fine) as [|y rest] eqn:E;
      [contradiction|].
    rewrite <- E in *. replace (length _ =? 0)%nat with false
      by (rewrite E; reflexivity).
    destruct (sector_loop_raise self _
                (fl_div (inject_Z NumberOfSymbolsFine)
                   (inject_Z (Z.of_nat (length
                      (filter (fine_filter (Time algorithm)) fine)))))
                sector_keys PyDict.empty x Hin Hk Hc) as (e & ->).
    exists e. reflexivity.
Qed.

(** What the sector loop stores under a key, and what [SelectFine] makes
    of the stored parts. *)
Let sector_part (self : MagicFormulaUniverseSelectionModel)
  (filteredFine : list FineFundamental) (key : string) : list FineFundamental :=
  slice_to
    (sector_quota
       (fl_div (inject_Z NumberOfSymbolsFine)
          (inject_Z (Z.of_nat (length filteredFine))))
       (length (PySort.sorted (stored_dollar_volume self) true
                  (filter (in_sector key) filteredFine))))
    (PySort.sorted (stored_dollar_volume self) true
       (filter (in_sector key) filteredFine)).

Let selection (self : MagicFormulaUniverseSelectionModel)
  (filteredFine : list FineFundamental) : list FineFundamental :=
  firstn 10
    (PySort.sorted (fun x => ROIC_OneYear (OperationRatios x)) false
       (firstn 20
          (PySort.sorted (fun x => EVToEBITDA (ValuationRatios x)) true
             (firstn 500
                (concat (map (sector_part self filteredFine) sector_keys)))))).

Lemma SelectFine_ok
  (self : MagicFormulaUniverseSelectionModel) (algorithm : QCAlgorithm)
  (fine : list FineFundamental) :
  (forall x, In x fine -> fine_filter (Time algorithm) x = true ->
             In (IndustryTemplateCode (CompanyReference x)) sector_keys ->
             PyDict.contains (Fine_Symbol x) (dollarVolumeBySymbol self) = true) ->
  SelectFine self algorithm fine
  = Ok (if (length (filter (fine_filter (Time algorithm)) fine) =? 0)%nat
        then ([], self)
        else (map Fine_Symbol
                (selection self (filter (fine_filter (Time algorithm)) fine)),
              {| lastMonth := lastMonth self;
                 dollarVolumeBySymbol := dollarVolumeBySymbol self;
                 symbols :=
                   map Fine_Symbol
                     (selection self
                        (filter (fine_filter (Time algorithm)) fine)) |})).
Proof.
  intros Hstored.
  set (filteredFine := filter (fine_filter (Time algorithm)) fine).
  assert (Hkeys : forall key, In key sector_keys ->
                              stored_in_sector self filteredFine key).
  { intros key Hkey x Hx Hcode. apply filter_In in Hx as [Hin Hf].
    apply Hstored; [exact Hin | exact Hf | now rewrite Hcode]. }
  destruct (GreenblattFacts.sector_loop_parts
              (fl_div (inject_Z NumberOfSymbolsFine)
                 (inject_Z (Z.of_nat (length filteredFine)))) Hkeys)
    as (myDict & Hloop & Hvalues).
  unfold SelectFine. fold filteredFine.
  destruct (length filteredFine =? 0)%nat; [reflexivity|].
  rewrite Hloop. simpl bind. rewrite Hvalues. reflexivity.
Qed.

Lemma sector_part_In (self : MagicFormulaUniverseSelectionModel)
  (filteredFine : list FineFundamental) (key : string) x :
  In x (sector_part self filteredFine key) ->
  In x filteredFine /\ IndustryTemplateCode (CompanyReference x) = key.
Proof.
  unfold sector_part. intros H. apply slice_to_In in H.
  apply PySortFacts.sorted_In in H. apply filter_In in H as [Hin Hcode].
  split; [exact Hin | now apply String.eqb_eq].
Qed.

Lemma sector_part_distinct (self : MagicFormulaUniverseSelectionModel)
  (filteredFine : list FineFundamental) (key : string) :
  NoDup (map Fine_Symbol filteredFine) ->
  NoDup (map Fine_Symbol (sector_part self filteredFine key)).
Proof.
  intros Hnd. unfold sector_part.
  destruct (slice_to_prefix
              (sector_quota
                 (fl_div (inject_Z NumberOfSymbolsFine)
                    (inject_Z (Z.of_nat (length filteredFine))))
                 (length (PySort.sorted (stored_dollar_volume self) true
                            (filter (in_sector key) filteredFine))))
              (PySort.sorted (stored_dollar_volume self) true
                 (filter (in_sector key) filteredFine))) as [m ->].
  rewrite <- firstn_map. apply NoDup_firstn.
  eapply Permutation_NoDup.
  - symmetry. apply Permutation_map, PySortFacts.sorted_perm.
  - now apply NoDup_map_filter.
Qed.

Lemma sector_parts_distinct (self : MagicFormulaUniverseSelectionModel)
  (filteredFine : list FineFundamental) (keys : list string) :
  NoDup (map Fine_Symbol filteredFine) -> NoDup keys ->
  NoDup (map Fine_Symbol (concat (map (sector_part self filteredFine) keys))).
Proof.
  intros Hnd Hkeys. induction keys as [|key keys IH]; simpl; [constructor|].
  inversion Hkeys as [|? ? Hnotin Hkeys']; subst.
  rewrite map_app. apply NoDup_app.
  - now apply sector_part_distinct.
  - now apply IH.
  - intros s Hs Hs'.
    apply in_map_iff in Hs as (x & Ex & Hx).
    apply in_map_iff in Hs' as (y & Ey & Hy).
    apply sector_part_In in Hx as [Hx Hcode].
    apply in_concat in Hy as (part & Hpart & Hy).
    apply in_map_iff in Hpart as (key' & <- & Hkey').
    apply sector_part_In in Hy as [Hy Hcode'].
    assert (x = y)
      by (apply (NoDup_map_eq Fine_Symbol filteredFine); congruence).
    subst y. apply Hnotin. congruence.
Qed.

Lemma selection_In (self : MagicFormulaUniverseSelectionModel)
  (filteredFine : list FineFundamental) x :
  In x (selection self filteredFine) -> In x filteredFine.
Proof.
  unfold selection. intros H.
  assert (incl_firstn : forall (A : Type) n (l : list A) a,
             In a (firstn n l) -> In a l).
  { intros A n l a Ha. rewrite <- (firstn_skipn n l).
    apply in_or_app. now left. }
  apply incl_firstn, PySortFacts.sorted_In in H.
  apply incl_firstn, PySortFacts.sorted_In in H.
  apply incl_firstn in H.
  apply in_concat in H as (part & Hpart & Hx).
  apply in_map_iff in Hpart as (key & <- & _).
  now apply sector_part_In in Hx.
Qed.

Lemma selection_distinct (self : MagicFormulaUniverseSelectionModel)
  (filteredFine : list FineFundamental) :
  NoDup (map Fine_Symbol filteredFine) ->
  NoDup (map Fine_Symbol (selection self filteredFine)).
Proof.
  intros Hnd. unfold selection.
  rewrite <- firstn_map. apply NoDup_firstn.
  eapply Permutation_NoDup;
    [symmetry; apply Permutation_map, PySortFacts.sorted_perm|].
  rewrite <- firstn_map. apply NoDup_firstn.
  eapply Permutation_NoDup;
    [symmetry; apply Permutation_map, PySortFacts.sorted_perm|].
  rewrite <- firstn_map. apply NoDup_firstn.
  apply sector_parts_distinct; [exact Hnd|].
  unfold sector_keys.
  repeat (constructor; [simpl; intuition discriminate|]). constructor.
Qed.

(** X4. On a fine list with distinct symbols, each with a stored dollar
    volume where [SelectFine] needs one, the selection names no symbol
    twice, names only securities of the list that pass the filter and lie
    in one of the six sectors, and is no longer than the filtered list. *)
Theorem SelectFine_selects_distinct
  (self : MagicFormulaUniverseSelectionModel) (algorithm : QCAlgorithm)
  (fine : list FineFundamental) :
  NoDup (map Fine_Symbol fine) ->
  (forall x, In x fine -> fine_filter (Time algorithm) x = true ->
             In (IndustryTemplateCode (CompanyReference x)) sector_keys ->
             PyDict.contains (Fine_Symbol x) (dollarVolumeBySymbol self) = true) ->
  exists selected self',
    SelectFine self algorithm fine = Ok (selected, self')
    /\ NoDup selected
    /\ (forall s, In s selected ->
                  exists x, In x fine /\ Fine_Symbol x = s
                            /\ fine_filter (Time algorithm) x = true
                            /\ In (IndustryTemplateCode (CompanyReference x))
                                 sector_keys)
    /\ (length selected
        <= length (filter (fine_filter (Time algorithm)) fine))%nat.
Proof.
  intros Hnd Hstored. rewrite (SelectFine_ok self algorithm fine Hstored).
  set (filteredFine := filter (fine_filter (Time algorithm)) fine).
  destruct (length filteredFine =? 0)%nat eqn:Ecount.
  - exists [], self. split; [reflexivity|]. split; [constructor|].
    split; [intros s []|simpl; lia].
  - eexists _, _. split; [reflexivity|].
    split.
    { apply selection_distinct. now apply NoDup_map_filter. }
    split.
    + intros s Hs. apply in_map_iff in Hs as (x & <- & Hx).
      assert (Hsel := Hx). apply selection_In in Hx.
      apply filter_In in Hx as [Hin Hf].
      exists x. repeat split; try assumption.
      unfold selection in Hsel.
      assert (incl_firstn : forall (A : Type) n (l : list A) a,
                 In a (firstn n l) -> In a l).
      { intros A n l a Ha. rewrite <- (firstn_skipn n l).
        apply in_or_app. now left. }
      apply incl_firstn, PySortFacts.sorted_In in Hsel.
      apply incl_firstn, PySortFacts.sorted_In in Hsel.
      apply incl_firstn in Hsel.
      apply in_concat in Hsel as (part & Hpart & Hx).
      apply in_map_iff in Hpart as (key & <- & Hkey).
      apply sector_part_In in Hx as [_ ->]. exact Hkey.
    + rewrite length_map.
      assert (Hnd' : NoDup (selection self filteredFine)).
      { eapply NoDup_map_inv. apply selection_distinct.
        now apply NoDup_map_filter. }
      apply NoDup_incl_length; [exact Hnd'|].
      intros x Hx. now apply selection_In in Hx.
Qed.

(** X5. The host's alternation keeps [symbols] within the keys of
    [dollarVolumeBySymbol]: [SelectCoarse] keeps it so and returns
    [symbols], and [SelectFine], called after it on securities among the
    returned symbols, never raises, selects among these securities, and
    keeps it so, leaving [dollarVolumeBySymbol] and [lastMonth] as they
    are. *)
Theorem universe_selection_protocol
  (self : MagicFormulaUniverseSelectionModel) (algorithm : QCAlgorithm)
  (coarse : list CoarseFundamental) (fine : list FineFundamental) :
  incl (symbols self) (PyDict.keys (dollarVolumeBySymbol self)) ->
  let after_coarse := snd (SelectCoarse self algorithm coarse) in
  incl (symbols after_coarse) (PyDict.keys (dollarVolumeBySymbol after_coarse))
  /\ fst (SelectCoarse self algorithm coarse) = symbols after_coarse
  /\ (incl (map Fine_Symbol fine) (symbols after_coarse) ->
      exists selected after_fine,
        SelectFine after_coarse algorithm fine = Ok (selected, after_fine)
        /\ incl selected (map Fine_Symbol fine)
        /\ incl (symbols after_fine)
             (PyDict.keys (dollarVolumeBySymbol after_fine))
        /\ dollarVolumeBySymbol after_fine = dollarVolumeBySymbol after_coarse
        /\ lastMonth after_fine = lastMonth after_coarse).
Proof.
  intros Hinv after_coarse.
  assert (Hcoarse :
    incl (symbols after_coarse) (PyDict.keys (dollarVolumeBySymbol after_coarse))
    /\ fst (SelectCoarse self algorithm coarse) = symbols after_coarse).
  { unfold after_coarse. destruct coarse as [|first rest]; [now split|].
    destruct (Z.eq_dec (month (EndTime first)) (lastMonth self)) as [E|Hne].
    - unfold SelectCoarse. rewrite E, Z.eqb_refl. now split.
    - rewrite (@SelectCoarse_new_month self algorithm (first :: rest) first
                 eq_refl Hne).
      cbn [fst snd symbols dollarVolumeBySymbol]. split; [|reflexivity].
      intros s Hs. exact Hs. }
  destruct Hcoarse as [Hinv' Hfst]. split; [exact Hinv'|]. split; [exact Hfst|].
  intros Hfine.
  assert (Hstored : forall x, In x fine ->
            fine_filter (Time algorithm) x = true ->
            In (IndustryTemplateCode (CompanyReference x)) sector_keys ->
            PyDict.contains (Fine_Symbol x) (dollarVolumeBySymbol after_coarse)
            = true).
  { intros x Hx _ _. apply PyDictFacts.contains_true, Hinv', Hfine.
    now apply in_map. }
  rewrite (SelectFine_ok after_coarse algorithm fine Hstored).
  destruct (length (filter (fine_filter (Time algorithm)) fine) =? 0)%nat.
  - exists [], after_coarse. split; [reflexivity|].
    split; [intros s []|]. split; [exact Hinv'|]. split; reflexivity.
  - eexists _, _. split; [reflexivity|].
    assert (Hsel : incl (map Fine_Symbol
                           (selection after_coarse
                              (filter (fine_filter (Time algorithm)) fine)))
                     (map Fine_Symbol fine)).
    { intros s Hs. apply in_map_iff in Hs as (x & <- & Hx).
      apply selection_In, filter_In in Hx as [Hx _]. now apply in_map. }
    split; [exact Hsel|]. cbn [symbols dollarVolumeBySymbol lastMonth].
    split; [|split; reflexivity].
    intros s Hs. apply Hinv', Hfine, Hsel, Hs.
Qed.

(** X6. What [SelectFine] leaves in the cache. When no security passes the
    filter it returns the empty list and leaves the model, with its cached
    [symbols], as it is; otherwise it caches what it returns, so that
    [SelectCoarse], for the rest of the month, returns the fine selection
    and not the coarse ranking. *)
Theorem SelectFine_caches_selection
  (self self' : MagicFormulaUniverseSelectionModel)
  (algorithm algorithm' : QCAlgorithm) (fine : list FineFundamental)
  (selected : list string) :
  SelectFine self algorithm fine = Ok (selected, self') ->
  (filter (fine_filter (Time algorithm)) fine = [] ->
   selected = [] /\ self' = self)
  /\ (filter (fine_filter (Time algorithm)) fine <> [] ->
      symbols self' = selected
      /\ forall coarse' first',
           hd_error coarse' = Some first' ->
           month (EndTime first') = lastMonth self ->
           SelectCoarse self' algorithm' coarse' = (selected, self'))
  /\ SelectCoarse self' algorithm' [] = (symbols self', self').
Proof.
  unfold SelectFine.
  destruct (filter (fine_filter (Time algorithm)) fine) as [|x rest] eqn:E.
  - simpl. intros H. injection H as <- <-.
    split; [tauto|]. split; [congruence|reflexivity].
  - replace (length (x :: rest) =? 0)%nat with false by reflexivity.
    destruct (sector_loop _ _ _ sector_keys PyDict.empty) as [d|e]; simpl bind;
      [|discriminate].
    intros H. injection H as <- <-.
    split; [discriminate|]. split; [|reflexivity].
    intros _. split; [reflexivity|].
    intros coarse' first' Hhd Hmonth.
    destruct coarse' as [|c rest']; [discriminate|]. injection Hhd as ->.
    unfold SelectCoarse. cbn [lastMonth symbols].
    rewrite Hmonth, Z.eqb_refl. reflexivity.
Qed.
End WithArith.

Import Samples.

Lemma SelectCoarse_stores_dollar_volume_witness :
  PyDict.getitem "BBB"%string
    (dollarVolumeBySymbol
       (snd (SelectCoarse MagicFormulaUniverseSelectionModel_init
               greenblatt_algorithm coarse3)))
  = Ok 90.
Proof.
  destruct (@SelectCoarse_stores_dollar_volume
              MagicFormulaUniverseSelectionModel_init greenblatt_algorithm
              coarse3 (coarse_entry "AAA" true 10 5 50))
    as (_ & Hlookup & _).
  - reflexivity.
  - simpl. discriminate.
  - simpl. repeat (constructor; [simpl; intuition discriminate|]). constructor.
  - apply (Hlookup (coarse_entry "BBB" true 30 3 90)).
    + simpl. tauto.
    + vm_compute. tauto.
Defined.

Lemma SelectCoarse_frozen_within_month_witness :
  SelectCoarse
    (snd (SelectCoarse MagicFormulaUniverseSelectionModel_init
            greenblatt_algorithm coarse3))
    greenblatt_algorithm [coarse_entry "CCC" true 40 4 160]
  = SelectCoarse MagicFormulaUniverseSelectionModel_init greenblatt_algorithm
      coarse3.
Proof.
  apply (@SelectCoarse_frozen_within_month
           MagicFormulaUniverseSelectionModel_init greenblatt_algorithm
           greenblatt_algorithm coarse3 [coarse_entry "CCC" true 40 4 160]
           (coarse_entry "AAA" true 10 5 50) (coarse_entry "CCC" true 40 4 160)).
  - reflexivity.
  - simpl. discriminate.
  - reflexivity.
  - reflexivity.
Defined.

Lemma SelectFine_raises_iff_witness :
  exists e,
    SelectFine (arith := exact_arith) MagicFormulaUniverseSelectionModel_init
      greenblatt_algorithm fine3 = Raise e.
Proof.
  apply (@SelectFine_raises_iff exact_arith
           MagicFormulaUniverseSelectionModel_init greenblatt_algorithm fine3).
  exists (fine_entry "BBB" "USA" "NAS" "T" 0 200000000 3 10 12 (1 # 20)).
  repeat split; simpl; tauto.
Defined.

Lemma SelectFine_selects_distinct_witness :
  exists selected self',
    SelectFine (arith := exact_arith) universe_after_coarse
      greenblatt_algorithm fine3 = Ok (selected, self')
    /\ NoDup selected.
Proof.
  destruct (@SelectFine_selects_distinct exact_arith universe_after_coarse
              greenblatt_algorithm fine3)
    as (selected & self' & Hrun & Hnd & _).
  - simpl. repeat (constructor; [simpl; intuition discriminate|]). constructor.
  - intros x Hin Hf _.
    destruct Hin as [<-|[<-|[<-|[]]]];
      [reflexivity | reflexivity | vm_compute in Hf; discriminate Hf].
  - exists selected, self'. split; assumption.
Defined.

Lemma universe_selection_protocol_witness :
  exists selected after_fine,
    SelectFine (arith := exact_arith)
      (snd (SelectCoarse MagicFormulaUniverseSelectionModel_init
              greenblatt_algorithm coarse3))
      greenblatt_algorithm (firstn 2 fine3)
    = Ok (selected, after_fine).
Proof.
  destruct (@universe_selection_protocol exact_arith
              MagicFormulaUniverseSelectionModel_init greenblatt_algorithm
              coarse3 (firstn 2 fine3))
    as (_ & _ & Hfine).
  - intros s [].
  - destruct Hfine as (selected & after_fine & Hrun & _).
    + intros s Hs. vm_compute in Hs. vm_compute. tauto.
    + exists selected, after_fine. exact Hrun.
Defined.

Lemma SelectFine_caches_selection_witness :
  SelectCoarse universe_after_coarse greenblatt_algorithm coarse3
  = (["BBB"; "AAA"]%string, universe_after_coarse).
Proof.
  destruct (@SelectFine_caches_selection exact_arith universe_after_coarse
              universe_after_coarse greenblatt_algorithm greenblatt_algorithm
              fine3 ["BBB"; "AAA"]%string)
    as (_ & Hcached & _).
  - vm_compute. reflexivity.
  - destruct Hcached as (_ & Hcoarse).
    + vm_compute. discriminate.
    + apply (Hcoarse coarse3 (coarse_entry "AAA" true 10 5 50)); reflexivity.
Defined.
End UniverseFacts.

(** * More facts about MagicFormulaAlphaModel *)

Module TrackingFacts.
Import Greenblatt GreenblattHostCalls.
Section WithHost.
Context {host : Host}.
Implicit Types (sd : SymbolData) (d : PyDict.dict SymbolData).

(** X7. [Update] changes nothing but the stored sample counts: the keys
    and their order, the indicators, the consolidators and the model's
    other fields stay. Every insight it emits is Up, with the model's
    prediction interval, no confidence, and the current value of the
    indicator of a tracked record of its symbol as magnitude. *)
Theorem Update_changes_only_previous
  (self : MagicFormulaAlphaModel) (algorithm : QCAlgorithm) (data : Slice.t) :
  let after := snd (Update self algorithm data) in
  PyDict.keys (symbolDataBySymbol after) = PyDict.keys (symbolDataBySymbol self)
  /\ Forall2
       (fun old new =>
          fst new = fst old
          /\ Symbol (snd new) = Symbol (snd old)
          /\ ROC (snd new) = ROC (snd old)
          /\ Consolidator_ (snd new) = Consolidator_ (snd old))
       (symbolDataBySymbol self) (symbolDataBySymbol after)
  /\ lookback after = lookback self
  /\ resolution after = resolution self
  /\ predictionInterval after = predictionInterval self
  /\ (forall i, In i (fst (Update self algorithm data)) ->
                Insight.Direction i = Up
                /\ Insight.Period i = predictionInterval self
                /\ Insight.Confidence i = None
                /\ exists sd, In (Insight.Symbol i, sd) (symbolDataBySymbol self)
                              /\ Insight.Magnitude i
                                 = Some (Current_Value (ROC sd))).
Proof.
  intros after. unfold after.
  split; [apply AlphaModelFacts.Update_keys|].
  rewrite AlphaModelFacts.Update_spec. cbn [fst snd].
  split.
  { simpl. induction (symbolDataBySymbol self) as [|[k sd] d IH]; simpl;
      constructor; [|exact IH].
    simpl. destruct (AlphaModelFacts.CanEmit_object sd) as (H1 & H2 & H3 & _).
    auto. }
  split; [reflexivity|]. split; [reflexivity|]. split; [reflexivity|].
  intros i Hi. apply in_flat_map in Hi as ([k sd] & Hin & Hi). simpl in Hi.
  destruct (fst (CanEmit sd)); [|contradiction].
  destruct Hi as [<-|[]]. simpl.
  split; [reflexivity|]. split; [reflexivity|]. split; [reflexivity|].
  exists sd. split; [exact Hin|]. unfold Return.
  destruct (AlphaModelFacts.CanEmit_object sd) as (_ & -> & _). reflexivity.
Qed.

Lemma add_tickers_covers (self : MagicFormulaAlphaModel) history d ticker :
  In ticker (DataFrame.levels0 history) ->
  In (SymbolCache_GetSymbol ticker) (PyDict.keys (add_tickers self history d)).
Proof.
  unfold add_tickers. generalize (DataFrame.levels0 history) as tickers.
  intros tickers. revert d.
  induction tickers as [|t tickers IH]; simpl; intros d Hin; [contradiction|].
  destruct Hin as [->|Hin]; [|now apply IH].
  match goal with
  | |- In _ (PyDict.keys (fold_left ?f tickers ?d0)) =>
      assert (Hmono : forall l d1 k, In k (PyDict.keys d1) ->
                                     In k (PyDict.keys (fold_left f l d1)));
      [|apply Hmono]
  end.
  - induction l as [|t' l IHl]; simpl; intros d1 k Hk; [exact Hk|].
    apply IHl. destruct (PyDict.contains (SymbolCache_GetSymbol t') d1);
      [exact Hk|].
    apply PyDictFacts.keys_setitem_In. now right.
  - destruct (PyDict.contains (SymbolCache_GetSymbol ticker) d) eqn:E.
    + now apply PyDictFacts.contains_true.
    + apply PyDictFacts.keys_setitem_In. now left.
Qed.

(** X8. The symbols tracked after [OnSecuritiesChanged] are those tracked
    before and not removed, together with, when the history is not empty,
    the symbols of the history's tickers. An added security that the
    history has no ticker for is not tracked by this call. *)
Theorem OnSecuritiesChanged_tracks
  (self : MagicFormulaAlphaModel) (algorithm : QCAlgorithm)
  (changes : SecurityChanges) (k : string) :
  PyDict.wf (symbolDataBySymbol self) ->
  let history :=
    History algorithm (map Security_Symbol (AddedSecurities changes))
      (lookback self) (resolution self) in
  In k (PyDict.keys
          (symbolDataBySymbol (OnSecuritiesChanged self algorithm changes)))
  <-> (In k (PyDict.keys (symbolDataBySymbol self))
       /\ ~ In k (map Security_Symbol (RemovedSecurities changes)))
      \/ (DataFrame.empty history = false
          /\ In k (map SymbolCache_GetSymbol (DataFrame.levels0 history))).
Proof.
  intros Hwf history.
  set (removed := RemovedSecurities changes).
  set (d := remove_securities removed (symbolDataBySymbol self)).
  assert (Hd : In k (PyDict.keys d) <->
               In k (PyDict.keys (symbolDataBySymbol self))
               /\ ~ In k (map Security_Symbol removed)).
  { split.
    - intros Hk. split; [now apply AlphaModelFacts.remove_securities_keys in Hk|].
      intros Hr. apply in_map_iff in Hr as (r & <- & Hr).
      revert Hk. now apply AlphaModelFacts.remove_securities_gone.
    - intros [Hk Hr]. unfold d.
      destruct (PyDict.get k (symbolDataBySymbol self)) as [sd|] eqn:E.
      + rewrite <- (AlphaModelFacts.remove_securities_get removed
                      (symbolDataBySymbol self) k Hr) in E.
        apply PyDictFacts.get_In in E.
        change k with (fst (k, sd)). now apply in_map.
      + apply PyDictFacts.get_None in E. contradiction. }
  unfold OnSecuritiesChanged. fold history. fold removed. fold d.
  destruct (DataFrame.empty history) eqn:Eempty; cbn [symbolDataBySymbol set_symbolDataBySymbol].
  - rewrite Hd. intuition discriminate.
  - split.
    + intros Hk. apply AlphaModelFacts.add_tickers_keys in Hk as [Hk|Hk].
      * left. now apply Hd.
      * right. tauto.
    + intros [Hk|[_ Hk]].
      * apply Hd in Hk.
        destruct (PyDict.get k d) as [sd|] eqn:E;
          [|apply PyDictFacts.get_None in E; contradiction].
        apply (AlphaModelFacts.add_tickers_get self history) in E.
        apply PyDictFacts.get_In in E.
        change k with (fst (k, sd)). now apply in_map.
      * apply in_map_iff in Hk as (ticker & <- & Hticker).
        now apply add_tickers_covers.
Qed.

Lemma WarmUpIndicators_fold sd (rows : list DataFrame.Row) :
  WarmUpIndicators sd rows
  = {| Symbol := Symbol sd;
       ROC := fold_left
                (fun roc row =>
                   RateOfChange_Update roc (DataFrame.Index row)
                     (DataFrame.close row))
                rows (ROC sd);
       Consolidator_ := Consolidator_ sd;
       previous := previous sd |}.
Proof.
  unfold WarmUpIndicators. revert sd.
  induction rows as [|row rows IH]; intros sd; simpl.
  - destruct sd; reflexivity.
  - rewrite IH. reflexivity.
Qed.

(** The second loop of [OnSecuritiesChanged] over any run of tickers. *)
Let add_loop (self : MagicFormulaAlphaModel) (history : DataFrame.t)
  (tickers : list string) d : PyDict.dict SymbolData :=
  fold_left
    (fun d ticker =>
       let symbol := SymbolCache_GetSymbol ticker in
       if PyDict.contains symbol d then d
       else
         let symbolData := SymbolData_init symbol (lookback self) in
         PyDict.setitem symbol
           (WarmUpIndicators
              (RegisterIndicators symbolData (resolution self))
              (DataFrame.loc ticker history))
           d)
    tickers d.

Lemma add_loop_get_other (self : MagicFormulaAlphaModel) history tickers d k :
  ~ In k (map SymbolCache_GetSymbol tickers) ->
  PyDict.get k (add_loop self history tickers d) = PyDict.get k d.
Proof.
  unfold add_loop. revert d.
  induction tickers as [|t tickers IH]; simpl; intros d Hk; [reflexivity|].
  rewrite IH by tauto.
  destruct (PyDict.contains (SymbolCache_GetSymbol t) d); [reflexivity|].
  apply PyDictFacts.get_setitem_other. intros ->. tauto.
Qed.

Lemma get_setitem_same (V : Type) (d : PyDict.dict V) k (v : V) :
  PyDict.get k (PyDict.setitem k v d) = Some v.
Proof.
  induction d as [|[k' v'] d IH]; simpl.
  - now rewrite String.eqb_refl.
  - destruct (String.eqb_spec k k') as [->|Hne]; simpl.
    + now rewrite String.eqb_refl.
    + destruct (String.eqb_spec k k'); [contradiction|exact IH].
Qed.

Lemma add_loop_new (self : MagicFormulaAlphaModel) history tickers d ticker :
  In ticker tickers ->
  NoDup (map SymbolCache_GetSymbol tickers) ->
  PyDict.get (SymbolCache_GetSymbol ticker) d = None ->
  PyDict.get (SymbolCache_GetSymbol ticker) (add_loop self history tickers d)
  = Some (WarmUpIndicators
            (RegisterIndicators
               (SymbolData_init (SymbolCache_GetSymbol ticker) (lookback self))
               (resolution self))
            (DataFrame.loc ticker history)).
Proof.
  revert d. induction tickers as [|t tickers IH]; intros d Hticker Hnd Hnew;
    [contradiction|].
  simpl in Hnd. inversion Hnd as [|? ? Hnotin Hnd']; subst.
  destruct Hticker as [->|Hticker].
  - change (add_loop self history (ticker :: tickers) d)
      with (add_loop self history tickers
              (if PyDict.contains (SymbolCache_GetSymbol ticker) d then d
               else PyDict.setitem (SymbolCache_GetSymbol ticker)
                      (WarmUpIndicators
                         (RegisterIndicators
                            (SymbolData_init (SymbolCache_GetSymbol ticker)
                               (lookback self))
                            (resolution self))
                         (DataFrame.loc ticker history))
                      d)).
    rewrite add_loop_get_other by exact Hnotin.
    unfold PyDict.contains. rewrite Hnew. apply get_setitem_same.
  - change (add_loop self history (t :: tickers) d)
      with (add_loop self history tickers
              (if PyDict.contains (SymbolCache_GetSymbol t) d then d
               else PyDict.setitem (SymbolCache_GetSymbol t)
                      (WarmUpIndicators
                         (RegisterIndicators
                            (SymbolData_init (SymbolCache_GetSymbol t)
                               (lookback self))
                            (resolution self))
                         (DataFrame.loc t history))
                      d)).
    apply IH; [exact Hticker | exact Hnd' |].
    destruct (PyDict.contains (SymbolCache_GetSymbol t) d); [exact Hnew|].
    rewrite PyDictFacts.get_setitem_other; [exact Hnew|].
    intros E. apply Hnotin. rewrite <- E. now apply in_map.
Qed.

(** X9. A symbol that [OnSecuritiesChanged] starts to track gets a record
    of its own: the indicator is a new one, updated with the rows that the
    history has for its ticker, in their order; the consolidator is the one
    resolved for the symbol at the model's resolution; the stored sample
    count is 0. *)
Theorem OnSecuritiesChanged_warms_up
  (self : MagicFormulaAlphaModel) (algorithm : QCAlgorithm)
  (changes : SecurityChanges) (ticker : string) :
  DataFrame.empty
    (History algorithm (map Security_Symbol (AddedSecurities changes))
       (lookback self) (resolution self)) = false ->
  In ticker
    (DataFrame.levels0
       (History algorithm (map Security_Symbol (AddedSecurities changes))
          (lookback self) (resolution self))) ->
  NoDup
    (map SymbolCache_GetSymbol
       (DataFrame.levels0
          (History algorithm (map Security_Symbol (AddedSecurities changes))
             (lookback self) (resolution self)))) ->
  PyDict.get (SymbolCache_GetSymbol ticker)
    (remove_securities (RemovedSecurities changes) (symbolDataBySymbol self))
  = None ->
  let history :=
    History algorithm (map Security_Symbol (AddedSecurities changes))
      (lookback self) (resolution self) in
  let symbol := SymbolCache_GetSymbol ticker in
  PyDict.get symbol
    (symbolDataBySymbol (OnSecuritiesChanged self algorithm changes))
  = Some {| Symbol := symbol;
            ROC := fold_left
                     (fun roc row =>
                        RateOfChange_Update roc (DataFrame.Index row)
                          (DataFrame.close row))
                     (DataFrame.loc ticker history)
                     (RateOfChange_new symbol (lookback self));
            Consolidator_ := Some (ResolveConsolidator symbol (resolution self));
            previous := 0 |}.
Proof.
  intros Hempty Hticker Hnd Hnew history symbol.
  unfold OnSecuritiesChanged. fold history. fold history in Hempty.
  rewrite Hempty. cbn [symbolDataBySymbol set_symbolDataBySymbol].
  change (add_tickers self history ?d)
    with (add_loop self history (DataFrame.levels0 history) d).
  unfold symbol.
  rewrite (@add_loop_new self history (DataFrame.levels0 history) _ ticker
             Hticker Hnd Hnew).
  rewrite WarmUpIndicators_fold. reflexivity.
Qed.

(** The removal loop with its host calls leaves the dictionary that the
    loop without them leaves. *)
Lemma remove_securities_calls_dict (removed : list Security) d
  (calls : list (string * Consolidator)) :
  snd (fold_left
         (fun state r =>
            let (symbolData, d') := PyDict.pop (Security_Symbol r) (snd state) in
            match symbolData with
            | Some symbolData => (fst state ++ RemoveConsolidators symbolData, d')
            | None => (fst state, d')
            end)
         removed (calls, d))
  = remove_securities removed d.
Proof.
  revert d calls. induction removed as [|r removed IH]; intros d calls;
    [reflexivity|].
  simpl fold_left.
  destruct (PyDict.get (Security_Symbol r) d); apply IH.
Qed.

Lemma remove_securities_calls_list (removed : list Security) d
  (calls : list (string * Consolidator)) :
  NoDup (map Security_Symbol removed) ->
  fst (fold_left
         (fun state r =>
            let (symbolData, d') := PyDict.pop (Security_Symbol r) (snd state) in
            match symbolData with
            | Some symbolData => (fst state ++ RemoveConsolidators symbolData, d')
            | None => (fst state, d')
            end)
         removed (calls, d))
  = calls ++
    flat_map
      (fun r => match PyDict.get (Security_Symbol r) d with
                | Some symbolData => RemoveConsolidators symbolData
                | None => []
                end)
      removed.
Proof.
  revert d calls. induction removed as [|r removed IH]; intros d calls Hnd.
  - simpl. now rewrite app_nil_r.
  - simpl in Hnd. inversion Hnd as [|? ? Hnotin Hnd']; subst.
    simpl fold_left.
    assert (Hsame : flat_map
              (fun r0 => match PyDict.get (Security_Symbol r0)
                                 (PyDict.remove (Security_Symbol r) d) with
                         | Some symbolData => RemoveConsolidators symbolData
                         | None => []
                         end) removed
            = flat_map
                (fun r0 => match PyDict.get (Security_Symbol r0) d with
                           | Some symbolData => RemoveConsolidators symbolData
                           | None => []
                           end) removed).
    { rewrite !flat_map_concat_map. f_equal. apply map_ext_in.
      intros r0 Hr0.
      rewrite PyDictFacts.get_remove_other; [reflexivity|].
      intros E. apply Hnotin. rewrite <- E. now apply in_map. }
    simpl flat_map.
    destruct (PyDict.get (Security_Symbol r) d) as [sd|];
      (etransitivity; [apply IH; exact Hnd'|]); rewrite Hsame.
    + now rewrite <- app_assoc.
    + reflexivity.
Qed.

(** X10. The removal loop of [OnSecuritiesChanged] asks the host to remove
    a consolidator once for every removed security that is tracked and has
    one, in the order of the removed securities, with the record's own
    symbol and consolidator, and makes no call for a removed security that
    is not tracked; the dictionary it leaves is the one without those
    symbols. *)
Theorem remove_securities_calls_spec
  (removed : list Security) (d : PyDict.dict SymbolData) :
  NoDup (map Security_Symbol removed) ->
  snd (remove_securities_calls removed d) = remove_securities removed d
  /\ (PyDict.wf d ->
      forall r, In r removed ->
                ~ In (Security_Symbol r)
                    (PyDict.keys (snd (remove_securities_calls removed d))))
  /\ fst (remove_securities_calls removed d)
     = flat_map
         (fun r => match PyDict.get (Security_Symbol r) d with
                   | Some symbolData =>
                       match Consolidator_ symbolData with
                       | Some consolidator => [(Symbol symbolData, consolidator)]
                       | None => []
                       end
                   | None => []
                   end)
         removed.
Proof.
  intros Hnd. unfold remove_securities_calls. split; [|split].
  - apply remove_securities_calls_dict.
  - intros Hwf r Hr. rewrite remove_securities_calls_dict.
    now apply AlphaModelFacts.remove_securities_gone.
  - rewrite remove_securities_calls_list by exact Hnd. reflexivity.
Qed.
End WithHost.

Import Samples.

Lemma Update_changes_only_previous_witness :
  PyDict.keys
    (symbolDataBySymbol (snd (Update alpha_model one_bar_algorithm no_data)))
  = ["XXX"; "YYY"]%string.
Proof.
  destruct (@Update_changes_only_previous counting_host alpha_model
              one_bar_algorithm no_data) as (Hkeys & _).
  rewrite Hkeys. reflexivity.
Defined.

Lemma OnSecuritiesChanged_tracks_witness :
  In "XXX"%string
    (PyDict.keys
       (symbolDataBySymbol
          (OnSecuritiesChanged alpha_model one_bar_algorithm xxx_changes))).
Proof.
  apply (@OnSecuritiesChanged_tracks counting_host alpha_model
           one_bar_algorithm xxx_changes "XXX"%string).
  - unfold PyDict.wf. simpl.
    repeat (constructor; [simpl; intuition discriminate|]). constructor.
  - right. split; [reflexivity | simpl; tauto].
Defined.

Lemma OnSecuritiesChanged_warms_up_witness :
  PyDict.get "XXX"%string
    (symbolDataBySymbol
       (OnSecuritiesChanged alpha_model one_bar_algorithm xxx_changes))
  = Some (@Build_SymbolData counting_host "XXX"%string (1%Z, 7%Q)
            (Some "XXX"%string) 0%Z).
Proof.
  apply (@OnSecuritiesChanged_warms_up counting_host alpha_model
           one_bar_algorithm xxx_changes "XXX"%string).
  - reflexivity.
  - simpl. tauto.
  - simpl. repeat (constructor; [simpl; intuition discriminate|]). constructor.
  - reflexivity.
Defined.

Lemma remove_securities_calls_spec_witness :
  fst (remove_securities_calls (RemovedSecurities xxx_changes)
         (symbolDataBySymbol alpha_model))
  = [("XXX"%string, "XXX"%string)].
Proof.
  destruct (@remove_securities_calls_spec counting_host
              (RemovedSecurities xxx_changes) (symbolDataBySymbol alpha_model))
    as (_ & _ & Hcalls).
  - simpl. repeat (constructor; [simpl; intuition discriminate|]). constructor.
  - rewrite Hcalls. reflexivity.
Defined.
End TrackingFacts.

(** * More facts about LowVolatilitySelectionAlphaModel *)

Module LowVolatilityBounds.
Import LowVolatility.
Section WithHost.
Context {host : Host} {runtime : PythonRuntime}.

Lemma In_of_items_fst (V : Type) (l : list (string * V)) kv :
  In kv (PyDict.of_items l) -> In (fst kv) (map fst l).
Proof.
  intros H. apply PyDictFacts.keys_of_items. now apply in_map.
Qed.

Lemma firstn_In (A : Type) (n : nat) (l : list A) (a : A) :
  In a (firstn n l) -> In a l.
Proof.
  intros H. rewrite <- (firstn_skipn n l). apply in_or_app. now left.
Qed.

(** X11. Whatever the history, [Update] never emits two insights for one
    symbol and never one for a security without data: every insight is Up,
    with the model's prediction interval, magnitude 0 and no confidence,
    for the symbol of an active security that has data, and there are no
    more insights than such securities. *)
Theorem Update_insights_are_for_securities_with_data
  (self : LowVolatilitySelectionAlphaModel) (algorithm : QCAlgorithm)
  (data : Slice.t) :
  NoDup (map Insight.Symbol (Update self algorithm data))
  /\ (forall i, In i (Update self algorithm data) ->
                Insight.Direction i = Up
                /\ Insight.Period i = predictionInterval self
                /\ Insight.Magnitude i = Some 0
                /\ Insight.Confidence i = None
                /\ exists security,
                     In security (ActiveSecurities_Values algorithm)
                     /\ HasData security = true
                     /\ Symbol security = Insight.Symbol i)
  /\ (length (Update self algorithm data)
      <= length (filter HasData (ActiveSecurities_Values algorithm)))%nat.
Proof.
  destruct (DataFrame.empty
              (History algorithm
                 (symbols_with_data (ActiveSecurities_Values algorithm))
                 (lookback self) (resolution self))) eqn:Hhist.
  { rewrite (LowVolatilityFacts.Update_empty_history self algorithm data Hhist).
    split; [constructor|]. split; [intros i []|simpl; lia]. }
  rewrite (LowVolatilityFacts.Update_nonempty self algorithm data Hhist).
  cbv zeta.
  set (symbolsVol := PyDict.of_items (combine _ _)).
  assert (EsymbolsVol : symbolsVol = PyDict.of_items (combine _ _))
    by reflexivity.
  set (ranked := PyFloatSort.sorted (fun kv : string * float => snd kv) false
                   symbolsVol).
  assert (Hperm : Permutation ranked symbolsVol)
    by apply LowVolatilityFacts.float_sorted_perm.
  set (lowVol := PyDict.of_items _).
  assert (Hkeys : forall kv, In kv lowVol ->
                             In (fst kv)
                               (symbols_with_data
                                  (ActiveSecurities_Values algorithm))).
  { intros kv Hkv. unfold lowVol in Hkv. apply In_of_items_fst in Hkv.
    apply in_map_iff in Hkv as (kv' & <- & Hkv').
    apply slice_to_In in Hkv'. apply (Permutation_in _ Hperm) in Hkv'.
    rewrite EsymbolsVol in Hkv'. apply In_of_items_fst in Hkv'.
    rewrite LowVolatilityFacts.map_fst_combine in Hkv'.
    now apply firstn_In in Hkv'. }
  split; [|split].
  - rewrite map_map. simpl. apply (PyDictFacts.wf_of_items).
  - intros i Hi. apply in_map_iff in Hi as (kv & <- & Hkv). simpl.
    repeat (split; [reflexivity|]).
    apply Hkeys in Hkv. rewrite LowVolatilityFacts.symbols_with_data_spec in Hkv.
    apply in_map_iff in Hkv as (security & E & Hs).
    apply filter_In in Hs. exists security. tauto.
  - rewrite length_map. unfold lowVol.
    etransitivity; [apply PyDictFacts.length_of_items|].
    destruct (slice_to_prefix
                (Z.min (Z.of_nat (length symbolsVol)) (numberOfStocks self))
                ranked)
      as [m ->].
    rewrite length_firstn. etransitivity; [apply Nat.le_min_r|].
    rewrite (Permutation_length Hperm), EsymbolsVol.
    etransitivity; [apply PyDictFacts.length_of_items|].
    rewrite length_combine, LowVolatilityFacts.symbols_with_data_spec, length_map.
    apply Nat.le_min_l.
Qed.

End WithHost.

Import Samples.

Lemma Update_insights_are_for_securities_with_data_witness :
  (length (Update (host := counting_host) (runtime := leaves_unordered)
             lowvol_model one_column_algorithm no_data) <= 2)%nat.
Proof.
  destruct (@Update_insights_are_for_securities_with_data counting_host
              leaves_unordered lowvol_model one_column_algorithm no_data)
    as (_ & _ & Hlen).
  exact Hlen.
Defined.

End LowVolatilityBounds.

(** * Facts about testAlpha.py *)

Module ShareClassFacts.
Import ShareClassMeanReversion.
Section WithHost.
Context {indicators : IndicatorHost} {arith : FloatArith}.
Implicit Types (self : ShareClassMeanReversionAlphaModel).

Lemma list_getitem_inside (A : Type) (l : list A) (i : Z) :
  (0 <= i < Z.of_nat (length l))%Z ->
  exists x, list_getitem l i = Done x /\ nth_error l (Z.to_nat i) = Some x.
Proof.
  intros Hi. unfold list_getitem. cbv zeta.
  assert (E0 : (i <? 0)%Z = false) by (apply Z.ltb_ge; lia). rewrite !E0.
  destruct (nth_error l (Z.to_nat i)) as [x|] eqn:E.
  - exists x. split; reflexivity.
  - apply nth_error_None in E. lia.
Qed.

Lemma list_getitem_beyond (A : Type) (l : list A) (i : Z) :
  (Z.of_nat (length l) <= i)%Z -> list_getitem l i = Raised IndexError.
Proof.
  intros Hi. unfold list_getitem. cbv zeta.
  assert (E0 : (i <? 0)%Z = false) by (apply Z.ltb_ge; lia). rewrite !E0.
  rewrite (proj2 (nth_error_None l (Z.to_nat i))) by lia. reflexivity.
Qed.

Lemma two_symbols self :
  (2 <= length (symbols self))%nat ->
  exists symbol0 symbol1 rest,
    symbols self = symbol0 :: symbol1 :: rest
    /\ list_getitem (symbols self) 0 = Done symbol0
    /\ list_getitem (symbols self) 1 = Done symbol1.
Proof.
  destruct (symbols self) as [|s0 [|s1 rest]]; simpl; try lia.
  intros _. exists s0, s1, rest. repeat split.
Qed.

Lemma bar_of_symbol self (data : Data) symbol :
  has_all_bars self data = true -> In symbol (symbols self) ->
  exists bar, data_getitem data symbol = Done bar.
Proof.
  unfold has_all_bars. rewrite forallb_forall. intros Hall Hin.
  specialize (Hall symbol Hin). unfold PyDict.contains, data_getitem in *.
  destruct (PyDict.get symbol (Bars data)); [eauto|discriminate].
Qed.

Lemma size_positions_ok self (environment : Environment) :
  ready_to_run self ->
  exists sized,
    size_positions self environment = Done sized
    /\ symbols sized = symbols self /\ sma sized = sma self
    /\ portfolio sized = portfolio self
    /\ period_counter sized = period_counter self
    /\ (exists a b, alpha sized = Some a /\ beta sized = Some b)
    /\ (forall a, alpha self = Some a -> alpha sized = Some a)
    /\ (forall b, beta self = Some b -> beta sized = Some b).
Proof.
  intros (Hsymbols & Hboth & _).
  destruct (two_symbols self Hsymbols) as (s0 & s1 & rest & _ & E0 & E1).
  unfold size_positions.
  destruct (alpha self) as [a|] eqn:Ea, (beta self) as [b|] eqn:Eb.
  - exists self. rewrite Ea, Eb. repeat split; eauto.
  - destruct Hboth as [_ H]. discriminate (H eq_refl).
  - destruct Hboth as [H _]. discriminate (H eq_refl).
  - rewrite E0, E1. simpl. eexists. split; [reflexivity|]. simpl.
    repeat split; eauto; discriminate.
Qed.

Lemma record_position_ok self (data : Data) a b :
  (2 <= length (symbols self))%nat ->
  has_all_bars self data = true ->
  alpha self = Some a -> beta self = Some b ->
  exists value bar0,
    record_position self data
    = Done (value,
            {| symbols := symbols self;
               sma := SimpleMovingAverage_Update (sma self) (EndTime bar0) value;
               portfolio := portfolio self ++ [value];
               period_counter := period_counter self;
               alpha := alpha self;
               beta := beta self |}).
Proof.
  intros Hsymbols Hbars Ea Eb.
  destruct (two_symbols self Hsymbols) as (s0 & s1 & rest & Es & E0 & E1).
  destruct (bar_of_symbol self data s0 Hbars) as (bar0 & Ebar0);
    [rewrite Es; simpl; tauto|].
  destruct (bar_of_symbol self data s1 Hbars) as (bar1 & Ebar1);
    [rewrite Es; simpl; tauto|].
  unfold record_position, position_value.
  rewrite E0, E1. simpl and_then. rewrite Ebar0, Ebar1. simpl and_then.
  rewrite Ea, Eb. simpl. eauto.
Qed.

Lemma crossed_mean_value self current before :
  list_getitem (portfolio self) (period_counter self) = Done current ->
  list_getitem (portfolio self) (period_counter self - 1) = Done before ->
  crossed_mean self
  = Done (xorb (Qle_bool (SimpleMovingAverage_Current_Value (sma self)) current)
               (Qle_bool (SimpleMovingAverage_Current_Value (sma self)) before),
          set_period_counter self (period_counter self + 1)).
Proof.
  intros Ec Eb. unfold crossed_mean, Qltb. rewrite Ec. simpl and_then.
  destruct (Qle_bool (SimpleMovingAverage_Current_Value (sma self)) current)
    eqn:Hc;
    destruct (Qle_bool (SimpleMovingAverage_Current_Value (sma self)) before)
      eqn:Hb;
    rewrite ?Eb; simpl; rewrite ?Ec; simpl; rewrite ?Hc; simpl;
    rewrite ?Eb; simpl; rewrite ?Hb; reflexivity.
Qed.

(** X13. [crossed_mean] compares the recorded positions at
    [period_counter] and [period_counter - 1] with the average: it is True
    exactly when one of them is at or above the average and the other is
    below, and it always advances [period_counter] by one. A counter at or
    beyond the end of the recorded positions raises [IndexError]. *)
Theorem crossed_mean_detects_crossing self :
  ((1 <= period_counter self < Z.of_nat (length (portfolio self)))%Z ->
   exists current before,
     nth_error (portfolio self) (Z.to_nat (period_counter self)) = Some current
     /\ nth_error (portfolio self) (Z.to_nat (period_counter self - 1))
        = Some before
     /\ crossed_mean self
        = Done (xorb
                  (Qle_bool (SimpleMovingAverage_Current_Value (sma self))
                     current)
                  (Qle_bool (SimpleMovingAverage_Current_Value (sma self))
                     before),
                set_period_counter self (period_counter self + 1)))
  /\ ((Z.of_nat (length (portfolio self)) <= period_counter self)%Z ->
      crossed_mean self = Raised IndexError).
Proof.
  split.
  - intros Hpc.
    destruct (@list_getitem_inside Q (portfolio self) (period_counter self))
      as (current & Ec & Hc); [lia|].
    destruct (@list_getitem_inside Q (portfolio self) (period_counter self - 1))
      as (before & Eb & Hb); [lia|].
    exists current, before. split; [exact Hc|]. split; [exact Hb|].
    now apply crossed_mean_value.
  - intros Hpc. unfold crossed_mean.
    now rewrite list_getitem_beyond.
Qed.

Lemma open_position_ok self (value : Q) symbol0 symbol1 rest :
  symbols self = symbol0 :: symbol1 :: rest ->
  open_position self value
  = Done (if Qle_bool (SimpleMovingAverage_Current_Value (sma self)) value
          then [EmitInsights [Insight.Price symbol1 five_minutes Up None None;
                              Insight.Price symbol0 five_minutes Down None None];
                SetHoldings symbol1 (1 # 2);
                SetHoldings symbol0 (- (1 # 2))]
          else [EmitInsights [Insight.Price symbol1 five_minutes Down None None;
                              Insight.Price symbol0 five_minutes Up None None];
                SetHoldings symbol1 (- (1 # 2));
                SetHoldings symbol0 (1 # 2)]).
Proof.
  intros Es. unfold open_position, Qltb. rewrite Es.
  destruct (Qle_bool (SimpleMovingAverage_Current_Value (sma self)) value) eqn:E.
  - reflexivity.
  - assert (Qle_bool value (SimpleMovingAverage_Current_Value (sma self))
            = true).
    { apply Qle_bool_iff.
      destruct (Qlt_le_dec value (SimpleMovingAverage_Current_Value (sma self)))
        as [H|H]; [now apply Qlt_le_weak|].
      apply Qle_bool_iff in H. congruence. }
    destruct (Qle_bool (SimpleMovingAverage_Current_Value (sma self)) value)
      eqn:E'; [discriminate|].
    assert (Hlt : negb (Qle_bool (SimpleMovingAverage_Current_Value (sma self))
                          value) = true) by now rewrite E'.
    rewrite E' in *. simpl. reflexivity.
Qed.

(** What [OnData] does on a slice with both bars. *)
Lemma OnData_complete self (environment : Environment) (data : Data) :
  ready_to_run self ->
  has_all_bars self data = true ->
  exists value bar0 a b torf symbol0 symbol1 rest,
    symbols self = symbol0 :: symbol1 :: rest
    /\ (forall a', alpha self = Some a' -> a = a')
    /\ (forall b', beta self = Some b' -> b = b')
    /\ let recorded :=
         {| symbols := symbols self;
            sma := SimpleMovingAverage_Update (sma self) (EndTime bar0) value;
            portfolio := portfolio self ++ [value];
            period_counter := period_counter self;
            alpha := Some a;
            beta := Some b |} in
       OnData self environment data
       = Done
           (if SimpleMovingAverage_IsReady (sma self)
            then set_period_counter recorded (period_counter self + 1)
            else recorded,
            if SimpleMovingAverage_IsReady (sma self) then
              if Portfolio_Invested environment then
                if torf : bool then [Liquidate] else []
              else if Qle_bool (SimpleMovingAverage_Current_Value (sma recorded))
                        value
              then [EmitInsights
                      [Insight.Price symbol1 five_minutes Up None None;
                       Insight.Price symbol0 five_minutes Down None None];
                    SetHoldings symbol1 (1 # 2);
                    SetHoldings symbol0 (- (1 # 2))]
              else [EmitInsights
                      [Insight.Price symbol1 five_minutes Down None None;
                       Insight.Price symbol0 five_minutes Up None None];
                    SetHoldings symbol1 (- (1 # 2));
                    SetHoldings symbol0 (1 # 2)]
            else []).
Proof.
  intros Hready Hbars.
  destruct (@size_positions_ok self environment Hready)
    as (sized & Esized & Hs & Hsma & Hp & Hpc & (a & b & Ea & Eb) & Ha & Hb).
  destruct Hready as (Hsymbols & _ & Hcounter).
  destruct (@two_symbols self Hsymbols) as (s0 & s1 & rest & Es & _ & _).
  assert (Hbars' : has_all_bars sized data = true)
    by (unfold has_all_bars in *; now rewrite Hs).
  destruct (@record_position_ok sized data a b) as (value & bar0 & Erec);
    [now rewrite Hs | exact Hbars' | exact Ea | exact Eb |].
  rewrite Hs, Hsma, Hp, Hpc, Ea, Eb in Erec.
  exists value, bar0, a, b.
  set (recorded :=
         {| symbols := symbols self;
            sma := SimpleMovingAverage_Update (sma self) (EndTime bar0) value;
            portfolio := portfolio self ++ [value];
            period_counter := period_counter self;
            alpha := Some a;
            beta := Some b |}) in *.
  assert (Hcross : exists torf,
             (if (1 <=? period_counter self)%Z then crossed_mean recorded
              else Done (true, set_period_counter recorded
                                 (period_counter self + 1)))
             = Done (torf, set_period_counter recorded
                             (period_counter self + 1))).
  { destruct (Z.leb_spec 1 (period_counter self)) as [H1|H1]; [|eauto].
    destruct (@list_getitem_inside Q (portfolio recorded)
                (period_counter recorded)) as (current & Ec & _).
    { simpl. rewrite length_app. simpl. lia. }
    destruct (@list_getitem_inside Q (portfolio recorded)
                (period_counter recorded - 1)) as (before & Ebefore & _).
    { simpl. rewrite length_app. simpl. lia. }
    rewrite (@crossed_mean_value recorded current before Ec Ebefore). eauto. }
  destruct Hcross as (torf & Hcross).
  exists torf, s0, s1, rest.
  split; [exact Es|].
  split; [intros a' Ha'; apply Ha in Ha'; congruence|].
  split; [intros b' Hb'; apply Hb in Hb'; congruence|].
  cbv zeta. unfold OnData. fold (has_all_bars self data). rewrite Hbars.
  simpl negb. cbv iota. rewrite Esized. simpl and_then. rewrite Hsma, Erec.
  destruct (SimpleMovingAverage_IsReady (sma self)); simpl negb; cbv iota;
    simpl and_then; [|reflexivity].
  rewrite Hcross. simpl and_then.
  destruct (Portfolio_Invested environment); simpl negb; cbv iota.
  - simpl andb. destruct torf; reflexivity.
  - rewrite (@open_position_ok (set_period_counter recorded
                                  (period_counter self + 1))
               value s0 s1 rest) by exact Es.
    reflexivity.
Qed.

(** X14. From a model as [Initialize] leaves it, [OnData] never raises:
    [Initialize] establishes, and every call of [OnData] keeps, that there
    are two symbols, that the two quantities are set together, and that
    [period_counter] lies within the recorded positions, so that no list
    access of [OnData] or [crossed_mean] is out of range and no quantity
    is [None] when it is multiplied. *)
Theorem OnData_never_raises self (environment : Environment) (data : Data) :
  ready_to_run Initialize
  /\ (ready_to_run self ->
      exists self' actions,
        OnData self environment data = Done (self', actions)
        /\ ready_to_run self').
Proof.
  split.
  { unfold ready_to_run, Initialize. simpl. split; [lia|]. split; [tauto|lia]. }
  intros Hready.
  destruct (has_all_bars self data) eqn:Hbars.
  - destruct (@OnData_complete self environment data Hready Hbars)
      as (value & bar0 & a & b & torf & s0 & s1 & rest & Es & _ & _ & Erun).
    cbv zeta in Erun. rewrite Erun. eexists _, _. split; [reflexivity|].
    destruct Hready as (Hsymbols & _ & Hcounter).
    destruct (SimpleMovingAverage_IsReady (sma self));
      unfold ready_to_run; simpl; rewrite length_app; simpl;
      (split; [exact Hsymbols|]); (split; [split; discriminate|]); lia.
  - exists self, []. split; [|exact Hready].
    unfold OnData. fold (has_all_bars self data). now rewrite Hbars.
Qed.

(** X15. [OnData] asks nothing of the host on a slice that lacks a bar of
    one of the symbols, where it also leaves the model as it is, and
    nothing while the moving average is not ready: a call that returns
    with an action had all bars and a ready average. *)
Theorem OnData_acts_only_when_ready
  self self' (environment : Environment) (data : Data) (actions : list Action) :
  (has_all_bars self data = false ->
   OnData self environment data = Done (self, []))
  /\ (OnData self environment data = Done (self', actions) ->
      actions <> [] ->
      has_all_bars self data = true
      /\ SimpleMovingAverage_IsReady (sma self) = true).
Proof.
  split.
  - intros Hbars. unfold OnData. fold (has_all_bars self data).
    now rewrite Hbars.
  - unfold OnData. fold (has_all_bars self data).
    destruct (has_all_bars self data); simpl negb; cbv iota.
    + destruct (size_positions self environment) as [sized|e] eqn:Esized;
        simpl and_then; [|discriminate].
      assert (Hsma : sma sized = sma self).
      { unfold size_positions in Esized.
        destruct (alpha self), (beta self); try (injection Esized as <-; reflexivity).
        destruct (list_getitem (symbols self) 0); simpl in Esized;
          [|discriminate].
        destruct (list_getitem (symbols self) 1); simpl in Esized;
          [|discriminate].
        injection Esized as <-. reflexivity. }
      rewrite Hsma.
      destruct (SimpleMovingAverage_IsReady (sma self)); simpl negb; cbv iota.
      * intros _ _. split; reflexivity.
      * destruct (record_position sized data); simpl and_then; [|discriminate].
        intros E. injection E as _ <-. intros H. now contradiction H.
    + intros E. injection E as _ <-. intros H. now contradiction H.
Qed.

(** X16. What [OnData] asks of the host, from a model as [Initialize] or an
    earlier call leaves it. With the portfolio invested it liquidates or
    does nothing, and emits no insight. With the portfolio not invested,
    all bars and a ready average, it always acts, and in one of two ways:
    an insight group with opposite directions for the two symbols,
    followed by holdings of one half in the symbol predicted Up and minus
    one half in the other. *)
Theorem OnData_opens_opposite_positions
  self self' (environment : Environment) (data : Data) (actions : list Action) :
  ready_to_run self ->
  OnData self environment data = Done (self', actions) ->
  (Portfolio_Invested environment = true ->
   actions = [] \/ actions = [Liquidate])
  /\ (Portfolio_Invested environment = false ->
      has_all_bars self data = true ->
      SimpleMovingAverage_IsReady (sma self) = true ->
      exists symbol0 symbol1 rest,
        symbols self = symbol0 :: symbol1 :: rest
        /\ (actions
            = [EmitInsights
                 [Insight.Price symbol1 five_minutes Up None None;
                  Insight.Price symbol0 five_minutes Down None None];
               SetHoldings symbol1 (1 # 2);
               SetHoldings symbol0 (- (1 # 2))]
            \/ actions
               = [EmitInsights
                    [Insight.Price symbol1 five_minutes Down None None;
                     Insight.Price symbol0 five_minutes Up None None];
                  SetHoldings symbol1 (- (1 # 2));
                  SetHoldings symbol0 (1 # 2)])).
Proof.
  intros Hready Hrun.
  destruct (has_all_bars self data) eqn:Hbars.
  - destruct (@OnData_complete self environment data Hready Hbars)
      as (value & bar0 & a & b & torf & s0 & s1 & rest & Es & _ & _ & Erun).
    cbv zeta in Erun. rewrite Erun in Hrun. injection Hrun as _ <-.
    split.
    + intros ->. destruct (SimpleMovingAverage_IsReady (sma self)); [|tauto].
      destruct torf; tauto.
    + intros -> _ ->. exists s0, s1, rest. split; [exact Es|].
      destruct (Qle_bool _ value); tauto.
  - assert (E : OnData self environment data = Done (self, [])).
    { unfold OnData. fold (has_all_bars self data). now rewrite Hbars. }
    rewrite E in Hrun. injection Hrun as _ <-.
    split; [tauto|discriminate].
Qed.

(** X17. On a slice with all bars, [OnData] appends one position value to
    [portfolio], advances [period_counter] by one exactly when the average
    was ready at the start of the call, keeps the symbols, and leaves both
    quantities set, unchanged if they were set before. *)
Theorem OnData_records_position
  self (environment : Environment) (data : Data) :
  ready_to_run self ->
  has_all_bars self data = true ->
  exists self' actions value,
    OnData self environment data = Done (self', actions)
    /\ portfolio self' = portfolio self ++ [value]
    /\ period_counter self'
       = (period_counter self
          + if SimpleMovingAverage_IsReady (sma self) then 1 else 0)%Z
    /\ symbols self' = symbols self
    /\ (exists a b, alpha self' = Some a /\ beta self' = Some b)
    /\ (forall a, alpha self = Some a -> alpha self' = Some a)
    /\ (forall b, beta self = Some b -> beta self' = Some b).
Proof.
  intros Hready Hbars.
  destruct (@OnData_complete self environment data Hready Hbars)
    as (value & bar0 & a & b & torf & s0 & s1 & rest & Es & Ha & Hb & Erun).
  cbv zeta in Erun. rewrite Erun. eexists _, _, value.
  split; [reflexivity|].
  destruct (SimpleMovingAverage_IsReady (sma self)); simpl;
    (split; [reflexivity|]); (split; [lia|]); (split; [reflexivity|]);
    (split; [eauto|]);
    (split; [intros a' Ha'; now rewrite (Ha a' Ha')
            |intros b' Hb'; now rewrite (Hb b' Hb')]).
Qed.
End WithHost.

Import ShareClassSamples.

Lemma crossed_mean_detects_crossing_witness :
  crossed_mean
    (set_period_counter (indicators := window_average) warmed_up 1)
  = Done (true, set_period_counter warmed_up 2).
Proof.
  destruct (@crossed_mean_detects_crossing window_average
              (set_period_counter warmed_up 1))
    as (Hinside & _).
  destruct Hinside as (current & before & Ec & Eb & Erun).
  - simpl. lia.
  - rewrite Erun. simpl in Ec, Eb. injection Ec as <-. injection Eb as <-.
    reflexivity.
Defined.

Lemma OnData_never_raises_witness :
  exists self' actions,
    OnData (arith := Samples.exact_arith) warmed_up flat_portfolio
      (both_bars 105 100) = Done (self', actions).
Proof.
  destruct (@OnData_never_raises window_average Samples.exact_arith warmed_up
              flat_portfolio (both_bars 105 100))
    as (_ & Hrun).
  destruct Hrun as (self' & actions & Erun & _).
  - unfold ready_to_run. simpl. split; [lia|]. split; [|lia].
    split; discriminate.
  - exists self', actions. exact Erun.
Defined.

Lemma OnData_acts_only_when_ready_witness :
  OnData (arith := Samples.exact_arith) warmed_up flat_portfolio (one_bar 105)
  = Done (warmed_up, []).
Proof.
  destruct (@OnData_acts_only_when_ready window_average Samples.exact_arith
              warmed_up warmed_up flat_portfolio (one_bar 105) [])
    as (Hskip & _).
  apply Hskip. reflexivity.
Defined.

Lemma OnData_opens_opposite_positions_witness :
  exists self' actions,
    OnData (arith := Samples.exact_arith) warmed_up flat_portfolio
      (both_bars 105 100) = Done (self', actions)
    /\ length actions = 3%nat.
Proof.
  destruct (OnData (arith := Samples.exact_arith) warmed_up flat_portfolio
              (both_bars 105 100)) as [[self' actions]|e] eqn:Erun;
    [|vm_compute in Erun; discriminate Erun].
  exists self', actions. split; [reflexivity|].
  destruct (@OnData_opens_opposite_positions window_average Samples.exact_arith
              warmed_up self' flat_portfolio (both_bars 105 100) actions)
    as (_ & Hopen).
  - unfold ready_to_run. simpl. split; [lia|]. split; [|lia].
    split; discriminate.
  - exact Erun.
  - destruct Hopen as (s0 & s1 & rest & _ & [-> | ->]); reflexivity.
Defined.

Lemma OnData_records_position_witness :
  exists self' actions,
    OnData (arith := Samples.exact_arith) warmed_up flat_portfolio
      (both_bars 105 100) = Done (self', actions)
    /\ period_counter self' = 1%Z.
Proof.
  destruct (@OnData_records_position window_average Samples.exact_arith
              warmed_up flat_portfolio (both_bars 105 100))
    as (self' & actions & value & Erun & _ & Hpc & _).
  - unfold ready_to_run. simpl. split; [lia|]. split; [|lia].
    split; discriminate.
  - reflexivity.
  - exists self', actions. split; [exact Erun|]. rewrite Hpc. reflexivity.
Defined.
End ShareClassFacts.
